(** * VRAM-backed GEM buffer objects: pin counts and the lazy kernel mapping

    A shallow embedding of [drivers/gpu/drm/drm_gem_vram_helper.c].  Each C
    function that works on a [struct drm_gem_vram_object] becomes a
    computation in a small state monad over the object and the kernel log;
    the calls into TTM and the GEM core, which live outside this file, are
    answered by outcome records supplied by the caller of the model. *)

From Stdlib Require Import ZArith List Bool Lia.
Import ListNotations.
Local Open Scope Z_scope.

Set Implicit Arguments.

(** ** Constants of headers that are not part of the sources

    The errno values, the page geometry and the TTM placement flags come from
    [errno-base.h], [asm/page.h] and [drm/ttm/ttm_placement.h].  They are
    parameters of the development; [linux_x86_64] below gives the usual
    values and is used for the concrete examples. *)
Class kernel_headers : Type := {
  EINVAL : Z;
  ENOMEM : Z;
  ENODEV : Z;
  PAGE_SIZE : Z;
  BITS_PER_LONG : Z;
  TTM_PL_FLAG_SYSTEM : Z;
  TTM_PL_FLAG_VRAM : Z;
  TTM_PL_FLAG_UNCACHED : Z;
  TTM_PL_FLAG_WC : Z;
  TTM_PL_MASK_CACHING : Z;
  TTM_PL_FLAG_NO_EVICT : Z
}.

Definition linux_x86_64 : kernel_headers := {|
  EINVAL := 22;
  ENOMEM := 12;
  ENODEV := 19;
  PAGE_SIZE := 4096;
  BITS_PER_LONG := 64;
  TTM_PL_FLAG_SYSTEM := Z.shiftl 1 0;
  TTM_PL_FLAG_VRAM := Z.shiftl 1 2;
  TTM_PL_FLAG_UNCACHED := Z.shiftl 1 17;
  TTM_PL_FLAG_WC := Z.shiftl 1 18;
  TTM_PL_MASK_CACHING := Z.lor (Z.shiftl 1 16) (Z.lor (Z.shiftl 1 17) (Z.shiftl 1 18));
  TTM_PL_FLAG_NO_EVICT := Z.shiftl 1 21
|}.

(** ** Data model *)

(** Pointers are machine addresses read as signed words: [NULL] is 0 and
    [ERR_PTR e] is the address [e] itself, so that the error pointers are the
    addresses in [-MAX_ERRNO .. -1]. *)
Definition NULL : Z := 0.
Definition MAX_ERRNO : Z := 4095.
Definition ERR_PTR (e : Z) : Z := e.
Definition PTR_ERR (p : Z) : Z := p.
Definition IS_ERR (p : Z) : bool := (- MAX_ERRNO <=? p) && (p <? 0).

(** C truth value of an integer or pointer expression. *)
Definition truthy (x : Z) : bool := negb (x =? 0).

(** [struct ttm_place]. *)
Record ttm_place : Type := {
  fpfn : Z;
  lpfn : Z;
  flags : Z
}.

(** Modelled from the spec: [struct ttm_bo_kmap_obj] is declared in
    [drm/ttm/ttm_bo_api.h], which is not among the sources.  The spec's
    MappingCache holds a virtual address and an [is_io_memory] flag; the
    address is kept as a pointer, [NULL] when absent, as the code tests it. *)
Record ttm_bo_kmap_obj : Type := {
  virtual : Z;
  is_io_memory : bool
}.

(** Modelled from the spec: [struct drm_gem_vram_object] is declared in
    [drm/drm_gem_vram_helper.h], which is not among the sources.  The fields
    are the ones the functions below read and write; following the spec's
    data model the two counters are integers. [bo_mem_type] and [bo_offset]
    stand for [bo.mem.mem_type] and [bo.offset] of the embedded TTM object,
    [num_placement] and [num_busy_placement] for the fields of
    [placement]. *)
Record drm_gem_vram_object : Type := {
  bo_mem_type : Z;
  bo_offset : Z;
  kmap : ttm_bo_kmap_obj;
  kmap_use_count : Z;
  num_placement : nat;
  num_busy_placement : nat;
  placements : list ttm_place;
  pin_count : Z
}.

Definition set_pin_count (n : Z) (g : drm_gem_vram_object) :=
  {| bo_mem_type := bo_mem_type g; bo_offset := bo_offset g; kmap := kmap g;
     kmap_use_count := kmap_use_count g; num_placement := num_placement g;
     num_busy_placement := num_busy_placement g; placements := placements g;
     pin_count := n |}.

Definition set_kmap_use_count (n : Z) (g : drm_gem_vram_object) :=
  {| bo_mem_type := bo_mem_type g; bo_offset := bo_offset g; kmap := kmap g;
     kmap_use_count := n; num_placement := num_placement g;
     num_busy_placement := num_busy_placement g; placements := placements g;
     pin_count := pin_count g |}.

Definition set_kmap (k : ttm_bo_kmap_obj) (g : drm_gem_vram_object) :=
  {| bo_mem_type := bo_mem_type g; bo_offset := bo_offset g; kmap := k;
     kmap_use_count := kmap_use_count g; num_placement := num_placement g;
     num_busy_placement := num_busy_placement g; placements := placements g;
     pin_count := pin_count g |}.

Definition set_placement (c : nat) (pls : list ttm_place) (g : drm_gem_vram_object) :=
  {| bo_mem_type := bo_mem_type g; bo_offset := bo_offset g; kmap := kmap g;
     kmap_use_count := kmap_use_count g; num_placement := c;
     num_busy_placement := c; placements := pls;
     pin_count := pin_count g |}.

Definition set_placements (pls : list ttm_place) (g : drm_gem_vram_object) :=
  {| bo_mem_type := bo_mem_type g; bo_offset := bo_offset g; kmap := kmap g;
     kmap_use_count := kmap_use_count g; num_placement := num_placement g;
     num_busy_placement := num_busy_placement g; placements := pls;
     pin_count := pin_count g |}.

Definition set_mem (ty off : Z) (g : drm_gem_vram_object) :=
  {| bo_mem_type := ty; bo_offset := off; kmap := kmap g;
     kmap_use_count := kmap_use_count g; num_placement := num_placement g;
     num_busy_placement := num_busy_placement g; placements := placements g;
     pin_count := pin_count g |}.

(** [a[i] = f (a[i])] on an array kept as a list; an index past the end
    leaves the list alone (the C code never produces one: the array has two
    entries and the index stays below [num_placement <= 2]). *)
Fixpoint update_nth {A : Type} (i : nat) (f : A -> A) (l : list A) : list A :=
  match l, i with
  | [], _ => []
  | x :: t, O => f x :: t
  | x :: t, S j => x :: update_nth j f t
  end.

(** ** The kernel log and the calls that leave this file *)

Inductive warn_site : Type :=
| WARN_cleanup_kmap_use_count
| WARN_cleanup_kmap_virtual
| WARN_offset_pin_count
| WARN_unpin_pin_count
| WARN_kunmap_use_count
| WARN_kunmap_reserve
| WARN_move_notify_use_count
| WARN_vunmap_reserve.

Inductive extcall : Type :=
| ttm_bo_reserve_call
| ttm_bo_unreserve_call
| ttm_bo_validate_call
| ttm_bo_kmap_call
| ttm_bo_kunmap_call
| drm_gem_object_release_call
| drm_gem_object_init_call
| ttm_bo_init_call.

Inductive event : Type :=
| Warn (s : warn_site)
| Call (c : extcall).

Definition warn_site_eqb (a b : warn_site) : bool :=
  match a, b with
  | WARN_cleanup_kmap_use_count, WARN_cleanup_kmap_use_count
  | WARN_cleanup_kmap_virtual, WARN_cleanup_kmap_virtual
  | WARN_offset_pin_count, WARN_offset_pin_count
  | WARN_unpin_pin_count, WARN_unpin_pin_count
  | WARN_kunmap_use_count, WARN_kunmap_use_count
  | WARN_kunmap_reserve, WARN_kunmap_reserve
  | WARN_move_notify_use_count, WARN_move_notify_use_count
  | WARN_vunmap_reserve, WARN_vunmap_reserve => true
  | _, _ => false
  end.

Definition warned (s : warn_site) (log : list event) : bool :=
  existsb (fun e => match e with Warn s' => warn_site_eqb s s' | Call _ => false end) log.

(** The state a function runs in: the buffer object and the log, in
    chronological order. *)
Record kstate : Type := {
  gbo : drm_gem_vram_object;
  dmesg : list event
}.

Definition M (A : Type) : Type := kstate -> A * kstate.

Definition ret {A : Type} (a : A) : M A := fun s => (a, s).

Definition bind {A B : Type} (m : M A) (k : A -> M B) : M B :=
  fun s => k (fst (m s)) (snd (m s)).

Notation "x <- m ;; k" := (bind m (fun x => k))
  (at level 61, m at next level, right associativity).
Notation "m ;; k" := (bind m (fun _ => k))
  (at level 61, right associativity).

Definition get_gbo : M drm_gem_vram_object := fun s => (gbo s, s).

Definition get_dmesg : M (list event) := fun s => (dmesg s, s).

Definition modify_gbo (f : drm_gem_vram_object -> drm_gem_vram_object) : M unit :=
  fun s => (tt, {| gbo := f (gbo s); dmesg := dmesg s |}).

Definition emit (e : event) : M unit :=
  fun s => (tt, {| gbo := gbo s; dmesg := dmesg s ++ [e] |}).

(** [WARN_ON(c)]: logs whenever [c] holds and evaluates to [c]. *)
Definition WARN_ON (site : warn_site) (c : bool) : M bool :=
  (if c then emit (Warn site) else ret tt) ;; ret c.

(** [WARN_ON_ONCE(c)] and [WARN_ONCE(c, ...)]: log the first time [c] holds
    at this site, and evaluate to [c] every time. *)
Definition WARN_ON_ONCE (site : warn_site) (c : bool) : M bool :=
  log <- get_dmesg ;;
  (if c && negb (warned site log) then emit (Warn site) else ret tt) ;;
  ret c.

Definition call (c : extcall) : M unit := emit (Call c).

Definition when (c : bool) (m : M unit) : M unit := if c then m else ret tt.

(** ** Outcomes of the external services *)

(** What [ttm_bo_validate] answers: its return value and, when it moves the
    buffer, the new [mem_type] and offset. *)
Record ttm_validate_outcome : Type := {
  v_ret : Z;
  v_move : option (Z * Z)
}.

(** What [ttm_bo_kmap] answers: its return value and what it leaves in the
    kmap object. *)
Record ttm_kmap_outcome : Type := {
  k_ret : Z;
  k_obj : ttm_bo_kmap_obj
}.

(** What the allocator and the initialisers answer when an object is
    created: the address [kzalloc] returns ([NULL] on failure), the return
    values of [drm_gem_object_init] and [ttm_bo_init], and the memory type
    and offset [ttm_bo_init] leaves in the object. *)
Record create_outcome : Type := {
  kzalloc : Z;
  gem_object_init_ret : Z;
  ttm_bo_init_ret : Z;
  ttm_bo_init_mem : Z * Z
}.

(** What [drm_gem_handle_create] answers: its return value and the handle. *)
Record handle_outcome : Type := {
  h_ret : Z;
  h_handle : Z
}.

(** [struct drm_mode_create_dumb] of the DRM uAPI ([uapi/drm/drm_mode.h],
    not among the sources): [size] is 64 bits wide, the other fields 32
    bits, all unsigned. *)
Record drm_mode_create_dumb : Type := {
  height : Z;
  width : Z;
  bpp : Z;
  dumb_flags : Z;
  handle : Z;
  pitch : Z;
  size : Z
}.

(** Unsigned arithmetic wraps: [u32] and [u64] reduce to the width of the
    uAPI fields. *)
Definition u32 (x : Z) : Z := x mod 2 ^ 32.
Definition u64 (x : Z) : Z := x mod 2 ^ 64.

(** Conversion to the signed 64-bit type [s64]: the value modulo [2^64],
    read in two's complement. *)
Definition s64 (x : Z) : Z := (x + 2 ^ 63) mod 2 ^ 64 - 2 ^ 63.

Section vram_helper.

Context {hdr : kernel_headers}.

(** ** Buffer-object helpers *)

Definition drm_gem_vram_cleanup : M unit :=
  g <- get_gbo ;;
  WARN_ON WARN_cleanup_kmap_use_count (truthy (kmap_use_count g)) ;;
  WARN_ON WARN_cleanup_kmap_virtual (truthy (virtual (kmap g))) ;;
  call drm_gem_object_release_call.

Definition set_flags (fl : Z) (p : ttm_place) : ttm_place :=
  {| fpfn := fpfn p; lpfn := lpfn p; flags := fl |}.

Definition clear_pfn (p : ttm_place) : ttm_place :=
  {| fpfn := 0; lpfn := 0; flags := flags p |}.

(** [for (i = 0; i < c; ++i) placements[i] = f (placements[i])]. *)
Definition for_placements (c : nat) (f : ttm_place -> ttm_place)
    (pls : list ttm_place) : list ttm_place :=
  fold_left (fun a i => update_nth i f a) (seq 0 c) pls.

Definition drm_gem_vram_placement (pl_flag : Z) (g : drm_gem_vram_object)
    : drm_gem_vram_object :=
  let pls := placements g in
  let c := 0%nat in
  let '(pls, c) :=
    if truthy (Z.land pl_flag TTM_PL_FLAG_VRAM)
    then (update_nth c (set_flags (Z.lor TTM_PL_FLAG_WC
                          (Z.lor TTM_PL_FLAG_UNCACHED TTM_PL_FLAG_VRAM))) pls, S c)
    else (pls, c) in
  let '(pls, c) :=
    if truthy (Z.land pl_flag TTM_PL_FLAG_SYSTEM)
    then (update_nth c (set_flags (Z.lor TTM_PL_MASK_CACHING TTM_PL_FLAG_SYSTEM)) pls, S c)
    else (pls, c) in
  let '(pls, c) :=
    if Nat.eqb c 0
    then (update_nth c (set_flags (Z.lor TTM_PL_MASK_CACHING TTM_PL_FLAG_SYSTEM)) pls, S c)
    else (pls, c) in
  set_placement c (for_placements c clear_pfn pls) g.

(** ** The memory-manager hooks TTM calls back *)

Definition drm_gem_vram_bo_driver_evict_flags : M unit :=
  modify_gbo (drm_gem_vram_placement TTM_PL_FLAG_SYSTEM).

Definition drm_gem_vram_bo_driver_move_notify : M unit :=
  g <- get_gbo ;;
  w <- WARN_ON_ONCE WARN_move_notify_use_count (truthy (kmap_use_count g)) ;;
  if w then ret tt
  else if negb (truthy (virtual (kmap g))) then ret tt
  else
    call ttm_bo_kunmap_call ;;
    modify_gbo (fun g => set_kmap {| virtual := NULL;
                                     is_io_memory := is_io_memory (kmap g) |} g).

(** ** TTM services *)

(** Modelled from the spec: [ttm_bo_validate] belongs to TTM and is not among
    the sources.  From the spec's PlacementPolicy: a validation either leaves
    the buffer where it is or moves it to another tier, in which case the
    move-notify hook runs on it before the new memory is recorded; it
    reports success or an error.  The hook is the one of this file, which
    TTM reaches through [bo_driver_move_notify]. *)
Definition ttm_bo_validate (o : ttm_validate_outcome) : M Z :=
  call ttm_bo_validate_call ;;
  match v_move o with
  | Some (ty, off) =>
      drm_gem_vram_bo_driver_move_notify ;;
      modify_gbo (set_mem ty off)
  | None => ret tt
  end ;;
  ret (v_ret o).

(** Modelled from the spec: [ttm_bo_reserve] and [ttm_bo_unreserve] take and
    drop the per-object lock; taking it can fail, and then nothing else has
    happened. *)
Definition ttm_bo_reserve (r : Z) : M Z :=
  call ttm_bo_reserve_call ;; ret r.

Definition ttm_bo_unreserve : M unit := call ttm_bo_unreserve_call.

(** Modelled from the spec: [ttm_bo_kmap] is the platform mapping service;
    it fills the kmap object and reports success or an error. *)
Definition ttm_bo_kmap (o : ttm_kmap_outcome) : M Z :=
  call ttm_bo_kmap_call ;;
  modify_gbo (set_kmap (k_obj o)) ;;
  ret (k_ret o).

(** ** Pinning *)

(** The function returns [s64]: the error as [(s64)-ENODEV], the offset
    converted on return. *)
Definition drm_gem_vram_offset : M Z :=
  g <- get_gbo ;;
  w <- WARN_ON_ONCE WARN_offset_pin_count (negb (truthy (pin_count g))) ;;
  if w then ret (s64 (- ENODEV)) else ret (s64 (bo_offset g)).

Definition or_no_evict (p : ttm_place) : ttm_place :=
  set_flags (Z.lor (flags p) TTM_PL_FLAG_NO_EVICT) p.

Definition and_not_no_evict (p : ttm_place) : ttm_place :=
  set_flags (Z.land (flags p) (Z.lnot TTM_PL_FLAG_NO_EVICT)) p.

Definition incr_pin_count (g : drm_gem_vram_object) :=
  set_pin_count (pin_count g + 1) g.

Definition drm_gem_vram_pin_locked (o : ttm_validate_outcome) (pl_flag : Z) : M Z :=
  g <- get_gbo ;;
  if truthy (pin_count g) then
    modify_gbo incr_pin_count ;; ret 0
  else
    when (truthy pl_flag) (modify_gbo (drm_gem_vram_placement pl_flag)) ;;
    modify_gbo (fun g => set_placements
                  (for_placements (num_placement g) or_no_evict (placements g)) g) ;;
    r <- ttm_bo_validate o ;;
    if r <? 0 then ret r
    else modify_gbo incr_pin_count ;; ret 0.

Definition drm_gem_vram_pin (reserve : Z) (o : ttm_validate_outcome) (pl_flag : Z) : M Z :=
  r <- ttm_bo_reserve reserve ;;
  if truthy r then ret r
  else
    r <- drm_gem_vram_pin_locked o pl_flag ;;
    ttm_bo_unreserve ;;
    ret r.

Definition drm_gem_vram_unpin_locked (o : ttm_validate_outcome) : M Z :=
  g <- get_gbo ;;
  w <- WARN_ON_ONCE WARN_unpin_pin_count (negb (truthy (pin_count g))) ;;
  if w then ret 0
  else
    modify_gbo (fun g => set_pin_count (pin_count g - 1) g) ;;
    g <- get_gbo ;;
    if truthy (pin_count g) then ret 0
    else
      modify_gbo (fun g => set_placements
                    (for_placements (num_placement g) and_not_no_evict (placements g)) g) ;;
      r <- ttm_bo_validate o ;;
      if r <? 0 then ret r else ret 0.

Definition drm_gem_vram_unpin (reserve : Z) (o : ttm_validate_outcome) : M Z :=
  r <- ttm_bo_reserve reserve ;;
  if truthy r then ret r
  else
    r <- drm_gem_vram_unpin_locked o ;;
    ttm_bo_unreserve ;;
    ret r.

(** ** The lazily released kernel mapping *)

(** [ttm_kmap_obj_virtual(map, is_iomem)], an inline of [ttm_bo_api.h]:
    stores the I/O-memory flag through [is_iomem] and returns the address. *)
Definition ttm_kmap_obj_virtual (k : ttm_bo_kmap_obj) : Z * option bool :=
  (virtual k, Some (is_io_memory k)).

(** The out-parameter [bool *is_iomem] is an [option bool]: [None] for a
    null pointer, [Some b] for a pointer to a [bool] that currently holds
    [b].  Each function returns the content after the call next to its
    result. *)

(** The code from the label [out:] on. *)
Definition drm_gem_vram_kmap_locked_out (is_iomem : option bool) : M (Z * option bool) :=
  g <- get_gbo ;;
  if negb (truthy (virtual (kmap g))) then
    ret (NULL, match is_iomem with Some _ => Some false | None => None end)
  else
    modify_gbo (fun g => set_kmap_use_count (kmap_use_count g + 1) g) ;;
    g <- get_gbo ;;
    match is_iomem with
    | Some _ => ret (ttm_kmap_obj_virtual (kmap g))
    | None => ret (virtual (kmap g), None)
    end.

Definition drm_gem_vram_kmap_locked (o : ttm_kmap_outcome) (map : bool)
    (is_iomem : option bool) : M (Z * option bool) :=
  g <- get_gbo ;;
  if kmap_use_count g >? 0 then drm_gem_vram_kmap_locked_out is_iomem
  else if truthy (virtual (kmap g)) || negb map then
    drm_gem_vram_kmap_locked_out is_iomem
  else
    r <- ttm_bo_kmap o ;;
    if truthy r then ret (ERR_PTR r, is_iomem)
    else drm_gem_vram_kmap_locked_out is_iomem.

Definition drm_gem_vram_kmap (reserve : Z) (o : ttm_kmap_outcome) (map : bool)
    (is_iomem : option bool) : M (Z * option bool) :=
  r <- ttm_bo_reserve reserve ;;
  if truthy r then ret (ERR_PTR r, is_iomem)
  else
    v <- drm_gem_vram_kmap_locked o map is_iomem ;;
    ttm_bo_unreserve ;;
    ret v.

Definition drm_gem_vram_kunmap_locked : M unit :=
  g <- get_gbo ;;
  w <- WARN_ON_ONCE WARN_kunmap_use_count (negb (truthy (kmap_use_count g))) ;;
  if w then ret tt
  else
    modify_gbo (fun g => set_kmap_use_count (kmap_use_count g - 1) g) ;;
    g <- get_gbo ;;
    if kmap_use_count g >? 0 then ret tt
    else ret tt.

Definition drm_gem_vram_kunmap (reserve : Z) : M unit :=
  r <- ttm_bo_reserve reserve ;;
  w <- WARN_ON_ONCE WARN_kunmap_reserve (truthy r) ;;
  if w then ret tt
  else
    drm_gem_vram_kunmap_locked ;;
    ttm_bo_unreserve.

(** ** GEM object functions: vmap and vunmap *)

(** [o_unpin] answers the validation of the unwinding [unpin], which runs
    only when the mapping step fails. *)
Definition drm_gem_vram_object_vmap (reserve : Z) (o_pin : ttm_validate_outcome)
    (o_kmap : ttm_kmap_outcome) (o_unpin : ttm_validate_outcome) : M Z :=
  r <- ttm_bo_reserve reserve ;;
  if truthy r then ret (ERR_PTR r)
  else
    r <- drm_gem_vram_pin_locked o_pin 0 ;;
    if truthy r then
      ttm_bo_unreserve ;; ret (ERR_PTR r)
    else
      b <- drm_gem_vram_kmap_locked o_kmap true None ;;
      let base := fst b in
      if IS_ERR base then
        let r := PTR_ERR base in
        drm_gem_vram_unpin_locked o_unpin ;;
        ttm_bo_unreserve ;;
        ret (ERR_PTR r)
      else
        ttm_bo_unreserve ;;
        ret base.

Definition drm_gem_vram_object_vunmap (reserve : Z) (o_unpin : ttm_validate_outcome)
    : M unit :=
  r <- ttm_bo_reserve reserve ;;
  w <- WARN_ON_ONCE WARN_vunmap_reserve (truthy r) ;;
  if w then ret tt
  else
    drm_gem_vram_kunmap_locked ;;
    drm_gem_vram_unpin_locked o_unpin ;;
    ttm_bo_unreserve.

(** The PRIME helpers pin at the current location: [pl_flag] is 0. *)
Definition drm_gem_vram_object_pin (reserve : Z) (o : ttm_validate_outcome) : M Z :=
  drm_gem_vram_pin reserve o 0.

Definition drm_gem_vram_object_unpin (reserve : Z) (o : ttm_validate_outcome)
    : M unit :=
  drm_gem_vram_unpin reserve o ;; ret tt.

(** ** Creation *)

(** The object as [kzalloc] hands it out: every field zero, the two
    placements included. *)
Definition zeroed_place : ttm_place := {| fpfn := 0; lpfn := 0; flags := 0 |}.

Definition zeroed_gbo : drm_gem_vram_object :=
  {| bo_mem_type := 0; bo_offset := 0;
     kmap := {| virtual := NULL; is_io_memory := false |};
     kmap_use_count := 0; num_placement := 0; num_busy_placement := 0;
     placements := [zeroed_place; zeroed_place];
     pin_count := 0 |}.

(** [size], [pg_align] and [interruptible] go to [drm_gem_object_init] and
    [ttm_bo_init], which are not among the sources: what these answer is in
    [o], and the log records the calls without their arguments. *)
Definition drm_gem_vram_init (o : create_outcome) (size pg_align : Z)
    (interruptible : bool) : M Z :=
  call drm_gem_object_init_call ;;
  let r := gem_object_init_ret o in
  if truthy r then ret r
  else
    modify_gbo (drm_gem_vram_placement (Z.lor TTM_PL_FLAG_VRAM TTM_PL_FLAG_SYSTEM)) ;;
    call ttm_bo_init_call ;;
    modify_gbo (set_mem (fst (ttm_bo_init_mem o)) (snd (ttm_bo_init_mem o))) ;;
    let r := ttm_bo_init_ret o in
    if truthy r then
      call drm_gem_object_release_call ;; ret r
    else ret 0.

(** Returns the pointer ([ERR_PTR]-encoded on failure) and, when an object
    survives, its state. *)
Definition drm_gem_vram_create (o : create_outcome) (size pg_align : Z)
    (interruptible : bool) : Z * option kstate :=
  let p := kzalloc o in
  if negb (truthy p) then (ERR_PTR (- ENOMEM), None)
  else
    let rs := drm_gem_vram_init o size pg_align interruptible
                {| gbo := zeroed_gbo; dmesg := [] |} in
    let r := fst rs in
    if r <? 0 then (ERR_PTR r, None)
    else (p, Some (snd rs)).

(** ** Dumb buffers *)

(** [size_t] is an unsigned word of [BITS_PER_LONG] bits. *)
Definition size_t (x : Z) : Z := x mod 2 ^ BITS_PER_LONG.

(** The macro [roundup(x, y)] at type [unsigned long]. *)
Definition roundup (x y : Z) : Z :=
  size_t (size_t (size_t (x + size_t (y - 1)) / y) * y).

Definition set_dumb_result (p sz h : Z) (a : drm_mode_create_dumb) :=
  {| height := height a; width := width a; bpp := bpp a;
     dumb_flags := dumb_flags a; handle := h; pitch := p; size := sz |}.

Definition drm_gem_vram_fill_create_dumb (co : create_outcome) (ho : handle_outcome)
    (pg_align : Z) (interruptible : bool) (args : drm_mode_create_dumb)
    : Z * drm_mode_create_dumb :=
  let pitch := size_t (u32 (width args * (u32 (bpp args + 7) / 8))) in
  let size := size_t (pitch * height args) in
  let size := roundup size PAGE_SIZE in
  if negb (truthy size) then (- EINVAL, args)
  else
    let gbo := fst (drm_gem_vram_create co size pg_align interruptible) in
    if IS_ERR gbo then (PTR_ERR gbo, args)
    else
      let r := h_ret ho in
      if truthy r then (r, args)
      else (0, set_dumb_result (u32 pitch) (u64 size) (u32 (h_handle ho)) args).

(** ** Histories of one buffer object *)

(** One entry per way the object is operated on: the exported calls with the
    answers of the services they use, and [op_evict], TTM moving the object
    out on behalf of another buffer (it asks for the eviction placement, then
    runs the move-notify hook and records the new memory). *)
Inductive op : Type :=
| op_pin (reserve : Z) (o : ttm_validate_outcome) (pl_flag : Z)
| op_unpin (reserve : Z) (o : ttm_validate_outcome)
| op_kmap (reserve : Z) (o : ttm_kmap_outcome) (map : bool) (is_iomem : option bool)
| op_kunmap (reserve : Z)
| op_vmap (reserve : Z) (o_pin : ttm_validate_outcome) (o_kmap : ttm_kmap_outcome)
          (o_unpin : ttm_validate_outcome)
| op_vunmap (reserve : Z) (o_unpin : ttm_validate_outcome)
| op_offset
| op_move_notify
| op_evict (ty off : Z).

Definition run_op (x : op) (s : kstate) : kstate :=
  match x with
  | op_pin r o f => snd (drm_gem_vram_pin r o f s)
  | op_unpin r o => snd (drm_gem_vram_unpin r o s)
  | op_kmap r o m i => snd (drm_gem_vram_kmap r o m i s)
  | op_kunmap r => snd (drm_gem_vram_kunmap r s)
  | op_vmap r o k u => snd (drm_gem_vram_object_vmap r o k u s)
  | op_vunmap r u => snd (drm_gem_vram_object_vunmap r u s)
  | op_offset => snd (drm_gem_vram_offset s)
  | op_move_notify => snd (drm_gem_vram_bo_driver_move_notify s)
  | op_evict ty off =>
      snd ((drm_gem_vram_bo_driver_evict_flags ;;
            drm_gem_vram_bo_driver_move_notify ;;
            modify_gbo (set_mem ty off)) s)
  end.

Definition run (ops : list op) (s : kstate) : kstate :=
  fold_left (fun s x => run_op x s) ops s.

End vram_helper.

(** * The memory manager and the device *)

(** ** Further constants of headers that are not part of the sources

    The page shift, the width of [phys_addr_t] and the TTM memory types and
    manager flags ([asm/page.h], [linux/types.h], [drm/ttm/ttm_placement.h],
    [drm/ttm/ttm_bo_driver.h]); [linux_ttm] gives the usual values. *)
Class ttm_headers : Type := {
  PAGE_SHIFT : Z;
  PHYS_ADDR_BITS : Z;
  TTM_PL_SYSTEM : Z;
  TTM_PL_VRAM : Z;
  TTM_PL_FLAG_CACHED : Z;
  TTM_MEMTYPE_FLAG_FIXED : Z;
  TTM_MEMTYPE_FLAG_MAPPABLE : Z
}.

Definition linux_ttm : ttm_headers := {|
  PAGE_SHIFT := 12;
  PHYS_ADDR_BITS := 64;
  TTM_PL_SYSTEM := 0;
  TTM_PL_VRAM := 2;
  TTM_PL_FLAG_CACHED := Z.shiftl 1 16;
  TTM_MEMTYPE_FLAG_FIXED := Z.shiftl 1 0;
  TTM_MEMTYPE_FLAG_MAPPABLE := Z.shiftl 1 1
|}.

(** [man->func]: unset, or pointing to [ttm_bo_manager_func]. *)
Inductive mem_type_manager_func : Type :=
| func_unset
| ttm_bo_manager_func.

(** The fields of [struct ttm_mem_type_manager] that the driver writes and
    reads. *)
Record ttm_mem_type_manager : Type := {
  man_func : mem_type_manager_func;
  man_flags : Z;
  available_caching : Z;
  default_caching : Z
}.

(** [struct ttm_bus_placement] and the fields of [struct ttm_mem_reg] that
    the driver uses. *)
Record ttm_bus_placement : Type := {
  bus_addr : Z;
  bus_base : Z;
  bus_size : Z;
  bus_offset : Z;
  bus_is_iomem : bool
}.

Record ttm_mem_reg : Type := {
  mem_type : Z;
  mem_start : Z;
  mem_num_pages : Z;
  mem_bus : ttm_bus_placement
}.

Definition set_bus (b : ttm_bus_placement) (m : ttm_mem_reg) : ttm_mem_reg :=
  {| mem_type := mem_type m; mem_start := mem_start m;
     mem_num_pages := mem_num_pages m; mem_bus := b |}.

(** [struct drm_vram_mm] without the embedded TTM device. *)
Record drm_vram_mm : Type := {
  vram_base : Z;
  vram_size : Z
}.

(** The log of the device-level functions. *)
Inductive dev_warn_site : Type :=
| WARN_alloc_mm_vram_mm
| WARN_dumb_create_vram_mm
| WARN_mmap_vram_mm.

Inductive dev_call : Type :=
| kzalloc_call
| kfree_call (p : Z)
| ttm_bo_device_init_call
| ttm_bo_init_mm_call (type pages : Z)
| ttm_bo_device_release_call
| ttm_bo_mmap_call.

Inductive dev_event : Type :=
| DevWarn (s : dev_warn_site)
| DevCall (c : dev_call).

Definition dev_warn_site_eqb (a b : dev_warn_site) : bool :=
  match a, b with
  | WARN_alloc_mm_vram_mm, WARN_alloc_mm_vram_mm
  | WARN_dumb_create_vram_mm, WARN_dumb_create_vram_mm
  | WARN_mmap_vram_mm, WARN_mmap_vram_mm => true
  | _, _ => false
  end.

Definition dev_warned (s : dev_warn_site) (log : list dev_event) : bool :=
  existsb (fun e => match e with
                    | DevWarn s' => dev_warn_site_eqb s s'
                    | DevCall _ => false
                    end) log.

(** [struct drm_device] as far as the helpers go: the pointer [vram_mm]
    ([NULL] while there is no manager), the manager it points to, and the
    log. *)
Record drm_device : Type := {
  vram_mm : Z;
  vram_mm_obj : drm_vram_mm;
  dev_dmesg : list dev_event
}.

Definition dev_log (e : dev_event) (d : drm_device) : drm_device :=
  {| vram_mm := vram_mm d; vram_mm_obj := vram_mm_obj d;
     dev_dmesg := dev_dmesg d ++ [e] |}.

Definition set_vram_mm (p : Z) (d : drm_device) : drm_device :=
  {| vram_mm := p; vram_mm_obj := vram_mm_obj d; dev_dmesg := dev_dmesg d |}.

Definition set_vram_mm_obj (v : drm_vram_mm) (d : drm_device) : drm_device :=
  {| vram_mm := vram_mm d; vram_mm_obj := v; dev_dmesg := dev_dmesg d |}.

(** [WARN_ONCE] on the device log. *)
Definition dev_warn_once (site : dev_warn_site) (c : bool) (d : drm_device)
    : drm_device :=
  if c && negb (dev_warned site (dev_dmesg d)) then dev_log (DevWarn site) d else d.

(** What the allocator and TTM answer when a manager is set up: the address
    [kzalloc] returns and the return values of [ttm_bo_device_init] and
    [ttm_bo_init_mm]. *)
Record mm_outcome : Type := {
  mm_kzalloc : Z;
  device_init_ret : Z;
  init_mm_ret : Z
}.

Section vram_mm.

Context {hdr : kernel_headers} {ttm : ttm_headers}.

(** ** TTM BO device *)

Definition bo_driver_init_mem_type (type : Z) (man : ttm_mem_type_manager)
    : Z * ttm_mem_type_manager :=
  if type =? TTM_PL_SYSTEM then
    (0, {| man_func := man_func man;
           man_flags := TTM_MEMTYPE_FLAG_MAPPABLE;
           available_caching := TTM_PL_MASK_CACHING;
           default_caching := TTM_PL_FLAG_CACHED |})
  else if type =? TTM_PL_VRAM then
    (0, {| man_func := ttm_bo_manager_func;
           man_flags := Z.lor TTM_MEMTYPE_FLAG_FIXED TTM_MEMTYPE_FLAG_MAPPABLE;
           available_caching := Z.lor TTM_PL_FLAG_UNCACHED TTM_PL_FLAG_WC;
           default_caching := TTM_PL_FLAG_WC |})
  else (- EINVAL, man).

(** [man] is the array [bdev->man], [vram_base] the field of the manager
    that owns [bdev].  The shifts are done at type [unsigned long]; the base
    is a [phys_addr_t]. *)
Definition bo_driver_io_mem_reserve (man : Z -> ttm_mem_type_manager)
    (vram_base : Z) (mem : ttm_mem_reg) : Z * ttm_mem_reg :=
  let m := man (mem_type mem) in
  if negb (truthy (Z.land (man_flags m) TTM_MEMTYPE_FLAG_MAPPABLE)) then
    (- EINVAL, mem)
  else
    let b := mem_bus mem in
    let b := {| bus_addr := NULL; bus_base := bus_base b;
                bus_size := size_t (Z.shiftl (mem_num_pages mem) PAGE_SHIFT);
                bus_offset := bus_offset b; bus_is_iomem := bus_is_iomem b |} in
    if mem_type mem =? TTM_PL_SYSTEM then
      (0, set_bus {| bus_addr := bus_addr b; bus_base := 0;
                     bus_size := bus_size b; bus_offset := 0;
                     bus_is_iomem := false |} mem)
    else if mem_type mem =? TTM_PL_VRAM then
      (0, set_bus {| bus_addr := bus_addr b;
                     bus_base := vram_base mod 2 ^ PHYS_ADDR_BITS;
                     bus_size := bus_size b;
                     bus_offset := size_t (Z.shiftl (mem_start mem) PAGE_SHIFT);
                     bus_is_iomem := true |} mem)
    else (- EINVAL, set_bus b mem).

(** [bo->destroy == ttm_buffer_object_destroy]: [destroy] tells whether the
    destructor of the buffer object is the one of this file. *)
Definition drm_is_gem_vram (destroy : bool) : bool := destroy.

Definition bo_driver_evict_flags (destroy : bool) : M unit :=
  if negb (drm_is_gem_vram destroy) then ret tt
  else drm_gem_vram_bo_driver_evict_flags.

Definition bo_driver_move_notify (destroy : bool) : M unit :=
  if negb (drm_is_gem_vram destroy) then ret tt
  else drm_gem_vram_bo_driver_move_notify.

(** ** struct drm_vram_mm *)

Definition drm_vram_mm_init (o : mm_outcome) (base size : Z) (d : drm_device)
    : Z * drm_device :=
  let d := set_vram_mm_obj {| vram_base := base; vram_size := size |} d in
  let d := dev_log (DevCall ttm_bo_device_init_call) d in
  let r := device_init_ret o in
  if truthy r then (r, d)
  else
    let d := dev_log (DevCall (ttm_bo_init_mm_call TTM_PL_VRAM
                                 (Z.shiftr size PAGE_SHIFT))) d in
    let r := init_mm_ret o in
    if truthy r then (r, d)
    else (0, d).

Definition drm_vram_mm_cleanup (d : drm_device) : drm_device :=
  dev_log (DevCall ttm_bo_device_release_call) d.

Definition drm_vram_mm_mmap (mmap_ret : Z) (d : drm_device) : Z * drm_device :=
  (mmap_ret, dev_log (DevCall ttm_bo_mmap_call) d).

(** ** Helpers for integration with struct drm_device *)

Definition drm_vram_helper_alloc_mm (o : mm_outcome) (base size : Z)
    (d : drm_device) : Z * drm_device :=
  if truthy (vram_mm d) then
    (vram_mm d, dev_log (DevWarn WARN_alloc_mm_vram_mm) d)
  else
    let d := dev_log (DevCall kzalloc_call) d in
    let d := set_vram_mm_obj {| vram_base := 0; vram_size := 0 |}
               (set_vram_mm (mm_kzalloc o) d) in
    if negb (truthy (vram_mm d)) then (ERR_PTR (- ENOMEM), d)
    else
      let rd := drm_vram_mm_init o base size d in
      let r := fst rd in
      let d := snd rd in
      if truthy r then
        (ERR_PTR r, set_vram_mm NULL (dev_log (DevCall (kfree_call (vram_mm d))) d))
      else (vram_mm d, d).

Definition drm_vram_helper_release_mm (d : drm_device) : drm_device :=
  if negb (truthy (vram_mm d)) then d
  else
    let d := drm_vram_mm_cleanup d in
    let d := dev_log (DevCall (kfree_call (vram_mm d))) d in
    set_vram_mm NULL d.

(** ** Helpers for dumb buffers and for file operations *)

Definition drm_gem_vram_driver_dumb_create (co : create_outcome) (ho : handle_outcome)
    (args : drm_mode_create_dumb) (d : drm_device)
    : Z * drm_mode_create_dumb * drm_device :=
  let c := negb (truthy (vram_mm d)) in
  let d := dev_warn_once WARN_dumb_create_vram_mm c d in
  if c then (- EINVAL, args, d)
  else (drm_gem_vram_fill_create_dumb co ho 0 false args, d).

Definition drm_vram_mm_file_operations_mmap (mmap_ret : Z) (d : drm_device)
    : Z * drm_device :=
  let c := negb (truthy (vram_mm d)) in
  let d := dev_warn_once WARN_mmap_vram_mm c d in
  if c then (- EINVAL, d)
  else drm_vram_mm_mmap mmap_ret d.

(** ** Histories of the device *)

Inductive dev_op : Type :=
| dev_alloc_mm (o : mm_outcome) (base size : Z)
| dev_release_mm
| dev_dumb_create (co : create_outcome) (ho : handle_outcome)
                  (args : drm_mode_create_dumb)
| dev_mmap (mmap_ret : Z).

Definition run_dev_op (x : dev_op) (d : drm_device) : drm_device :=
  match x with
  | dev_alloc_mm o base size => snd (drm_vram_helper_alloc_mm o base size d)
  | dev_release_mm => drm_vram_helper_release_mm d
  | dev_dumb_create co ho args => snd (drm_gem_vram_driver_dumb_create co ho args d)
  | dev_mmap r => snd (drm_vram_mm_file_operations_mmap r d)
  end.

Definition run_dev (ops : list dev_op) (d : drm_device) : drm_device :=
  fold_left (fun d x => run_dev_op x d) ops d.

End vram_mm.

(** * Power management of the GT

    A shallow embedding of [drivers/gpu/drm/i915/gt/intel_gt_pm.c].  The
    functions there mostly drive other parts of the driver; each call that
    leaves the file is an event on a log, and the functions work on the
    fields of the GT and of its engines that the file reads and writes. *)

(** Build options and widths the file depends on: whether [GEM_BUG_ON] and
    the selftest-only code are compiled in, and the width of
    [engine->serial]. *)
Class i915_config : Type := {
  CONFIG_DRM_I915_DEBUG_GEM : bool;
  CONFIG_DRM_I915_SELFTEST : bool;
  SERIAL_BITS : Z
}.

(** The fields of [struct intel_engine_cs] used here: the engine's id, its
    serial number, its kernel context ([None] for a null pointer, otherwise
    whether the context is pinned) and what its [resume] callback
    returns. *)
Record intel_engine_cs : Type := {
  engine_id : nat;
  serial : Z;
  kernel_context : option bool;
  resume : Z
}.

(** The fields of [struct intel_gt] and of the device information used
    here.  [engines] are the engines that exist, in the order of their ids,
    as [for_each_engine] visits them. *)
Record intel_gt : Type := {
  awake : Z;
  engines : list intel_engine_cs;
  gpu_reset_clobbers_display : bool;
  vgpu_active : bool;
  gen : Z
}.

(** [INTEL_GT_PARK] and [INTEL_GT_UNPARK]. *)
Inductive gt_pm_state : Type :=
| INTEL_GT_PARK
| INTEL_GT_UNPARK.

Inductive gt_event : Type :=
| intel_gt_pm_get_call
| intel_gt_pm_put_call
| intel_engine_pm_get_call (id : nat)
| intel_engine_pm_put_call (id : nat)
| context_reset_call (id : nat)
| engine_resume_call (id : nat)
| dev_err_restart (id : nat) (err : Z)
| intel_uc_sanitize_call
| intel_gt_reset_call
| intel_engine_reset_call (id : nat)
| intel_sanitize_gt_powersave_call
| intel_display_power_get_call
| intel_display_power_put_call (wakeref : Z)
| intel_enable_gt_powersave_call
| i915_update_gfx_val_call
| gen6_rps_busy_call
| gen6_rps_idle_call
| i915_pmu_gt_unparked_call
| i915_pmu_gt_parked_call
| intel_gt_queue_hangcheck_call
| intel_synchronize_irq_call
| pm_notify_call (state : gt_pm_state).

Definition set_serial (n : Z) (e : intel_engine_cs) : intel_engine_cs :=
  {| engine_id := engine_id e; serial := n;
     kernel_context := kernel_context e; resume := resume e |}.

Definition set_engines (es : list intel_engine_cs) (gt : intel_gt) : intel_gt :=
  {| awake := awake gt; engines := es;
     gpu_reset_clobbers_display := gpu_reset_clobbers_display gt;
     vgpu_active := vgpu_active gt; gen := gen gt |}.

Definition set_awake (w : Z) (gt : intel_gt) : intel_gt :=
  {| awake := w; engines := engines gt;
     gpu_reset_clobbers_display := gpu_reset_clobbers_display gt;
     vgpu_active := vgpu_active gt; gen := gen gt |}.

Section gt_pm.

Context {cfg : i915_config}.

(** [engine->serial++]. *)
Definition serial_incr (e : intel_engine_cs) : intel_engine_cs :=
  set_serial ((serial e + 1) mod 2 ^ SERIAL_BITS) e.

(** [GEM_BUG_ON(c)]: [BUG()] if the check is compiled in and [c] holds. *)
Definition GEM_BUG_ON (c : bool) : bool := CONFIG_DRM_I915_DEBUG_GEM && c.

(** A function that contains a [GEM_BUG_ON] returns [None] when the check
    fires, and otherwise its result, the GT as it leaves it and the log.
    The lockdep annotations and [GEM_TRACE] leave no trace here. *)

(** [wakeref] is what [intel_display_power_get] hands out. *)
Definition __gt_unpark (wakeref : Z) (gt : intel_gt) (log : list gt_event)
    : option (Z * intel_gt * list gt_event) :=
  let log := log ++ [intel_display_power_get_call] in
  let gt := set_awake wakeref gt in
  if GEM_BUG_ON (negb (truthy (awake gt))) then None
  else
    let log := log ++ [intel_enable_gt_powersave_call] in
    let log := log ++ [i915_update_gfx_val_call] in
    let log := if gen gt >=? 6 then log ++ [gen6_rps_busy_call] else log in
    let log := log ++ [i915_pmu_gt_unparked_call] in
    let log := log ++ [intel_gt_queue_hangcheck_call] in
    let log := log ++ [pm_notify_call INTEL_GT_UNPARK] in
    Some (0, gt, log).

Definition __gt_park (gt : intel_gt) (log : list gt_event)
    : option (Z * intel_gt * list gt_event) :=
  let wakeref := awake gt in
  let gt := set_awake 0 gt in
  let log := log ++ [pm_notify_call INTEL_GT_PARK] in
  let log := log ++ [i915_pmu_gt_parked_call] in
  let log := if gen gt >=? 6 then log ++ [gen6_rps_idle_call] else log in
  let log := log ++ [intel_synchronize_irq_call] in
  if GEM_BUG_ON (negb (truthy wakeref)) then None
  else Some (0, gt, log ++ [intel_display_power_put_call wakeref]).

Definition reset_engines (reset_ret : Z) (gt : intel_gt) (log : list gt_event)
    : bool * list gt_event :=
  if gpu_reset_clobbers_display gt then (false, log)
  else (reset_ret =? 0, log ++ [intel_gt_reset_call]).

Definition intel_gt_sanitize (reset_ret : Z) (force : bool) (gt : intel_gt)
    (log : list gt_event) : list gt_event :=
  let log := log ++ [intel_uc_sanitize_call] in
  let r := reset_engines reset_ret gt log in
  if negb (fst r) && negb force then snd r
  else snd r ++ map (fun e => intel_engine_reset_call (engine_id e)) (engines gt).

(** [gt->awake == -1] at the 32-bit unsigned type of [awake]. *)
Definition is_mock_device (gt : intel_gt) : bool :=
  CONFIG_DRM_I915_SELFTEST && (awake gt =? u32 (- 1)).

(** The loop of [intel_gt_pm_enable] over the engines. *)
Fixpoint pm_enable_engines (es : list intel_engine_cs) (log : list gt_event)
    : list intel_engine_cs * list gt_event :=
  match es with
  | [] => ([], log)
  | e :: rest =>
      let log := log ++ [intel_engine_pm_get_call (engine_id e)] in
      let e := serial_incr e in
      let log := log ++ [intel_engine_pm_put_call (engine_id e)] in
      let r := pm_enable_engines rest log in
      (e :: fst r, snd r)
  end.

Definition intel_gt_pm_enable (gt : intel_gt) (log : list gt_event)
    : intel_gt * list gt_event :=
  if vgpu_active gt then (gt, log)
  else if is_mock_device gt then (gt, log)
  else
    let log := log ++ [intel_gt_pm_get_call] in
    let r := pm_enable_engines (engines gt) log in
    (set_engines (fst r) gt, snd r ++ [intel_gt_pm_put_call]).

Definition intel_gt_pm_disable (gt : intel_gt) (log : list gt_event)
    : list gt_event :=
  if is_mock_device gt then log
  else log ++ [intel_sanitize_gt_powersave_call].

(** The loop of [intel_gt_resume], with [err] as the loop leaves it;
    [None] when a [GEM_BUG_ON] fires. *)
Fixpoint resume_engines (es : list intel_engine_cs) (err : Z) (log : list gt_event)
    : option (Z * list intel_engine_cs * list gt_event) :=
  match es with
  | [] => Some (err, [], log)
  | e :: rest =>
      let id := engine_id e in
      let log := log ++ [intel_engine_pm_get_call id] in
      let ctx :=
        match kernel_context e with
        | Some pinned =>
            if GEM_BUG_ON (negb pinned) then None
            else Some (log ++ [context_reset_call id])
        | None => Some log
        end in
      match ctx with
      | None => None
      | Some log =>
          let e := serial_incr e in
          let err := resume e in
          let log := log ++ [engine_resume_call id] in
          let log := log ++ [intel_engine_pm_put_call id] in
          if truthy err then Some (err, e :: rest, log ++ [dev_err_restart id err])
          else
            match resume_engines rest err log with
            | Some (err', rest', log') => Some (err', e :: rest', log')
            | None => None
            end
      end
  end.

Definition intel_gt_resume (gt : intel_gt) (log : list gt_event)
    : option (Z * intel_gt * list gt_event) :=
  let err := 0 in
  let log := log ++ [intel_gt_pm_get_call] in
  match resume_engines (engines gt) err log with
  | Some (err, es, log) =>
      Some (err, set_engines es gt, log ++ [intel_gt_pm_put_call])
  | None => None
  end.

End gt_pm.

(** The engines the loop of [intel_gt_resume] gets to: all of them up to and
    including the first whose [resume] fails. *)
Fixpoint resumed (es : list intel_engine_cs) : list intel_engine_cs :=
  match es with
  | [] => []
  | e :: rest => if truthy (resume e) then [e] else e :: resumed rest
  end.

(** The error of the first engine whose [resume] fails, 0 if none does. *)
Fixpoint first_error (es : list intel_engine_cs) : Z :=
  match es with
  | [] => 0
  | e :: rest => if truthy (resume e) then resume e else first_error rest
  end.

(** How often an engine's wakeref is taken and released on a log. *)
Definition engine_gets (id : nat) (log : list gt_event) : nat :=
  length (filter (fun ev => match ev with
                            | intel_engine_pm_get_call i => Nat.eqb i id
                            | _ => false
                            end) log).

Definition engine_puts (id : nat) (log : list gt_event) : nat :=
  length (filter (fun ev => match ev with
                            | intel_engine_pm_put_call i => Nat.eqb i id
                            | _ => false
                            end) log).

(** * Notions used by the statements *)

(** The mapping-cache invariant of the spec. *)
Definition kmap_inv (g : drm_gem_vram_object) : Prop :=
  kmap_use_count g > 0 -> virtual (kmap g) <> NULL.

(** The mapping is untouched, or it was unreferenced and has been released. *)
Definition kmap_kept_or_released (g g' : drm_gem_vram_object) : Prop :=
  kmap g' = kmap g \/ (kmap_use_count g = 0 /\ virtual (kmap g') = NULL).

(** The validation moves the buffer. *)
Definition moves (o : ttm_validate_outcome) : bool :=
  match v_move o with Some _ => true | None => false end.

(** The operations during which the move-notify hook runs: the hook itself,
    an eviction, and the calls whose validation moves the buffer. *)
Definition runs_move_notify (x : op) : bool :=
  match x with
  | op_pin _ o _ => moves o
  | op_unpin _ o => moves o
  | op_vmap _ o _ u => moves o || moves u
  | op_vunmap _ u => moves u
  | op_move_notify => true
  | op_evict _ _ => true
  | op_kmap _ _ _ _ => false
  | op_kunmap _ => false
  | op_offset => false
  end.

(** What a service may return: 0 or a negative errno. *)
Definition errno_result (r : Z) : Prop := - MAX_ERRNO <= r <= 0.

(** The spec's words for the geometry of a dumb buffer: the ceiling of a
    quotient, rounding up to a multiple, and the pitch and size built from
    them. *)
Definition ceil_div (a b : Z) : Z := (a + b - 1) / b.

Definition round_up (x y : Z) : Z := ceil_div x y * y.

Definition spec_pitch (width bpp : Z) : Z := width * ceil_div bpp 8.

Definition spec_size (width height bpp page_size : Z) : Z :=
  round_up (spec_pitch width bpp * height) page_size.

(** The reservations and releases of the buffer's lock on a log, in order. *)
Definition is_lock (e : event) : bool :=
  match e with
  | Call ttm_bo_reserve_call => true
  | Call ttm_bo_unreserve_call => true
  | _ => false
  end.

Definition lock_trace (log : list event) : list event := filter is_lock log.

(** The answer to the reservation an operation starts with, if it takes
    one. *)
Definition op_reserve (x : op) : option Z :=
  match x with
  | op_pin r _ _ => Some r
  | op_unpin r _ => Some r
  | op_kmap r _ _ _ => Some r
  | op_kunmap r => Some r
  | op_vmap r _ _ _ => Some r
  | op_vunmap r _ => Some r
  | op_offset => None
  | op_move_notify => None
  | op_evict _ _ => None
  end.

(** ** Concrete states and answers, for the examples *)

(** An object with a retained mapping at address 4096 and no reference. *)
Definition stale_gbo : drm_gem_vram_object :=
  set_kmap {| virtual := 4096; is_io_memory := true |} zeroed_gbo.

Definition stale : kstate := {| gbo := stale_gbo; dmesg := [] |}.

(** The same mapping with one reference. *)
Definition mapped_once : kstate :=
  {| gbo := set_kmap_use_count 1 stale_gbo; dmesg := [] |}.

(** An object without pins and without mapping, and one pinned once. *)
Definition fresh : kstate := {| gbo := zeroed_gbo; dmesg := [] |}.

Definition pinned_once : kstate :=
  {| gbo := set_pin_count 1 zeroed_gbo; dmesg := [] |}.

(** Services that succeed, and services that fail with [-ENOMEM]. *)
Definition create_ok : create_outcome :=
  {| kzalloc := 65536; gem_object_init_ret := 0; ttm_bo_init_ret := 0;
     ttm_bo_init_mem := (0, 0) |}.

Definition handle_ok : handle_outcome := {| h_ret := 0; h_handle := 1 |}.

Definition kmap_ok : ttm_kmap_outcome :=
  {| k_ret := 0; k_obj := {| virtual := 4096; is_io_memory := true |} |}.

Definition no_kmap : ttm_kmap_outcome :=
  {| k_ret := - 12; k_obj := {| virtual := NULL; is_io_memory := false |} |}.

Definition validate_stay : ttm_validate_outcome :=
  {| v_ret := 0; v_move := None |}.

Definition validate_fail : ttm_validate_outcome :=
  {| v_ret := - 12; v_move := None |}.

(** A validation that moves the buffer to video memory at offset 8192. *)
Definition validate_move : ttm_validate_outcome :=
  {| v_ret := 0; v_move := Some (2, 8192) |}.

(** An object pinned twice. *)
Definition pinned_twice : kstate :=
  {| gbo := set_pin_count 2 zeroed_gbo; dmesg := [] |}.

(** An object that lists video memory and system memory, as creation leaves
    it. *)
Definition two_tiers : kstate :=
  {| gbo := drm_gem_vram_placement (hdr := linux_x86_64) 5 zeroed_gbo;
     dmesg := [] |}.

(** Four pages of video memory, sixteen pages into the aperture at
    [0xe0000000], and a manager as [bo_driver_init_mem_type] leaves it for
    video memory. *)
Definition no_bus : ttm_bus_placement :=
  {| bus_addr := 0; bus_base := 0; bus_size := 0; bus_offset := 0;
     bus_is_iomem := false |}.

Definition mem_vram : ttm_mem_reg :=
  {| mem_type := 2; mem_start := 16; mem_num_pages := 4; mem_bus := no_bus |}.

Definition man_unset : ttm_mem_type_manager :=
  {| man_func := func_unset; man_flags := 0; available_caching := 0;
     default_caching := 0 |}.

Definition man_vram : ttm_mem_type_manager :=
  {| man_func := ttm_bo_manager_func; man_flags := 3;
     available_caching := 393216; default_caching := 262144 |}.

Definition aperture : Z := 3758096384.

(** A device without memory manager, one with a manager at address 32768,
    and services that succeed or fail when a manager is set up. *)
Definition no_mm : drm_device :=
  {| vram_mm := NULL; vram_mm_obj := {| vram_base := 0; vram_size := 0 |};
     dev_dmesg := [] |}.

Definition with_mm : drm_device :=
  {| vram_mm := 32768;
     vram_mm_obj := {| vram_base := aperture; vram_size := 16777216 |};
     dev_dmesg := [] |}.

Definition mm_ok : mm_outcome :=
  {| mm_kzalloc := 32768; device_init_ret := 0; init_mm_ret := 0 |}.

Definition mm_fail : mm_outcome :=
  {| mm_kzalloc := 32768; device_init_ret := 0; init_mm_ret := - 12 |}.

(** A build of i915 with [GEM_BUG_ON] and the selftests compiled in, and a
    GT with three engines: the first resumes, the second has no kernel
    context and fails to resume, the third has a kernel context that is not
    pinned. *)
Definition i915_debug : i915_config :=
  {| CONFIG_DRM_I915_DEBUG_GEM := true; CONFIG_DRM_I915_SELFTEST := true;
     SERIAL_BITS := 32 |}.

Definition rcs0 : intel_engine_cs :=
  {| engine_id := 0; serial := 7; kernel_context := Some true; resume := 0 |}.

Definition bcs0 : intel_engine_cs :=
  {| engine_id := 1; serial := 7; kernel_context := None; resume := - 5 |}.

Definition vcs0 : intel_engine_cs :=
  {| engine_id := 2; serial := 7; kernel_context := Some false; resume := 0 |}.

Definition gt_three : intel_gt :=
  {| awake := 0; engines := [rcs0; bcs0; vcs0];
     gpu_reset_clobbers_display := false; vgpu_active := false; gen := 9 |}.

(** The dumb buffer of the spec's scenario. *)
Definition dumb_100x50x32 : drm_mode_create_dumb :=
  {| height := 50; width := 100; bpp := 32; dumb_flags := 0;
     handle := 0; pitch := 0; size := 0 |}.

(** * Properties *)

Lemma truthy_true (x : Z) : truthy x = true <-> x <> 0.
Proof. unfold truthy. rewrite negb_true_iff, Z.eqb_neq. tauto. Qed.

Lemma truthy_false (x : Z) : truthy x = false <-> x = 0.
Proof. unfold truthy. rewrite negb_false_iff, Z.eqb_eq. tauto. Qed.

(** Unfolds the monad and the logging, and nothing of the driver. *)
Ltac unf_m :=
  unfold ttm_bo_reserve, ttm_bo_unreserve,
    WARN_ON, WARN_ON_ONCE, when, call, emit, modify_gbo, get_gbo, get_dmesg,
    bind, ret in *;
  cbn [fst snd gbo dmesg negb andb orb] in *.

(** Unfolds every function of the driver as well. *)
Ltac run_m :=
  unfold drm_gem_vram_cleanup, drm_gem_vram_offset,
    drm_gem_vram_pin, drm_gem_vram_unpin, drm_gem_vram_kmap, drm_gem_vram_kunmap,
    drm_gem_vram_object_vmap, drm_gem_vram_object_vunmap,
    drm_gem_vram_pin_locked, drm_gem_vram_unpin_locked,
    drm_gem_vram_kmap_locked, drm_gem_vram_kmap_locked_out,
    drm_gem_vram_kunmap_locked, ttm_kmap_obj_virtual,
    ttm_bo_validate, ttm_bo_kmap,
    drm_gem_vram_bo_driver_move_notify, drm_gem_vram_bo_driver_evict_flags in *;
  unf_m.

(** Splits on the first conditional of the goal, keeping the test. *)
Ltac split_if :=
  match goal with
  | |- context [if ?c then _ else _] =>
      let E := fresh "E" in destruct c eqn:E; cbn [fst snd gbo dmesg negb andb orb] in *
  | |- context [match ?c with Some _ => _ | None => _ end] =>
      let E := fresh "E" in destruct c eqn:E; cbn [fst snd gbo dmesg negb andb orb] in *
  | |- context [let (_, _) := ?c in _] =>
      let E := fresh "E" in destruct c eqn:E; cbn [fst snd gbo dmesg negb andb orb] in *
  end.

Ltac fields :=
  cbn [pin_count kmap_use_count kmap virtual is_io_memory placements num_placement
       num_busy_placement bo_mem_type bo_offset
       set_pin_count set_kmap_use_count set_kmap set_placement set_placements
       set_mem incr_pin_count fst snd gbo dmesg] in *.

(** The tests of the code, turned into facts about the integers. *)
Ltac tests :=
  repeat match goal with
  | H : truthy _ = true |- _ => apply truthy_true in H
  | H : truthy _ = false |- _ => apply truthy_false in H
  | H : negb _ = true |- _ => apply negb_true_iff in H
  | H : negb _ = false |- _ => apply negb_false_iff in H
  | H : (_ >? _) = true |- _ => apply Z.gtb_lt in H
  | H : (_ >? _) = false |- _ => rewrite Z.gtb_ltb, Z.ltb_ge in H
  | H : (_ <? _) = true |- _ => apply Z.ltb_lt in H
  | H : (_ <? _) = false |- _ => apply Z.ltb_ge in H
  | H : (_ || _) = true |- _ => apply orb_true_iff in H
  | H : (_ || _) = false |- _ => apply orb_false_iff in H; destruct H
  | H : (_ && _) = true |- _ => apply andb_true_iff in H; destruct H
  end.

(** ** Queries of the mapping *)

(** C1, as the code has it: a query ([map = false]) that finds a retained
    mapping with [kmap_use_count = 0] returns its address and takes a
    reference, so the count is 1 afterwards; the mapping itself and the pin
    count are not touched.  This holds under the lock and for the exported
    call once the reservation succeeds. *)
Theorem kmap_query_stale_takes_reference
    (s : kstate) (o : ttm_kmap_outcome) (is_iomem : option bool)
    (Hcount : kmap_use_count (gbo s) = 0)
    (Hstale : virtual (kmap (gbo s)) <> NULL) :
  let l := drm_gem_vram_kmap_locked o false is_iomem s in
  let r := drm_gem_vram_kmap 0 o false is_iomem s in
  fst (fst l) = virtual (kmap (gbo s)) /\
  gbo (snd l) = set_kmap_use_count 1 (gbo s) /\
  dmesg (snd l) = dmesg s /\
  fst (fst r) = virtual (kmap (gbo s)) /\
  gbo (snd r) = set_kmap_use_count 1 (gbo s).
Proof.
  apply truthy_true in Hstale.
  run_m. destruct is_iomem;
    repeat (progress (rewrite ?Hcount, ?Hstale; cbn)); auto.
Qed.

Lemma kmap_query_stale_takes_reference_witness :
  fst (fst (drm_gem_vram_kmap 0 no_kmap false None stale)) = 4096 /\
  kmap_use_count (gbo (snd (drm_gem_vram_kmap 0 no_kmap false None stale))) = 1.
Proof.
  pose proof (@kmap_query_stale_takes_reference stale no_kmap None
                eq_refl ltac:(cbn; unfold NULL; lia)) as H.
  cbv zeta in H. destruct H as (_ & _ & _ & Ha & Hg).
  split; [exact Ha | rewrite Hg; reflexivity].
Defined.

(** C1 as stated fails: on a buffer with [kmap_use_count = 0] and a retained
    mapping at address 4096, the query returns 4096 but leaves the count at
    1, not 0. *)
Lemma kmap_query_stale_count_not_zero :
  let s := stale in
  let r := drm_gem_vram_kmap 0 no_kmap false None s in
  kmap_use_count (gbo s) = 0 /\
  virtual (kmap (gbo s)) = 4096 /\
  fst (fst r) = 4096 /\
  kmap_use_count (gbo (snd r)) = 1 /\
  kmap_use_count (gbo (snd r)) <> 0.
Proof. cbv. repeat split. discriminate. Qed.

(** C10: whenever [kmap] is given a non-null [is_iomem] and returns [NULL]
    (not mapped), the [bool] behind [is_iomem] holds [false] afterwards,
    whatever it held before; under the lock and for the exported call. *)
Theorem kmap_not_mapped_clears_is_iomem
    (s : kstate) (reserve : Z) (o : ttm_kmap_outcome) (map b : bool) :
  (fst (fst (drm_gem_vram_kmap_locked o map (Some b) s)) = NULL ->
   snd (fst (drm_gem_vram_kmap_locked o map (Some b) s)) = Some false) /\
  (fst (fst (drm_gem_vram_kmap reserve o map (Some b) s)) = NULL ->
   snd (fst (drm_gem_vram_kmap reserve o map (Some b) s)) = Some false).
Proof.
  run_m. split.
  - repeat split_if; tests; fields; unfold ERR_PTR, NULL in *;
      intros; try reflexivity; try congruence.
  - repeat split_if; tests; fields; unfold ERR_PTR, NULL in *;
      intros; try reflexivity; try congruence.
Qed.

Lemma kmap_not_mapped_clears_is_iomem_witness :
  fst (fst (drm_gem_vram_kmap 0 no_kmap false (Some true) fresh)) = NULL /\
  snd (fst (drm_gem_vram_kmap 0 no_kmap false (Some true) fresh)) = Some false.
Proof.
  split; [reflexivity |].
  apply (proj2 (kmap_not_mapped_clears_is_iomem fresh 0 no_kmap false true)).
  reflexivity.
Defined.

Section pin_properties.

Context {hdr : kernel_headers}.

(** [drm_gem_vram_placement] only writes the placement fields. *)
Lemma placement_frame (f : Z) (g : drm_gem_vram_object) :
  pin_count (drm_gem_vram_placement f g) = pin_count g /\
  kmap_use_count (drm_gem_vram_placement f g) = kmap_use_count g /\
  kmap (drm_gem_vram_placement f g) = kmap g /\
  bo_mem_type (drm_gem_vram_placement f g) = bo_mem_type g /\
  bo_offset (drm_gem_vram_placement f g) = bo_offset g.
Proof.
  unfold drm_gem_vram_placement.
  destruct (truthy (Z.land f TTM_PL_FLAG_VRAM));
    destruct (truthy (Z.land f TTM_PL_FLAG_SYSTEM)); cbn; auto.
Qed.

Lemma placement_pin_count f g :
  pin_count (drm_gem_vram_placement f g) = pin_count g.
Proof. apply placement_frame. Qed.

Lemma placement_kmap_use_count f g :
  kmap_use_count (drm_gem_vram_placement f g) = kmap_use_count g.
Proof. apply placement_frame. Qed.

Lemma placement_kmap f g :
  kmap (drm_gem_vram_placement f g) = kmap g.
Proof. apply placement_frame. Qed.

Lemma placement_bo_mem_type f g :
  bo_mem_type (drm_gem_vram_placement f g) = bo_mem_type g.
Proof. apply placement_frame. Qed.

Create Rewrite HintDb gbo_fields.

#[local] Hint Rewrite placement_pin_count placement_kmap_use_count placement_kmap
  placement_bo_mem_type : gbo_fields.

Ltac simp_gbo := repeat (progress (fields; autorewrite with gbo_fields in *)).


(** C3: on a buffer with [pin_count > 0], pinning returns 0 and changes
    nothing but [pin_count], which grows by one, whatever the placement hint
    and whatever a validation would have answered: the log shows that
    [ttm_bo_validate] is not called, and memory type, offset, placements and
    mapping stay as they were.  The exported call adds the reservation
    around it. *)
Theorem pin_reentrant
    (s : kstate) (o : ttm_validate_outcome) (pl_flag : Z)
    (Hpinned : pin_count (gbo s) > 0) :
  drm_gem_vram_pin_locked o pl_flag s =
    (0, {| gbo := set_pin_count (pin_count (gbo s) + 1) (gbo s);
           dmesg := dmesg s |}) /\
  drm_gem_vram_pin 0 o pl_flag s =
    (0, {| gbo := set_pin_count (pin_count (gbo s) + 1) (gbo s);
           dmesg := dmesg s ++ [Call ttm_bo_reserve_call]
                            ++ [Call ttm_bo_unreserve_call] |}) /\
  bo_mem_type (gbo (snd (drm_gem_vram_pin 0 o pl_flag s))) = bo_mem_type (gbo s) /\
  placements (gbo (snd (drm_gem_vram_pin 0 o pl_flag s))) = placements (gbo s) /\
  num_placement (gbo (snd (drm_gem_vram_pin 0 o pl_flag s))) = num_placement (gbo s).
Proof.
  assert (Ht : truthy (pin_count (gbo s)) = true) by (apply truthy_true; lia).
  run_m. rewrite Ht. cbn. rewrite Ht. cbn. rewrite <- app_assoc. auto.
Qed.

(** ** What each step does to the counters and the mapping *)

Lemma move_notify_effect (s : kstate) :
  let s' := snd (drm_gem_vram_bo_driver_move_notify s) in
  pin_count (gbo s') = pin_count (gbo s) /\
  kmap_use_count (gbo s') = kmap_use_count (gbo s) /\
  placements (gbo s') = placements (gbo s) /\
  bo_mem_type (gbo s') = bo_mem_type (gbo s) /\
  kmap_kept_or_released (gbo s) (gbo s') /\
  (kmap_use_count (gbo s) <> 0 -> gbo s' = gbo s).
Proof.
  unfold kmap_kept_or_released, drm_gem_vram_bo_driver_move_notify. unf_m.
  destruct (truthy (kmap_use_count (gbo s))) eqn:E; cbn [fst snd gbo dmesg negb andb orb].
  - destruct (negb (warned WARN_move_notify_use_count (dmesg s)));
      cbn; auto 10.
  - apply truthy_false in E.
    destruct (negb (truthy (virtual (kmap (gbo s))))); cbn; fields;
      repeat split; auto; congruence.
Qed.

Lemma validate_effect (o : ttm_validate_outcome) (s : kstate) :
  let r := ttm_bo_validate o s in
  fst r = v_ret o /\
  pin_count (gbo (snd r)) = pin_count (gbo s) /\
  kmap_use_count (gbo (snd r)) = kmap_use_count (gbo s) /\
  placements (gbo (snd r)) = placements (gbo s) /\
  kmap_kept_or_released (gbo s) (gbo (snd r)) /\
  (v_move o = None -> gbo (snd r) = gbo s).
Proof.
  unfold ttm_bo_validate. unf_m.
  destruct (v_move o) as [[ty off]|]; cbn [fst snd gbo dmesg negb andb orb].
  - match goal with |- context [drm_gem_vram_bo_driver_move_notify ?t] =>
      pose proof (move_notify_effect t) as H end.
    cbv zeta in H. cbn [gbo] in H. fields.
    destruct H as (Hp & Hu & Hpl & _ & Hk & _).
    repeat split; auto. discriminate.
  - unfold kmap_kept_or_released. auto 10.
Qed.

(** Brings in what is known about the calls to [ttm_bo_validate] and to the
    move-notify hook that occur in the goal, and names their results. *)
Ltac know_validate :=
  repeat match goal with
  | |- context [ttm_bo_validate ?o ?t] =>
      let H := fresh "Hv" in
      pose proof (validate_effect o t) as H; cbv zeta in H;
      let r := fresh "rv" in
      set (r := ttm_bo_validate o t) in *; clearbody r
  end.

Lemma pin_locked_effect (o : ttm_validate_outcome) (pl_flag : Z) (s : kstate) :
  let r := drm_gem_vram_pin_locked o pl_flag s in
  kmap_use_count (gbo (snd r)) = kmap_use_count (gbo s) /\
  ((fst r = 0 /\ pin_count (gbo (snd r)) = pin_count (gbo s) + 1) \/
   (fst r = v_ret o /\ v_ret o < 0 /\ pin_count (gbo s) = 0 /\
    pin_count (gbo (snd r)) = 0)) /\
  kmap_kept_or_released (gbo s) (gbo (snd r)) /\
  (v_move o = None -> kmap (gbo (snd r)) = kmap (gbo s)).
Proof.
  unfold drm_gem_vram_pin_locked. unf_m.
  destruct (truthy (pin_count (gbo s))) eqn:E; cbn [fst snd gbo dmesg negb andb orb].
  - unfold kmap_kept_or_released. fields. auto 10.
  - apply truthy_false in E.
    know_validate. destruct Hv as (Hr & Hp & Hu & _ & Hk & Hn).
    unfold kmap_kept_or_released in *.
    destruct (truthy pl_flag); cbn [fst snd gbo dmesg negb andb orb] in *; simp_gbo;
      (destruct (fst rv <? 0) eqn:El; tests; simp_gbo;
       [ repeat split; auto; [right; repeat split; lia | intros Hm; rewrite (Hn Hm); simp_gbo; reflexivity]
       | repeat split; auto; [left; split; lia | intros Hm; rewrite (Hn Hm); simp_gbo; reflexivity] ]).
Qed.

Lemma unpin_locked_effect (o : ttm_validate_outcome) (s : kstate) :
  let r := drm_gem_vram_unpin_locked o s in
  kmap_use_count (gbo (snd r)) = kmap_use_count (gbo s) /\
  (pin_count (gbo s) = 0 -> gbo (snd r) = gbo s) /\
  (pin_count (gbo s) <> 0 -> pin_count (gbo (snd r)) = pin_count (gbo s) - 1) /\
  kmap_kept_or_released (gbo s) (gbo (snd r)) /\
  (v_move o = None -> kmap (gbo (snd r)) = kmap (gbo s)).
Proof.
  unfold drm_gem_vram_unpin_locked. unf_m.
  destruct (truthy (pin_count (gbo s))) eqn:E; cbn [fst snd gbo dmesg negb andb orb].
  - apply truthy_true in E. fields.
    destruct (truthy (pin_count (gbo s) - 1)) eqn:E1; cbn [fst snd gbo dmesg negb andb orb].
    + unfold kmap_kept_or_released. fields. repeat split; auto; lia.
    + know_validate. destruct Hv as (Hr & Hp & Hu & _ & Hk & Hn).
      unfold kmap_kept_or_released in *. simp_gbo.
      destruct (fst rv <? 0); cbn [fst snd gbo dmesg negb andb orb];
        (repeat split; auto; try lia;
         intros Hm; rewrite (Hn Hm); reflexivity).
  - apply truthy_false in E. unfold kmap_kept_or_released.
    destruct (negb (warned WARN_unpin_pin_count (dmesg s)));
      cbn; repeat split; auto; lia.
Qed.

Lemma kmap_locked_effect (o : ttm_kmap_outcome) (map : bool)
    (is_iomem : option bool) (s : kstate) :
  let r := drm_gem_vram_kmap_locked o map is_iomem s in
  pin_count (gbo (snd r)) = pin_count (gbo s) /\
  (kmap_use_count (gbo s) <= 0 -> virtual (kmap (gbo s)) = NULL -> map = true ->
     kmap (gbo (snd r)) = k_obj o) /\
  (virtual (kmap (gbo s)) <> NULL ->
     fst (fst r) = virtual (kmap (gbo s)) /\
     gbo (snd r) = set_kmap_use_count (kmap_use_count (gbo s) + 1) (gbo s) /\
     dmesg (snd r) = dmesg s) /\
  ((fst (fst r) = virtual (kmap (gbo (snd r))) /\
    virtual (kmap (gbo (snd r))) <> NULL /\
    kmap_use_count (gbo (snd r)) = kmap_use_count (gbo s) + 1) \/
   (fst (fst r) = NULL /\
    virtual (kmap (gbo (snd r))) = NULL /\
    kmap_use_count (gbo (snd r)) = kmap_use_count (gbo s) /\
    (kmap_use_count (gbo s) <= 0 \/ virtual (kmap (gbo s)) = NULL)) \/
   (fst (fst r) = ERR_PTR (k_ret o) /\ k_ret o <> 0 /\
    kmap_use_count (gbo (snd r)) = kmap_use_count (gbo s) /\
    kmap_use_count (gbo s) <= 0)).
Proof.
  unfold drm_gem_vram_kmap_locked, drm_gem_vram_kmap_locked_out,
    ttm_kmap_obj_virtual, ttm_bo_kmap.
  unf_m.
  destruct (kmap_use_count (gbo s) >? 0) eqn:E0; cbn [fst snd gbo dmesg negb andb orb];
  [ | destruct (truthy (virtual (kmap (gbo s)))) eqn:E1; cbn [fst snd gbo dmesg negb andb orb];
      [ | destruct map; cbn [fst snd gbo dmesg negb andb orb];
          [ destruct (truthy (k_ret o)) eqn:E2; cbn [fst snd gbo dmesg negb andb orb]; fields | ] ] ];
  repeat match goal with
  | |- context [if negb (truthy ?v) then _ else _] =>
      let E := fresh "E" in destruct (truthy v) eqn:E; cbn [fst snd gbo dmesg negb andb orb]
  end;
  destruct is_iomem; cbn [fst snd gbo dmesg negb andb orb]; fields; tests;
  unfold NULL in *;
  repeat split; try (intros; congruence); try lia; auto;
  try (intros; lia);
  try (left; repeat split; (lia || congruence || auto); fail);
  try (right; left; repeat split; (lia || congruence || auto); fail);
  try (right; right; repeat split; (lia || congruence || auto); fail).
Qed.

Lemma kunmap_locked_effect (s : kstate) :
  gbo (snd (drm_gem_vram_kunmap_locked s)) =
    (if truthy (kmap_use_count (gbo s))
     then set_kmap_use_count (kmap_use_count (gbo s) - 1) (gbo s)
     else gbo s).
Proof.
  unfold drm_gem_vram_kunmap_locked. unf_m.
  destruct (truthy (kmap_use_count (gbo s))); cbn [fst snd gbo dmesg negb andb orb].
  - fields. destruct (_ >? _); reflexivity.
  - destruct (negb _); reflexivity.
Qed.

(** ** The exported calls in terms of the locked ones *)

Lemma pin_gbo (reserve : Z) (o : ttm_validate_outcome) (pl_flag : Z) (s : kstate) :
  gbo (snd (drm_gem_vram_pin reserve o pl_flag s)) =
    if truthy reserve then gbo s
    else gbo (snd (drm_gem_vram_pin_locked o pl_flag (snd (ttm_bo_reserve reserve s)))).
Proof.
  unfold drm_gem_vram_pin. unf_m. destruct (truthy reserve); reflexivity.
Qed.

Lemma unpin_gbo (reserve : Z) (o : ttm_validate_outcome) (s : kstate) :
  gbo (snd (drm_gem_vram_unpin reserve o s)) =
    if truthy reserve then gbo s
    else gbo (snd (drm_gem_vram_unpin_locked o (snd (ttm_bo_reserve reserve s)))).
Proof.
  unfold drm_gem_vram_unpin. unf_m. destruct (truthy reserve); reflexivity.
Qed.

Lemma kmap_gbo (reserve : Z) (o : ttm_kmap_outcome) (map : bool)
    (is_iomem : option bool) (s : kstate) :
  gbo (snd (drm_gem_vram_kmap reserve o map is_iomem s)) =
    if truthy reserve then gbo s
    else gbo (snd (drm_gem_vram_kmap_locked o map is_iomem
                     (snd (ttm_bo_reserve reserve s)))).
Proof.
  unfold drm_gem_vram_kmap. unf_m. destruct (truthy reserve); reflexivity.
Qed.

Lemma kunmap_gbo (reserve : Z) (s : kstate) :
  gbo (snd (drm_gem_vram_kunmap reserve s)) =
    if truthy reserve then gbo s
    else gbo (snd (drm_gem_vram_kunmap_locked
                     (snd (WARN_ON_ONCE WARN_kunmap_reserve false
                             (snd (ttm_bo_reserve reserve s)))))).
Proof.
  unfold drm_gem_vram_kunmap. unf_m.
  destruct (truthy reserve); cbn [fst snd gbo dmesg negb andb orb];
    [destruct (negb _) |]; reflexivity.
Qed.

Lemma vmap_gbo (reserve : Z) (o_pin : ttm_validate_outcome)
    (o_kmap : ttm_kmap_outcome) (o_unpin : ttm_validate_outcome) (s : kstate) :
  gbo (snd (drm_gem_vram_object_vmap reserve o_pin o_kmap o_unpin s)) =
    if truthy reserve then gbo s
    else
      let p := drm_gem_vram_pin_locked o_pin 0 (snd (ttm_bo_reserve reserve s)) in
      if truthy (fst p) then gbo (snd p)
      else
        let k := drm_gem_vram_kmap_locked o_kmap true None (snd p) in
        if IS_ERR (fst (fst k))
        then gbo (snd (drm_gem_vram_unpin_locked o_unpin (snd k)))
        else gbo (snd k).
Proof.
  unfold drm_gem_vram_object_vmap. unf_m. cbv zeta.
  destruct (truthy reserve); cbn [fst snd gbo dmesg negb andb orb]; [reflexivity |].
  destruct (truthy (fst (drm_gem_vram_pin_locked _ _ _)));
    cbn [fst snd gbo dmesg negb andb orb]; [reflexivity |].
  destruct (IS_ERR _); reflexivity.
Qed.

Lemma vunmap_gbo (reserve : Z) (o_unpin : ttm_validate_outcome) (s : kstate) :
  gbo (snd (drm_gem_vram_object_vunmap reserve o_unpin s)) =
    if truthy reserve then gbo s
    else gbo (snd (drm_gem_vram_unpin_locked o_unpin
               (snd (drm_gem_vram_kunmap_locked
                  (snd (WARN_ON_ONCE WARN_vunmap_reserve false
                          (snd (ttm_bo_reserve reserve s)))))))).
Proof.
  unfold drm_gem_vram_object_vunmap. unf_m.
  destruct (truthy reserve); cbn [fst snd gbo dmesg negb andb orb];
    [destruct (negb _) |]; reflexivity.
Qed.

Lemma reserve_gbo (reserve : Z) (s : kstate) :
  gbo (snd (ttm_bo_reserve reserve s)) = gbo s.
Proof. reflexivity. Qed.

Lemma warn_once_gbo (site : warn_site) (c : bool) (s : kstate) :
  gbo (snd (WARN_ON_ONCE site c s)) = gbo s.
Proof. unf_m. destruct (c && _); reflexivity. Qed.

Lemma evict_gbo (ty off : Z) (s : kstate) :
  gbo (snd ((drm_gem_vram_bo_driver_evict_flags ;;
             drm_gem_vram_bo_driver_move_notify ;;
             modify_gbo (set_mem ty off)) s)) =
    set_mem ty off
      (gbo (snd (drm_gem_vram_bo_driver_move_notify
                   (snd (drm_gem_vram_bo_driver_evict_flags s))))).
Proof. reflexivity. Qed.

Lemma offset_gbo (s : kstate) : gbo (snd (drm_gem_vram_offset s)) = gbo s.
Proof.
  unfold drm_gem_vram_offset. unf_m.
  destruct (negb (truthy _)); cbn [fst snd gbo dmesg negb andb orb];
    [destruct (negb _) |]; reflexivity.
Qed.

Lemma evict_flags_gbo (s : kstate) :
  gbo (snd (drm_gem_vram_bo_driver_evict_flags s)) =
    drm_gem_vram_placement TTM_PL_FLAG_SYSTEM (gbo s).
Proof. reflexivity. Qed.

Ltac know_pin o f t :=
  let H := fresh "Hpin" in
  pose proof (pin_locked_effect o f t) as H; cbv zeta in H;
  let r := fresh "rp" in
  set (r := drm_gem_vram_pin_locked o f t) in *; clearbody r.

Ltac know_unpin o t :=
  let H := fresh "Hunpin" in
  pose proof (unpin_locked_effect o t) as H; cbv zeta in H;
  let r := fresh "ru" in
  set (r := drm_gem_vram_unpin_locked o t) in *; clearbody r.

Ltac know_kmap o m i t :=
  let H := fresh "Hkmap" in
  pose proof (kmap_locked_effect o m i t) as H; cbv zeta in H;
  let r := fresh "rk" in
  set (r := drm_gem_vram_kmap_locked o m i t) in *; clearbody r.

Ltac know_kunmap t :=
  let H := fresh "Hkunmap" in
  pose proof (kunmap_locked_effect t) as H;
  let r := fresh "rn" in
  set (r := drm_gem_vram_kunmap_locked t) in *; clearbody r.

Ltac know_move t :=
  let H := fresh "Hmove" in
  pose proof (move_notify_effect t) as H; cbv zeta in H;
  let r := fresh "rm" in
  set (r := drm_gem_vram_bo_driver_move_notify t) in *; clearbody r.

(** Brings in the effect of every locked call and hook that occurs in the
    goal or in what is already known, and names the results. *)
Ltac know_effects :=
  repeat match goal with
  | |- context [drm_gem_vram_pin_locked ?o ?f ?t] => know_pin o f t
  | _ : context [drm_gem_vram_pin_locked ?o ?f ?t] |- _ => know_pin o f t
  | |- context [drm_gem_vram_unpin_locked ?o ?t] => know_unpin o t
  | _ : context [drm_gem_vram_unpin_locked ?o ?t] |- _ => know_unpin o t
  | |- context [drm_gem_vram_kmap_locked ?o ?m ?i ?t] => know_kmap o m i t
  | _ : context [drm_gem_vram_kmap_locked ?o ?m ?i ?t] |- _ => know_kmap o m i t
  | |- context [drm_gem_vram_kunmap_locked ?t] => know_kunmap t
  | _ : context [drm_gem_vram_kunmap_locked ?t] |- _ => know_kunmap t
  | |- context [drm_gem_vram_bo_driver_move_notify ?t] => know_move t
  | _ : context [drm_gem_vram_bo_driver_move_notify ?t] |- _ => know_move t
  end;
  rewrite ?warn_once_gbo, ?reserve_gbo, ?evict_flags_gbo in *.

(** Rewrites a step of a history into locked calls. *)
Ltac step_gbo :=
  unfold run_op;
  rewrite ?pin_gbo, ?unpin_gbo, ?kmap_gbo, ?kunmap_gbo, ?vmap_gbo, ?vunmap_gbo,
    ?offset_gbo, ?evict_gbo;
  cbv zeta.

(** ** Invariants along histories *)

(** Case analysis on what the effects leave open. *)
Ltac cases :=
  repeat match goal with
  | H : _ /\ _ |- _ => destruct H
  | H : ?x = 0 -> _ |- _ =>
      let e := fresh "e" in
      destruct (Z.eq_dec x 0) as [e | e]; [specialize (H e) | clear H]
  | H : ?x <> 0 -> _ |- _ =>
      let e := fresh "e" in
      destruct (Z.eq_dec x 0) as [e | e]; [clear H | specialize (H e)]
  | H : gbo (snd ?r) = _ |- _ => rewrite H in *; clear H
  | H : context [if ?c then _ else _] |- _ => destruct c eqn:?
  | |- context [if ?c then _ else _] => destruct c eqn:?
  end;
  simp_gbo; tests.

(** Closes a goal about the counters and the address once the effects are
    known. *)
Ltac settle :=
  intros;
  repeat match goal with
  | H : _ \/ _ |- _ => destruct H
  | H : _ /\ _ |- _ => destruct H
  | H : kmap _ = kmap _ |- _ => rewrite H in *; clear H
  end;
  try lia; try congruence; try tauto; try (intuition (lia || congruence)).

Lemma run_op_pin_count_nonneg (x : op) (s : kstate) :
  0 <= pin_count (gbo s) -> 0 <= pin_count (gbo (run_op x s)).
Proof.
  intros H. destruct x; step_gbo; know_effects; cases;
    try lia; try (intuition lia).
Qed.

Lemma run_op_kmap_inv (x : op) (s : kstate) :
  kmap_inv (gbo s) -> kmap_inv (gbo (run_op x s)).
Proof.
  unfold kmap_inv. intros H.
  destruct x; step_gbo; know_effects; unfold kmap_kept_or_released in *; cases;
    unfold NULL in *; try tauto; settle.
Qed.

Lemma run_op_use_count_nonneg (x : op) (s : kstate) :
  0 <= kmap_use_count (gbo s) -> 0 <= kmap_use_count (gbo (run_op x s)).
Proof.
  intros H. destruct x; step_gbo; know_effects; cases; settle.
Qed.

Lemma run_pin_count_nonneg (ops : list op) (s : kstate) :
  0 <= pin_count (gbo s) -> 0 <= pin_count (gbo (run ops s)).
Proof.
  revert s. induction ops as [| x ops IH]; intros s H; [exact H |].
  cbn. apply IH. apply run_op_pin_count_nonneg. exact H.
Qed.

Lemma run_use_count_nonneg (ops : list op) (s : kstate) :
  0 <= kmap_use_count (gbo s) -> 0 <= kmap_use_count (gbo (run ops s)).
Proof.
  revert s. induction ops as [| x ops IH]; intros s H; [exact H |].
  cbn. apply IH. apply run_op_use_count_nonneg. exact H.
Qed.

Lemma run_kmap_inv (ops : list op) (s : kstate) :
  kmap_inv (gbo s) -> kmap_inv (gbo (run ops s)).
Proof.
  revert s. induction ops as [| x ops IH]; intros s H; [exact H |].
  cbn. apply IH. apply run_op_kmap_inv. exact H.
Qed.

(** A created object starts unpinned and unmapped. *)
Lemma create_fresh (co : create_outcome) (size pg_align : Z) (interruptible : bool)
    (p : Z) (s0 : kstate) :
  drm_gem_vram_create co size pg_align interruptible = (p, Some s0) ->
  pin_count (gbo s0) = 0 /\ kmap_use_count (gbo s0) = 0 /\
  virtual (kmap (gbo s0)) = NULL.
Proof.
  unfold drm_gem_vram_create. cbv zeta.
  destruct (negb (truthy (kzalloc co))); [discriminate |].
  destruct (_ <? 0); [discriminate |].
  intros H. injection H as _ <-.
  unfold drm_gem_vram_init. unf_m.
  destruct (truthy (gem_object_init_ret co)); cbn [fst snd gbo dmesg negb andb orb].
  - cbn. auto.
  - destruct (truthy (ttm_bo_init_ret co)); cbn [fst snd gbo dmesg negb andb orb];
      simp_gbo; cbn; auto.
Qed.

Lemma pin_fst (reserve : Z) (o : ttm_validate_outcome) (pl_flag : Z) (s : kstate) :
  fst (drm_gem_vram_pin reserve o pl_flag s) =
    if truthy reserve then reserve
    else fst (drm_gem_vram_pin_locked o pl_flag (snd (ttm_bo_reserve reserve s))).
Proof.
  unfold drm_gem_vram_pin. unf_m. destruct (truthy reserve); reflexivity.
Qed.

Lemma unpin_fst (reserve : Z) (o : ttm_validate_outcome) (s : kstate) :
  fst (drm_gem_vram_unpin reserve o s) =
    if truthy reserve then reserve
    else fst (drm_gem_vram_unpin_locked o (snd (ttm_bo_reserve reserve s))).
Proof.
  unfold drm_gem_vram_unpin. unf_m. destruct (truthy reserve); reflexivity.
Qed.

Lemma unpin_locked_at_zero (s : kstate) (o : ttm_validate_outcome) :
  pin_count (gbo s) = 0 ->
  fst (drm_gem_vram_unpin_locked o s) = 0 /\
  gbo (snd (drm_gem_vram_unpin_locked o s)) = gbo s /\
  warned WARN_unpin_pin_count (dmesg (snd (drm_gem_vram_unpin_locked o s))) = true /\
  ~ In (Call ttm_bo_validate_call)
       (skipn (length (dmesg s)) (dmesg (snd (drm_gem_vram_unpin_locked o s)))).
Proof.
  intros H. unfold drm_gem_vram_unpin_locked. unf_m.
  rewrite H. cbn [truthy Z.eqb fst snd gbo dmesg negb andb orb].
  destruct (warned WARN_unpin_pin_count (dmesg s)) eqn:W;
    cbn [fst snd gbo dmesg negb andb orb].
  - rewrite W, skipn_all. cbn. auto.
  - repeat split; auto.
    + unfold warned. rewrite existsb_app, orb_true_iff. right. reflexivity.
    + rewrite skipn_app, skipn_all, Nat.sub_diag. cbn. intuition discriminate.
Qed.

(** Every state in the history of a created object is consistent: both
    counters are non-negative and the mapping invariant holds. *)
Lemma created_history_consistent (co : create_outcome) (size pg_align : Z)
    (interruptible : bool) (p : Z) (s0 : kstate) (ops : list op) :
  drm_gem_vram_create co size pg_align interruptible = (p, Some s0) ->
  0 <= pin_count (gbo (run ops s0)) /\
  0 <= kmap_use_count (gbo (run ops s0)) /\
  kmap_inv (gbo (run ops s0)).
Proof.
  intros Hc. destruct (create_fresh _ _ _ _ Hc) as (Hp & Hu & Hv).
  split; [| split].
  - apply run_pin_count_nonneg. lia.
  - apply run_use_count_nonneg. lia.
  - apply run_kmap_inv. unfold kmap_inv. lia.
Qed.

(** C5: along every history of a buffer (pins and unpins, and every other
    operation on it) [pin_count] is never negative: from a state where it is
    not negative, and so from a freshly created object, it is not negative
    after any number of steps.  An unpin at [pin_count = 0] is refused: it
    returns 0, leaves the object exactly as it was, calls no validation, and
    the warning of that site is on the log afterwards. *)
Theorem pin_count_never_negative :
  (forall (ops : list op) (s : kstate),
     0 <= pin_count (gbo s) ->
     forall n : nat, 0 <= pin_count (gbo (run (firstn n ops) s))) /\
  (forall co size pg_align interruptible p s0 (ops : list op),
     drm_gem_vram_create co size pg_align interruptible = (p, Some s0) ->
     forall n : nat, 0 <= pin_count (gbo (run (firstn n ops) s0))) /\
  (forall (s : kstate) (o : ttm_validate_outcome),
     pin_count (gbo s) = 0 ->
     fst (drm_gem_vram_unpin_locked o s) = 0 /\
     gbo (snd (drm_gem_vram_unpin_locked o s)) = gbo s /\
     warned WARN_unpin_pin_count (dmesg (snd (drm_gem_vram_unpin_locked o s))) = true /\
     ~ In (Call ttm_bo_validate_call)
          (skipn (length (dmesg s)) (dmesg (snd (drm_gem_vram_unpin_locked o s)))) /\
     fst (drm_gem_vram_unpin 0 o s) = 0 /\
     gbo (snd (drm_gem_vram_unpin 0 o s)) = gbo s).
Proof.
  split; [| split].
  - intros ops s H n. apply run_pin_count_nonneg. exact H.
  - intros co size pg_align interruptible p s0 ops Hc n.
    apply run_pin_count_nonneg.
    destruct (create_fresh _ _ _ _ Hc) as (-> & _). lia.
  - intros s o H.
    destruct (unpin_locked_at_zero s o H) as (Hr & Hg & Hw & Hn).
    repeat split; auto.
    + rewrite unpin_fst. cbn [truthy Z.eqb negb].
      apply unpin_locked_at_zero. exact H.
    + rewrite unpin_gbo. cbn [truthy Z.eqb negb].
      apply (unpin_locked_at_zero (snd (ttm_bo_reserve 0 s)) o H).
Qed.

(** C7: the mapping-cache invariant [kmap_use_count > 0 -> virtual <> NULL]
    holds after every step of every history (maps, unmaps, moves, and the
    other operations) that starts in a state where it holds, in particular
    from a freshly created object.  With a count of 0 both situations occur:
    after a map and its unmap the address is retained, and a fresh object
    has none. *)
Theorem kmap_cache_invariant :
  (forall (ops : list op) (s : kstate),
     kmap_inv (gbo s) ->
     forall n : nat, kmap_inv (gbo (run (firstn n ops) s))) /\
  (forall co size pg_align interruptible p s0 (ops : list op),
     drm_gem_vram_create co size pg_align interruptible = (p, Some s0) ->
     forall n : nat, kmap_inv (gbo (run (firstn n ops) s0))) /\
  (exists p s0,
     drm_gem_vram_create create_ok 4096 0 false = (p, Some s0) /\
     kmap_use_count (gbo s0) = 0 /\ virtual (kmap (gbo s0)) = NULL /\
     kmap_use_count (gbo (run [op_kmap 0 kmap_ok true None; op_kunmap 0] s0)) = 0 /\
     virtual (kmap (gbo (run [op_kmap 0 kmap_ok true None; op_kunmap 0] s0))) = 4096).
Proof.
  split; [| split].
  - intros ops s H n. apply run_kmap_inv. exact H.
  - intros co size pg_align interruptible p s0 ops Hc n.
    apply run_kmap_inv.
    destruct (create_fresh _ _ _ _ Hc) as (_ & Hu & _).
    unfold kmap_inv. lia.
  - do 2 eexists. split; [reflexivity |].
    match goal with |- context [gbo ?t] => set (s0 := t) end.
    assert (Hf : pin_count (gbo s0) = 0 /\ kmap_use_count (gbo s0) = 0 /\
                 virtual (kmap (gbo s0)) = NULL)
      by (apply (@create_fresh create_ok 4096 0 false 65536); reflexivity).
    clearbody s0. destruct Hf as (_ & Hu & Hv).
    split; [exact Hu | split; [exact Hv |]].
    unfold run. cbn [fold_left]. step_gbo. know_effects.
    rewrite kmap_gbo in *. cbn [truthy Z.eqb negb] in *. know_effects.
    cases.
    all: cbn in *; unfold NULL in *.
    all: match goal with
         | H : _ <= 0 -> _ = 0 -> true = true -> _ |- _ =>
             specialize (H ltac:(lia) Hv eq_refl); rewrite H in *; cbn in *
         end.
    all: settle.
Qed.

(** ** Release of the mapping *)

Lemma moves_false (o : ttm_validate_outcome) : moves o = false -> v_move o = None.
Proof. unfold moves. destruct (v_move o); [discriminate | reflexivity]. Qed.

Lemma kunmap_locked_dmesg (s : kstate) :
  kmap_use_count (gbo s) <> 0 ->
  dmesg (snd (drm_gem_vram_kunmap_locked s)) = dmesg s.
Proof.
  intros H. apply truthy_true in H.
  unfold drm_gem_vram_kunmap_locked. unf_m. rewrite H.
  cbn [fst snd gbo dmesg negb andb orb]. destruct (_ >? _); reflexivity.
Qed.

Lemma move_notify_unreferenced (s : kstate) :
  kmap_use_count (gbo s) = 0 -> virtual (kmap (gbo s)) <> NULL ->
  virtual (kmap (gbo (snd (drm_gem_vram_bo_driver_move_notify s)))) = NULL /\
  dmesg (snd (drm_gem_vram_bo_driver_move_notify s)) =
    dmesg s ++ [Call ttm_bo_kunmap_call].
Proof.
  intros H0 Hv. apply truthy_true in Hv.
  unfold drm_gem_vram_bo_driver_move_notify. unf_m.
  rewrite H0, Hv. cbn. auto.
Qed.

Lemma move_notify_referenced (s : kstate) :
  kmap_use_count (gbo s) <> 0 ->
  gbo (snd (drm_gem_vram_bo_driver_move_notify s)) = gbo s /\
  warned WARN_move_notify_use_count
    (dmesg (snd (drm_gem_vram_bo_driver_move_notify s))) = true /\
  ~ In (Call ttm_bo_kunmap_call)
       (skipn (length (dmesg s))
          (dmesg (snd (drm_gem_vram_bo_driver_move_notify s)))).
Proof.
  intros H. apply truthy_true in H.
  unfold drm_gem_vram_bo_driver_move_notify. unf_m. rewrite H.
  cbn [fst snd gbo dmesg negb andb orb].
  destruct (warned WARN_move_notify_use_count (dmesg s)) eqn:W;
    cbn [fst snd gbo dmesg negb andb orb].
  - rewrite skipn_all. cbn. auto.
  - repeat split.
    + unfold warned. rewrite existsb_app, orb_true_iff. right. reflexivity.
    + rewrite skipn_app, skipn_all, Nat.sub_diag. cbn. intuition discriminate.
Qed.

Lemma run_op_keeps_mapping (x : op) (s : kstate) :
  runs_move_notify x = false ->
  virtual (kmap (gbo s)) <> NULL ->
  kmap (gbo (run_op x s)) = kmap (gbo s).
Proof.
  intros Hx Hv.
  destruct x; cbn [runs_move_notify] in Hx; try discriminate;
    try (apply orb_false_iff in Hx; destruct Hx);
    repeat match goal with
    | H : moves _ = false |- _ => apply moves_false in H
    end;
    step_gbo; know_effects; unfold kmap_kept_or_released, NULL in *; cases;
    settle.
Qed.

(** C2: an unmap leaves the mapping in place, also when it brings the count
    from 1 to 0 (nothing is logged then: no call to [ttm_bo_kunmap]).  The
    move-notify hook releases an unreferenced mapping through
    [ttm_bo_kunmap] and clears the address; with references left it warns
    and returns with the object untouched.  No operation during which the
    hook does not run changes a mapping that is present. *)
Theorem kunmap_defers_release_to_move_notify (s : kstate) :
  kmap (gbo (snd (drm_gem_vram_kunmap_locked s))) = kmap (gbo s) /\
  (forall reserve : Z,
     kmap (gbo (snd (drm_gem_vram_kunmap reserve s))) = kmap (gbo s)) /\
  (kmap_use_count (gbo s) = 1 ->
     kmap_use_count (gbo (snd (drm_gem_vram_kunmap_locked s))) = 0 /\
     dmesg (snd (drm_gem_vram_kunmap_locked s)) = dmesg s) /\
  (kmap_use_count (gbo s) = 0 -> virtual (kmap (gbo s)) <> NULL ->
     virtual (kmap (gbo (snd (drm_gem_vram_bo_driver_move_notify s)))) = NULL /\
     dmesg (snd (drm_gem_vram_bo_driver_move_notify s)) =
       dmesg s ++ [Call ttm_bo_kunmap_call]) /\
  (kmap_use_count (gbo s) <> 0 ->
     gbo (snd (drm_gem_vram_bo_driver_move_notify s)) = gbo s /\
     warned WARN_move_notify_use_count
       (dmesg (snd (drm_gem_vram_bo_driver_move_notify s))) = true /\
     ~ In (Call ttm_bo_kunmap_call)
          (skipn (length (dmesg s))
             (dmesg (snd (drm_gem_vram_bo_driver_move_notify s))))) /\
  (forall x : op,
     runs_move_notify x = false ->
     virtual (kmap (gbo s)) <> NULL ->
     kmap (gbo (run_op x s)) = kmap (gbo s)).
Proof.
  assert (Hk : forall t, kmap (gbo (snd (drm_gem_vram_kunmap_locked t))) = kmap (gbo t)).
  { intros t. rewrite kunmap_locked_effect. destruct (truthy _); reflexivity. }
  split; [apply Hk | split; [| split; [| split; [| split]]]].
  - intros reserve. rewrite kunmap_gbo. destruct (truthy reserve); [reflexivity |].
    rewrite Hk, warn_once_gbo. reflexivity.
  - intros H1. split.
    + rewrite kunmap_locked_effect, H1. reflexivity.
    + apply kunmap_locked_dmesg. lia.
  - apply move_notify_unreferenced.
  - apply move_notify_referenced.
  - intros x. apply run_op_keeps_mapping.
Qed.

(** ** vmap and vunmap *)

Lemma vmap_fst (reserve : Z) (o_pin : ttm_validate_outcome)
    (o_kmap : ttm_kmap_outcome) (o_unpin : ttm_validate_outcome) (s : kstate) :
  fst (drm_gem_vram_object_vmap reserve o_pin o_kmap o_unpin s) =
    if truthy reserve then ERR_PTR reserve
    else
      let p := drm_gem_vram_pin_locked o_pin 0 (snd (ttm_bo_reserve reserve s)) in
      if truthy (fst p) then ERR_PTR (fst p)
      else
        let k := drm_gem_vram_kmap_locked o_kmap true None (snd p) in
        if IS_ERR (fst (fst k)) then ERR_PTR (PTR_ERR (fst (fst k)))
        else fst (fst k).
Proof.
  unfold drm_gem_vram_object_vmap. unf_m. cbv zeta.
  destruct (truthy reserve); cbn [fst snd gbo dmesg negb andb orb]; [reflexivity |].
  destruct (truthy (fst (drm_gem_vram_pin_locked _ _ _)));
    cbn [fst snd gbo dmesg negb andb orb]; [reflexivity |].
  destruct (IS_ERR _); reflexivity.
Qed.

Lemma IS_ERR_errno (r : Z) : errno_result r -> r <> 0 -> IS_ERR (ERR_PTR r) = true.
Proof.
  unfold errno_result, IS_ERR, ERR_PTR. intros H Hn.
  apply andb_true_iff. split; [apply Z.leb_le | apply Z.ltb_lt]; lia.
Qed.

Lemma vmap_success
    (s : kstate) (reserve : Z) (o_pin : ttm_validate_outcome)
    (o_kmap : ttm_kmap_outcome) (o_unpin : ttm_validate_outcome) :
  0 <= pin_count (gbo s) ->
  0 <= kmap_use_count (gbo s) ->
  kmap_inv (gbo s) ->
  errno_result reserve ->
  errno_result (v_ret o_pin) ->
  let v := drm_gem_vram_object_vmap reserve o_pin o_kmap o_unpin s in
  IS_ERR (fst v) = false ->
  pin_count (gbo (snd v)) = pin_count (gbo s) + 1 /\
  (kmap_use_count (gbo (snd v)) = kmap_use_count (gbo s) + 1 \/
   (kmap_use_count (gbo (snd v)) = 0 /\ kmap_use_count (gbo s) = 0)).
Proof.
  intros Hpin Huse Hinv Hres Hval. cbv zeta. rewrite vmap_fst, vmap_gbo. cbv zeta.
  destruct (truthy reserve) eqn:Er.
  { apply truthy_true in Er. rewrite IS_ERR_errno by assumption. discriminate. }
  destruct (truthy (fst (drm_gem_vram_pin_locked _ _ _))) eqn:Ep.
  { know_effects. unfold errno_result in *. cases.
    match goal with
    | H : _ \/ _ |- _ => destruct H as [(? & ?) | (Hr & ? & ? & ?)]; [congruence |]
    end.
    rewrite Hr, IS_ERR_errno by (unfold errno_result; lia). discriminate. }
  destruct (IS_ERR (fst (fst (drm_gem_vram_kmap_locked _ _ _ _)))) eqn:Ek.
  { unfold ERR_PTR, PTR_ERR. rewrite Ek. discriminate. }
  intros _. know_effects. unfold kmap_inv, kmap_kept_or_released, NULL in *.
  cases; settle.
Qed.

Lemma vunmap_counts (o : ttm_validate_outcome) (t : kstate) :
  let t' := snd (drm_gem_vram_object_vunmap 0 o t) in
  (pin_count (gbo t) = 0 -> pin_count (gbo t') = 0) /\
  (pin_count (gbo t) <> 0 -> pin_count (gbo t') = pin_count (gbo t) - 1) /\
  (kmap_use_count (gbo t) = 0 -> kmap_use_count (gbo t') = 0) /\
  (kmap_use_count (gbo t) <> 0 ->
     kmap_use_count (gbo t') = kmap_use_count (gbo t) - 1).
Proof.
  cbv zeta. rewrite vunmap_gbo. cbn [truthy Z.eqb negb].
  know_effects. cases; repeat split; settle.
Qed.

(** C6: on a buffer in a consistent state (counters not negative, mapping
    invariant), when [vmap] succeeds and the matching [vunmap] runs,
    [pin_count] and [kmap_use_count] are back at their values before the
    [vmap].  [vmap] is the pin with no placement hint followed by the map
    with [map = true] and no [is_iomem]: a failing pin is returned as it is;
    when both succeed the result and the object are those of the map step;
    when the map step fails the error is returned after an unpin, and
    [pin_count] is what it was before the [vmap]. *)
Theorem vmap_vunmap_round_trip
    (s : kstate) (reserve : Z) (o_pin : ttm_validate_outcome)
    (o_kmap : ttm_kmap_outcome) (o_unpin o_vunmap : ttm_validate_outcome)
    (Hpin : 0 <= pin_count (gbo s))
    (Huse : 0 <= kmap_use_count (gbo s))
    (Hinv : kmap_inv (gbo s))
    (Hres : errno_result reserve)
    (Hval : errno_result (v_ret o_pin)) :
  let v := drm_gem_vram_object_vmap reserve o_pin o_kmap o_unpin s in
  let p := drm_gem_vram_pin_locked o_pin 0 (snd (ttm_bo_reserve reserve s)) in
  let k := drm_gem_vram_kmap_locked o_kmap true None (snd p) in
  (IS_ERR (fst v) = false ->
     pin_count (gbo (snd (drm_gem_vram_object_vunmap 0 o_vunmap (snd v))))
       = pin_count (gbo s) /\
     kmap_use_count (gbo (snd (drm_gem_vram_object_vunmap 0 o_vunmap (snd v))))
       = kmap_use_count (gbo s)) /\
  (reserve = 0 -> fst p <> 0 ->
     fst v = ERR_PTR (fst p) /\ gbo (snd v) = gbo (snd p)) /\
  (reserve = 0 -> fst p = 0 -> IS_ERR (fst (fst k)) = false ->
     fst v = fst (fst k) /\ gbo (snd v) = gbo (snd k)) /\
  (reserve = 0 -> fst p = 0 -> IS_ERR (fst (fst k)) = true ->
     fst v = fst (fst k) /\
     gbo (snd v) = gbo (snd (drm_gem_vram_unpin_locked o_unpin (snd k))) /\
     pin_count (gbo (snd v)) = pin_count (gbo s)).
Proof.
  cbv zeta. split; [| rewrite vmap_fst, vmap_gbo; cbv zeta; split; [| split]].
  - intros Hok.
    destruct (@vmap_success s reserve o_pin o_kmap o_unpin
                Hpin Huse Hinv Hres Hval Hok) as (Hp & Hu).
    destruct (@vunmap_counts o_vunmap
                (snd (drm_gem_vram_object_vmap reserve o_pin o_kmap o_unpin s)))
      as (Hp0 & Hp1 & Hu0 & Hu1).
    split.
    + rewrite Hp1, Hp by lia. lia.
    + destruct Hu as [Hu | (Hu & Hz)].
      * rewrite Hu1, Hu by lia. lia.
      * rewrite Hu0, Hz by lia. lia.
  - intros -> Hp. apply truthy_true in Hp. cbn [truthy Z.eqb negb].
    rewrite Hp. auto.
  - intros -> Hp Hk. apply truthy_false in Hp. cbn [truthy Z.eqb negb].
    rewrite Hp, Hk. auto.
  - intros -> Hp Hk. pose proof Hp as Hp'. apply truthy_false in Hp.
    cbn [truthy Z.eqb negb]. rewrite Hp, Hk. repeat split.
    know_effects. unfold kmap_inv, kmap_kept_or_released, NULL in *.
    cases; settle.
Qed.

(** ** The placement list *)

Lemma length_update_nth {A : Type} (i : nat) (f : A -> A) (l : list A) :
  length (update_nth i f l) = length l.
Proof.
  revert i. induction l as [| x t IH]; intros [| j]; cbn; auto.
Qed.

Lemma nth_error_update_nth {A : Type} (i j : nat) (f : A -> A) (l : list A) :
  nth_error (update_nth i f l) j =
    if Nat.eqb j i then option_map f (nth_error l j) else nth_error l j.
Proof.
  revert i j. induction l as [| x t IH]; intros [| i] [| j]; cbn; auto.
  destruct (Nat.eqb j i); reflexivity.
Qed.

Lemma for_placements_S (c : nat) (f : ttm_place -> ttm_place) (l : list ttm_place) :
  for_placements (S c) f l = update_nth c f (for_placements c f l).
Proof.
  unfold for_placements. rewrite seq_S, fold_left_app. reflexivity.
Qed.

Lemma length_for_placements (c : nat) (f : ttm_place -> ttm_place) (l : list ttm_place) :
  length (for_placements c f l) = length l.
Proof.
  induction c as [| c IH]; [reflexivity |].
  rewrite for_placements_S, length_update_nth. exact IH.
Qed.

Lemma nth_error_for_placements (c j : nat) (f : ttm_place -> ttm_place)
    (l : list ttm_place) :
  nth_error (for_placements c f l) j =
    if Nat.ltb j c then option_map f (nth_error l j) else nth_error l j.
Proof.
  induction c as [| c IH]; [reflexivity |].
  rewrite for_placements_S, nth_error_update_nth, IH.
  destruct (Nat.eqb_spec j c) as [-> | Hne].
  - rewrite Nat.ltb_irrefl.
    replace (Nat.ltb c (S c)) with true by (symmetry; apply Nat.ltb_lt; lia).
    reflexivity.
  - destruct (Nat.ltb_spec j c), (Nat.ltb_spec j (S c)); try lia; reflexivity.
Qed.

(** The flags [drm_gem_vram_placement] writes for the two tiers. *)
Lemma placement_shape (pl_flag : Z) (g : drm_gem_vram_object) :
  length (placements g) = 2%nat ->
  let g' := drm_gem_vram_placement pl_flag g in
  let v := truthy (Z.land pl_flag TTM_PL_FLAG_VRAM) in
  let sy := truthy (Z.land pl_flag TTM_PL_FLAG_SYSTEM) in
  length (placements g') = 2%nat /\
  num_busy_placement g' = num_placement g' /\
  num_placement g' = (if v && sy then 2 else 1)%nat /\
  (forall i : nat, (i < num_placement g')%nat ->
     nth_error (placements g') i =
       Some {| fpfn := 0; lpfn := 0;
               flags := if v && Nat.eqb i 0
                        then Z.lor TTM_PL_FLAG_WC
                               (Z.lor TTM_PL_FLAG_UNCACHED TTM_PL_FLAG_VRAM)
                        else Z.lor TTM_PL_MASK_CACHING TTM_PL_FLAG_SYSTEM |}) /\
  (forall i : nat, (num_placement g' <= i)%nat ->
     nth_error (placements g') i = nth_error (placements g) i).
Proof.
  intros Hlen. cbv zeta. unfold drm_gem_vram_placement.
  destruct (placements g) as [| a [| b [| c t]]] eqn:Hp; try discriminate.
  destruct (truthy (Z.land pl_flag TTM_PL_FLAG_VRAM));
    destruct (truthy (Z.land pl_flag TTM_PL_FLAG_SYSTEM));
    cbn; repeat split; auto;
    try (intros [| [| i]] Hi; try lia; reflexivity).
Qed.

Lemma land_lor_l (a b : Z) : Z.land (Z.lor a b) a = a.
Proof.
  apply Z.bits_inj'. intros n Hn.
  rewrite Z.land_spec, Z.lor_spec.
  destruct (Z.testbit a n), (Z.testbit b n); reflexivity.
Qed.

Lemma land_lor_r (a b : Z) : Z.land (Z.lor a b) b = b.
Proof. rewrite Z.lor_comm. apply land_lor_l. Qed.

(** X1: [drm_gem_vram_placement] lists the fast tier first and the general
    tier second.  With both tiers in the hint two placements are listed,
    with one tier one placement, and with neither tier the list falls back
    to the general tier alone.  Every listed placement has its page range
    cleared; the entries past the list keep what they held. *)
Theorem placement_candidates (pl_flag : Z) (g : drm_gem_vram_object)
    (Hlen : length (placements g) = 2%nat) :
  let g' := drm_gem_vram_placement pl_flag g in
  let v := truthy (Z.land pl_flag TTM_PL_FLAG_VRAM) in
  let sy := truthy (Z.land pl_flag TTM_PL_FLAG_SYSTEM) in
  length (placements g') = 2%nat /\
  num_busy_placement g' = num_placement g' /\
  num_placement g' = (if v && sy then 2 else 1)%nat /\
  (forall i : nat, (i < num_placement g')%nat ->
     nth_error (placements g') i =
       Some {| fpfn := 0; lpfn := 0;
               flags := if v && Nat.eqb i 0
                        then Z.lor TTM_PL_FLAG_WC
                               (Z.lor TTM_PL_FLAG_UNCACHED TTM_PL_FLAG_VRAM)
                        else Z.lor TTM_PL_MASK_CACHING TTM_PL_FLAG_SYSTEM |}) /\
  (forall i : nat, (num_placement g' <= i)%nat ->
     nth_error (placements g') i = nth_error (placements g) i).
Proof. exact (placement_shape pl_flag g Hlen). Qed.

(** X2: when TTM asks where to evict a buffer, a buffer of this driver is
    given the general tier as its only placement, whatever its list was
    before, and nothing else of it changes; a buffer object of another
    driver is not touched. *)
Theorem evict_flags_system_only (s : kstate) (destroy : bool)
    (Hlen : length (placements (gbo s)) = 2%nat)
    (Hsys : TTM_PL_FLAG_SYSTEM <> 0)
    (Hdisj : Z.land TTM_PL_FLAG_SYSTEM TTM_PL_FLAG_VRAM = 0) :
  let s' := snd (bo_driver_evict_flags destroy s) in
  (destroy = false -> s' = s) /\
  (destroy = true ->
     num_placement (gbo s') = 1%nat /\
     nth_error (placements (gbo s')) 0 =
       Some {| fpfn := 0; lpfn := 0;
               flags := Z.lor TTM_PL_MASK_CACHING TTM_PL_FLAG_SYSTEM |} /\
     pin_count (gbo s') = pin_count (gbo s) /\
     kmap_use_count (gbo s') = kmap_use_count (gbo s) /\
     kmap (gbo s') = kmap (gbo s) /\
     bo_mem_type (gbo s') = bo_mem_type (gbo s) /\
     dmesg s' = dmesg s).
Proof.
  cbv zeta. split.
  - intros ->. destruct s. reflexivity.
  - intros ->. unfold bo_driver_evict_flags, drm_is_gem_vram. cbn [negb].
    rewrite evict_flags_gbo.
    destruct (placement_shape TTM_PL_FLAG_SYSTEM (gbo s) Hlen)
      as (_ & _ & Hn & Hnth & _).
    cbv zeta in Hn, Hnth.
    assert (Hv : truthy (Z.land TTM_PL_FLAG_SYSTEM TTM_PL_FLAG_VRAM) = false)
      by (rewrite Hdisj; reflexivity).
    rewrite Hv in Hn, Hnth. cbn [andb] in Hn, Hnth.
    split; [exact Hn |]. split; [apply Hnth; lia |].
    simp_gbo. repeat split; reflexivity.
Qed.

(** X3: [drm_gem_vram_create] never returns [NULL].  It returns
    [ERR_PTR(-ENOMEM)] when the allocation fails and the error of the first
    initialiser that fails otherwise, each time without an object.  On
    success it returns the allocated address, and the object is unpinned,
    unmapped, and lists the fast tier and then the general tier, in the
    memory [ttm_bo_init] left it in. *)
Theorem create_result (co : create_outcome) (size pg_align : Z) (interruptible : bool)
    (Henomem : 0 < ENOMEM)
    (Hvram : TTM_PL_FLAG_VRAM <> 0) (Hsys : TTM_PL_FLAG_SYSTEM <> 0) :
  let r := drm_gem_vram_create co size pg_align interruptible in
  fst r <> NULL /\
  (kzalloc co = NULL -> r = (ERR_PTR (- ENOMEM), None)) /\
  (kzalloc co <> NULL -> gem_object_init_ret co < 0 ->
     r = (ERR_PTR (gem_object_init_ret co), None)) /\
  (kzalloc co <> NULL -> gem_object_init_ret co = 0 -> ttm_bo_init_ret co < 0 ->
     r = (ERR_PTR (ttm_bo_init_ret co), None)) /\
  (kzalloc co <> NULL -> gem_object_init_ret co = 0 -> ttm_bo_init_ret co = 0 ->
     exists s0, r = (kzalloc co, Some s0) /\
       pin_count (gbo s0) = 0 /\ kmap_use_count (gbo s0) = 0 /\
       virtual (kmap (gbo s0)) = NULL /\
       num_placement (gbo s0) = 2%nat /\
       placements (gbo s0) =
         [ {| fpfn := 0; lpfn := 0;
              flags := Z.lor TTM_PL_FLAG_WC
                         (Z.lor TTM_PL_FLAG_UNCACHED TTM_PL_FLAG_VRAM) |};
           {| fpfn := 0; lpfn := 0;
              flags := Z.lor TTM_PL_MASK_CACHING TTM_PL_FLAG_SYSTEM |} ] /\
       bo_mem_type (gbo s0) = fst (ttm_bo_init_mem co) /\
       bo_offset (gbo s0) = snd (ttm_bo_init_mem co) /\
       dmesg s0 = [Call drm_gem_object_init_call; Call ttm_bo_init_call]).
Proof.
  cbv zeta. unfold drm_gem_vram_create. cbv zeta.
  destruct (truthy (kzalloc co)) eqn:Ek; cbn [negb].
  - apply truthy_true in Ek.
    unfold drm_gem_vram_init. unf_m.
    destruct (truthy (gem_object_init_ret co)) eqn:Eg;
      cbn [fst snd gbo dmesg negb andb orb].
    + apply truthy_true in Eg.
      destruct (gem_object_init_ret co <? 0) eqn:El; tests;
        unfold ERR_PTR, NULL in *; cbn [fst]; repeat split; try lia; try congruence.
    + apply truthy_false in Eg.
      destruct (truthy (ttm_bo_init_ret co)) eqn:Et;
        cbn [fst snd gbo dmesg negb andb orb].
      * apply truthy_true in Et.
        destruct (ttm_bo_init_ret co <? 0) eqn:El; tests;
          unfold ERR_PTR, NULL in *; cbn [fst]; repeat split; try lia; try congruence.
      * apply truthy_false in Et. cbn [Z.ltb Z.compare fst].
        unfold NULL in *. repeat split; try lia; try congruence.
        intros _ _ _. eexists. split; [reflexivity |].
        simp_gbo. unfold drm_gem_vram_placement.
        rewrite land_lor_l, land_lor_r.
        apply truthy_true in Hvram. apply truthy_true in Hsys.
        rewrite Hvram, Hsys. cbn. repeat split; reflexivity.
  - apply truthy_false in Ek. unfold ERR_PTR, NULL in *. cbn [fst].
    repeat split; try lia; try congruence.
Qed.

(** ** Pins and the placement list *)

Lemma move_notify_frame (s : kstate) :
  let s' := snd (drm_gem_vram_bo_driver_move_notify s) in
  num_placement (gbo s') = num_placement (gbo s) /\
  placements (gbo s') = placements (gbo s) /\
  bo_offset (gbo s') = bo_offset (gbo s).
Proof.
  unfold drm_gem_vram_bo_driver_move_notify. unf_m.
  destruct (truthy (kmap_use_count (gbo s))); cbn [fst snd gbo dmesg negb andb orb].
  - destruct (negb (warned WARN_move_notify_use_count (dmesg s))); cbn; auto.
  - destruct (negb (truthy (virtual (kmap (gbo s))))); cbn; auto.
Qed.

Lemma validate_frame (o : ttm_validate_outcome) (s : kstate) :
  let r := ttm_bo_validate o s in
  num_placement (gbo (snd r)) = num_placement (gbo s) /\
  placements (gbo (snd r)) = placements (gbo s) /\
  bo_offset (gbo (snd r)) =
    match v_move o with Some (_, off) => off | None => bo_offset (gbo s) end /\
  exists rest, dmesg (snd r) = dmesg s ++ Call ttm_bo_validate_call :: rest.
Proof.
  unfold ttm_bo_validate. unf_m.
  destruct (v_move o) as [[ty off]|]; cbn [fst snd gbo dmesg negb andb orb].
  - match goal with |- context [drm_gem_vram_bo_driver_move_notify ?t] =>
      pose proof (move_notify_frame t) as H; cbv zeta in H; cbn [gbo] in H;
      assert (Hd : exists rest,
                 dmesg (snd (drm_gem_vram_bo_driver_move_notify t)) = dmesg t ++ rest)
    end.
    { unfold drm_gem_vram_bo_driver_move_notify. unf_m.
      destruct (truthy (kmap_use_count (gbo s)));
        cbn [fst snd gbo dmesg negb andb orb].
      - destruct (negb (warned _ _)); cbn; eexists;
          [reflexivity | symmetry; apply app_nil_r].
      - destruct (negb (truthy (virtual (kmap (gbo s))))); cbn; eexists;
          [symmetry; apply app_nil_r | reflexivity]. }
    destruct H as (Hn & Hp & _). destruct Hd as (rest & Hd).
    fields. repeat split; auto.
    exists rest. rewrite Hd. cbn [dmesg]. rewrite <- app_assoc. reflexivity.
  - repeat split; auto. exists []. reflexivity.
Qed.

(** What a pin of an unpinned object computes, step by step. *)
Lemma pin_locked_unpinned (o : ttm_validate_outcome) (pl_flag : Z) (s : kstate) :
  pin_count (gbo s) = 0 ->
  let g1 := if truthy pl_flag then drm_gem_vram_placement pl_flag (gbo s) else gbo s in
  let g2 := set_placements
              (for_placements (num_placement g1) or_no_evict (placements g1)) g1 in
  let v := ttm_bo_validate o {| gbo := g2; dmesg := dmesg s |} in
  drm_gem_vram_pin_locked o pl_flag s =
    if fst v <? 0 then (fst v, snd v)
    else (0, {| gbo := incr_pin_count (gbo (snd v)); dmesg := dmesg (snd v) |}).
Proof.
  intros H. cbv zeta. unfold drm_gem_vram_pin_locked. unf_m.
  rewrite (proj2 (truthy_false _) H).
  destruct (truthy pl_flag); cbn [fst snd gbo dmesg negb andb orb];
    match goal with |- context [fst ?v <? 0] =>
      destruct (fst v <? 0); [destruct v |]; reflexivity
    end.
Qed.

(** What the unpin that drops the last pin computes. *)
Lemma unpin_locked_last (o : ttm_validate_outcome) (s : kstate) :
  pin_count (gbo s) = 1 ->
  let g1 := set_pin_count 0 (gbo s) in
  let g2 := set_placements
              (for_placements (num_placement g1) and_not_no_evict (placements g1)) g1 in
  let v := ttm_bo_validate o {| gbo := g2; dmesg := dmesg s |} in
  drm_gem_vram_unpin_locked o s =
    (if fst v <? 0 then fst v else 0, snd v).
Proof.
  intros H. cbv zeta. unfold drm_gem_vram_unpin_locked. unf_m.
  rewrite (proj2 (truthy_true (pin_count (gbo s))) ltac:(lia)).
  cbn [fst snd gbo dmesg negb andb orb]. fields.
  replace (pin_count (gbo s) - 1) with 0 by lia.
  cbn [truthy Z.eqb fst snd gbo dmesg negb andb orb]. fields.
  match goal with |- context [fst ?v <? 0] => destruct (fst v <? 0) end;
    reflexivity.
Qed.

Lemma land_lor_lnot (f n : Z) :
  Z.land (Z.lor f n) (Z.lnot n) = Z.land f (Z.lnot n).
Proof.
  apply Z.bits_inj'. intros k Hk.
  rewrite !Z.land_spec, Z.lor_spec, Z.lnot_spec by lia.
  destruct (Z.testbit f k), (Z.testbit n k); reflexivity.
Qed.

Lemma land_lnot_same (f n : Z) : Z.land (Z.land f (Z.lnot n)) n = 0.
Proof.
  apply Z.bits_inj'. intros k Hk.
  rewrite !Z.land_spec, Z.lnot_spec, Z.bits_0 by lia.
  destruct (Z.testbit f k), (Z.testbit n k); reflexivity.
Qed.

Lemma land_lnot_idem (f n : Z) :
  Z.land (Z.land f (Z.lnot n)) (Z.lnot n) = Z.land f (Z.lnot n).
Proof. rewrite <- Z.land_assoc, Z.land_diag. reflexivity. Qed.



(** X4: after a pin of an unpinned buffer every listed placement carries
    [TTM_PL_FLAG_NO_EVICT], whatever the validation answered, so also when
    the pin returns an error.  With no placement hint the list itself is
    kept: the same number of placements, the same page ranges, and the same
    flags apart from the mark. *)
Theorem pin_marks_no_evict (s : kstate) (o : ttm_validate_outcome) (pl_flag : Z)
    (Hunpinned : pin_count (gbo s) = 0) :
  let g' := gbo (snd (drm_gem_vram_pin_locked o pl_flag s)) in
  (forall (i : nat) (p' : ttm_place),
     (i < num_placement g')%nat ->
     nth_error (placements g') i = Some p' ->
     Z.land (flags p') TTM_PL_FLAG_NO_EVICT = TTM_PL_FLAG_NO_EVICT) /\
  (pl_flag = 0 ->
     num_placement g' = num_placement (gbo s) /\
     length (placements g') = length (placements (gbo s)) /\
     forall (i : nat) (p : ttm_place),
       nth_error (placements (gbo s)) i = Some p ->
       exists p', nth_error (placements g') i = Some p' /\
         fpfn p' = fpfn p /\ lpfn p' = lpfn p /\
         Z.land (flags p') (Z.lnot TTM_PL_FLAG_NO_EVICT)
           = Z.land (flags p) (Z.lnot TTM_PL_FLAG_NO_EVICT)).
Proof.
  cbv zeta. rewrite (pin_locked_unpinned o pl_flag s Hunpinned). cbv zeta.
  match goal with |- context [ttm_bo_validate o ?t] =>
    destruct (validate_frame o t) as (Hn & Hp & _); cbv zeta in Hn, Hp;
    set (v := ttm_bo_validate o t) in *; clearbody v
  end.
  fields.
  assert (Hs : num_placement (gbo (snd (if fst v <? 0 then (fst v, snd v)
                 else (0, {| gbo := incr_pin_count (gbo (snd v));
                             dmesg := dmesg (snd v) |})))) = num_placement (gbo (snd v)) /\
               placements (gbo (snd (if fst v <? 0 then (fst v, snd v)
                 else (0, {| gbo := incr_pin_count (gbo (snd v));
                             dmesg := dmesg (snd v) |})))) = placements (gbo (snd v)))
    by (destruct (fst v <? 0); cbn; auto).
  destruct Hs as (Hs1 & Hs2). rewrite Hs1, Hs2, Hn, Hp. clear Hs1 Hs2.
  split.
  - intros i p' Hi Hnth.
    rewrite nth_error_for_placements in Hnth.
    replace (Nat.ltb i _) with true in Hnth by (symmetry; apply Nat.ltb_lt; exact Hi).
    destruct (nth_error _ i) as [p |]; [| discriminate].
    injection Hnth as <-. cbn. apply land_lor_r.
  - intros ->. cbn [truthy Z.eqb negb]. rewrite length_for_placements.
    repeat split.
    intros i p Hnth. rewrite nth_error_for_placements, Hnth.
    destruct (Nat.ltb i _); cbn; eexists; (split; [reflexivity |]); cbn; auto.
    repeat split. apply land_lor_lnot.
Qed.

(** X5: the unpin that drops the last pin takes the [NO_EVICT] mark off every
    listed placement and changes nothing else in the list: same number of
    placements, same page ranges, same other flag bits. *)
Theorem unpin_clears_no_evict (s : kstate) (o : ttm_validate_outcome)
    (Hlast : pin_count (gbo s) = 1) :
  let g' := gbo (snd (drm_gem_vram_unpin_locked o s)) in
  num_placement g' = num_placement (gbo s) /\
  length (placements g') = length (placements (gbo s)) /\
  forall (i : nat) (p : ttm_place),
    nth_error (placements (gbo s)) i = Some p ->
    exists p', nth_error (placements g') i = Some p' /\
      fpfn p' = fpfn p /\ lpfn p' = lpfn p /\
      Z.land (flags p') (Z.lnot TTM_PL_FLAG_NO_EVICT)
        = Z.land (flags p) (Z.lnot TTM_PL_FLAG_NO_EVICT) /\
      ((i < num_placement (gbo s))%nat ->
       Z.land (flags p') TTM_PL_FLAG_NO_EVICT = 0).
Proof.
  cbv zeta. rewrite (unpin_locked_last o s Hlast). cbv zeta. cbn [snd].
  match goal with |- context [ttm_bo_validate o ?t] =>
    destruct (validate_frame o t) as (Hn & Hp & _); cbv zeta in Hn, Hp
  end.
  fields. rewrite Hn, Hp, length_for_placements. repeat split.
  intros i p Hnth. rewrite nth_error_for_placements, Hnth.
  destruct (Nat.ltb_spec i (num_placement (gbo s))); cbn; eexists;
    (split; [reflexivity |]); cbn; repeat split; auto; try lia.
  - apply land_lnot_idem.
  - intros _. apply land_lnot_same.
Qed.

(** ** Nested pins *)

Lemma pin_locked_pinned (o : ttm_validate_outcome) (pl_flag : Z) (s : kstate) :
  pin_count (gbo s) <> 0 ->
  drm_gem_vram_pin_locked o pl_flag s =
    (0, {| gbo := set_pin_count (pin_count (gbo s) + 1) (gbo s); dmesg := dmesg s |}).
Proof.
  intros H. apply truthy_true in H.
  unfold drm_gem_vram_pin_locked. unf_m. rewrite H. reflexivity.
Qed.

Lemma unpin_locked_nested (o : ttm_validate_outcome) (s : kstate) :
  pin_count (gbo s) <> 0 -> pin_count (gbo s) <> 1 ->
  drm_gem_vram_unpin_locked o s =
    (0, {| gbo := set_pin_count (pin_count (gbo s) - 1) (gbo s); dmesg := dmesg s |}).
Proof.
  intros H0 H1. unfold drm_gem_vram_unpin_locked. unf_m.
  rewrite (proj2 (truthy_true (pin_count (gbo s))) H0).
  cbn [fst snd gbo dmesg negb andb orb]. fields.
  rewrite (proj2 (truthy_true (pin_count (gbo s) - 1)) ltac:(lia)).
  destruct s. reflexivity.
Qed.

(** X6: an unpin that leaves pins behind ([pin_count > 1]) returns 0 and only
    decrements: no validation, nothing logged, nothing else changed.  The
    unpin that drops the last pin calls [ttm_bo_validate]; [pin_count] is 0
    afterwards whatever the validation answers, and a negative answer is
    what the unpin returns. *)
Theorem unpin_nested_and_last (s : kstate) (o : ttm_validate_outcome) :
  (pin_count (gbo s) > 1 ->
     drm_gem_vram_unpin_locked o s =
       (0, {| gbo := set_pin_count (pin_count (gbo s) - 1) (gbo s);
              dmesg := dmesg s |})) /\
  (pin_count (gbo s) = 1 ->
     fst (drm_gem_vram_unpin_locked o s) = (if v_ret o <? 0 then v_ret o else 0) /\
     pin_count (gbo (snd (drm_gem_vram_unpin_locked o s))) = 0 /\
     kmap_use_count (gbo (snd (drm_gem_vram_unpin_locked o s)))
       = kmap_use_count (gbo s) /\
     exists rest,
       dmesg (snd (drm_gem_vram_unpin_locked o s))
         = dmesg s ++ Call ttm_bo_validate_call :: rest).
Proof.
  split.
  - intros H. apply unpin_locked_nested; lia.
  - intros H. rewrite (unpin_locked_last o s H). cbv zeta. cbn [fst snd].
    match goal with |- context [ttm_bo_validate o ?t] =>
      destruct (validate_frame o t) as (_ & _ & _ & Hlog);
      destruct (validate_effect o t) as (Hr & Hp & Hu & _);
      cbv zeta in Hlog, Hr, Hp, Hu
    end.
    rewrite Hr, Hp, Hu. fields. repeat split. exact Hlog.
Qed.

(** [n] pins under the lock, with the given hints and validation answers. *)
Lemma pins_on_pinned (l : list (ttm_validate_outcome * Z)) (s : kstate) :
  pin_count (gbo s) > 0 ->
  fold_left (fun t x => snd (drm_gem_vram_pin_locked (fst x) (snd x) t)) l s =
    {| gbo := set_pin_count (pin_count (gbo s) + Z.of_nat (length l)) (gbo s);
       dmesg := dmesg s |}.
Proof.
  revert s. induction l as [| x l IH]; intros s H.
  - cbn. rewrite Z.add_0_r. destruct s as [[] ?]. reflexivity.
  - cbn [fold_left]. rewrite pin_locked_pinned by lia. cbn [snd].
    rewrite IH by (cbn; lia). cbn [length]. fields. f_equal.
    unfold set_pin_count. cbn. f_equal. lia.
Qed.

Lemma unpins_on_nested (l : list ttm_validate_outcome) (s : kstate) :
  pin_count (gbo s) > Z.of_nat (length l) ->
  fold_left (fun t o => snd (drm_gem_vram_unpin_locked o t)) l s =
    {| gbo := set_pin_count (pin_count (gbo s) - Z.of_nat (length l)) (gbo s);
       dmesg := dmesg s |}.
Proof.
  revert s. induction l as [| x l IH]; intros s H.
  - cbn. rewrite Z.sub_0_r. destruct s as [[] ?]. reflexivity.
  - cbn [fold_left]. cbn [length] in H.
    rewrite unpin_locked_nested by lia. cbn [snd].
    rewrite IH by (cbn; lia). cbn [length]. fields. f_equal.
    unfold set_pin_count. cbn. f_equal. lia.
Qed.

(** X7: on a buffer that is already pinned, any number of further pins
    followed by as many unpins gives back exactly the state before, the log
    included: nested pins never validate, never move the buffer and never
    touch its placements, whatever hints they carry. *)
Theorem nested_pins_are_neutral
    (pins : list (ttm_validate_outcome * Z)) (unpins : list ttm_validate_outcome)
    (s : kstate)
    (Hpinned : pin_count (gbo s) > 0)
    (Hsame : length unpins = length pins) :
  fold_left (fun t o => snd (drm_gem_vram_unpin_locked o t)) unpins
    (fold_left (fun t x => snd (drm_gem_vram_pin_locked (fst x) (snd x) t)) pins s)
  = s.
Proof.
  rewrite pins_on_pinned by exact Hpinned.
  rewrite unpins_on_nested by (cbn; lia).
  fields. rewrite Hsame. destruct s as [[] ?]. cbn. f_equal.
  unfold set_pin_count. cbn. f_equal. lia.
Qed.

Lemma s64_small (x : Z) : - 2 ^ 63 <= x < 2 ^ 63 -> s64 x = x.
Proof.
  intro H. unfold s64. rewrite Z.mod_small by lia. lia.
Qed.

(** X8: after a pin that succeeds, [drm_gem_vram_offset] returns the
    buffer's offset, converted to [s64], and changes nothing, warning
    included; for an offset from 0 to below [2^63] that is the offset itself
    and not negative, so it cannot be taken for an error.  When the pin's
    validation moved the buffer, the offset is that of the new place.  On an
    unpinned buffer the function returns [-ENODEV], which is negative, and
    does not change the object.  ([ENODEV] is a positive errno.) *)
Theorem offset_after_pin (s : kstate) (o : ttm_validate_outcome) (pl_flag : Z)
    (Hcount : 0 <= pin_count (gbo s))
    (Henodev : 0 < ENODEV <= MAX_ERRNO) :
  let p := drm_gem_vram_pin_locked o pl_flag s in
  (fst p = 0 ->
     drm_gem_vram_offset (snd p) = (s64 (bo_offset (gbo (snd p))), snd p) /\
     (0 <= bo_offset (gbo (snd p)) < 2 ^ 63 ->
        fst (drm_gem_vram_offset (snd p)) = bo_offset (gbo (snd p)) /\
        0 <= fst (drm_gem_vram_offset (snd p))) /\
     (pin_count (gbo s) = 0 ->
        bo_offset (gbo (snd p)) =
          match v_move o with Some (_, off) => off | None => bo_offset (gbo s) end)) /\
  (pin_count (gbo s) = 0 ->
     fst (drm_gem_vram_offset s) = - ENODEV /\
     fst (drm_gem_vram_offset s) < 0 /\
     gbo (snd (drm_gem_vram_offset s)) = gbo s).
Proof.
  cbv zeta. split.
  - intros Hok.
    assert (Hpc : pin_count (gbo (snd (drm_gem_vram_pin_locked o pl_flag s))) <> 0).
    { destruct (pin_locked_effect o pl_flag s) as (_ & [(_ & H) | (Hr & Hlt & _)] & _);
        cbv zeta in *; [lia | rewrite Hok in Hr; lia]. }
    assert (Hret : drm_gem_vram_offset (snd (drm_gem_vram_pin_locked o pl_flag s))
                   = (s64 (bo_offset (gbo (snd (drm_gem_vram_pin_locked o pl_flag s)))),
                      snd (drm_gem_vram_pin_locked o pl_flag s))).
    { unfold drm_gem_vram_offset. unf_m.
      apply truthy_true in Hpc. rewrite Hpc.
      cbn [fst snd gbo dmesg negb andb orb].
      destruct (snd (drm_gem_vram_pin_locked o pl_flag s)). reflexivity. }
    split; [exact Hret |]. split.
    + intros Hrange. rewrite Hret. cbn [fst].
      rewrite s64_small by lia. lia.
    + intros H0. revert Hok. rewrite (pin_locked_unpinned o pl_flag s H0). cbv zeta.
      match goal with |- context [ttm_bo_validate o ?t] =>
        destruct (validate_frame o t) as (_ & _ & Hoff & _); cbv zeta in Hoff;
        set (v := ttm_bo_validate o t) in *; clearbody v
      end.
      destruct (fst v <? 0) eqn:E; cbn [fst snd gbo]; fields.
      * apply Z.ltb_lt in E. lia.
      * intros _. rewrite Hoff. simp_gbo.
        destruct (v_move o) as [[ty off] |]; [reflexivity |].
        destruct (truthy pl_flag); [apply placement_frame | reflexivity].
  - intros H0. rewrite offset_gbo.
    assert (Herr : fst (drm_gem_vram_offset s) = - ENODEV).
    { unfold drm_gem_vram_offset. unf_m. rewrite H0.
      change (s64 (- ENODEV) = - ENODEV).
      apply s64_small. unfold MAX_ERRNO in Henodev. lia. }
    split; [exact Herr |]. split; [lia | reflexivity].
Qed.

(** ** References on the mapping *)

Lemma kmap_fst (reserve : Z) (o : ttm_kmap_outcome) (map : bool)
    (is_iomem : option bool) (s : kstate) :
  fst (drm_gem_vram_kmap reserve o map is_iomem s) =
    if truthy reserve then (ERR_PTR reserve, is_iomem)
    else fst (drm_gem_vram_kmap_locked o map is_iomem (snd (ttm_bo_reserve reserve s))).
Proof.
  unfold drm_gem_vram_kmap. unf_m. destruct (truthy reserve); reflexivity.
Qed.

(** The log of a map under the lock: one call to [ttm_bo_kmap], and only
    when a mapping is asked for and there is neither a reference nor a
    mapping. *)
Lemma kmap_locked_dmesg (o : ttm_kmap_outcome) (map : bool)
    (is_iomem : option bool) (s : kstate) :
  dmesg (snd (drm_gem_vram_kmap_locked o map is_iomem s)) =
    dmesg s ++
    (if map && (kmap_use_count (gbo s) <=? 0) && (virtual (kmap (gbo s)) =? NULL)
     then [Call ttm_bo_kmap_call] else []).
Proof.
  unfold drm_gem_vram_kmap_locked, drm_gem_vram_kmap_locked_out,
    ttm_kmap_obj_virtual, ttm_bo_kmap, truthy.
  unf_m. unfold NULL.
  rewrite Z.gtb_ltb, Z.ltb_antisym.
  destruct (kmap_use_count (gbo s) <=? 0); cbn [fst snd gbo dmesg negb andb orb];
  [ destruct (virtual (kmap (gbo s)) =? 0) eqn:E1;
      cbn [fst snd gbo dmesg negb andb orb];
      [ destruct map; cbn [fst snd gbo dmesg negb andb orb];
        [ destruct (k_ret o =? 0); cbn [fst snd gbo dmesg negb andb orb]; fields | ] | ]
  | ];
  rewrite ?andb_false_r;
  repeat match goal with
  | |- context [if negb (?a =? 0) then _ else _] =>
      destruct (a =? 0); cbn [fst snd gbo dmesg negb andb orb]
  | |- context [if negb (negb (?a =? 0)) then _ else _] =>
      destruct (a =? 0); cbn [fst snd gbo dmesg negb andb orb]
  end;
  destruct is_iomem; cbn [fst snd gbo dmesg]; rewrite ?app_nil_r; reflexivity.
Qed.

(** X9: the mapping is kept across an unmap and used again.  On a buffer
    without mapping, once a map has established one, the unmap brings the
    count back to 0 and any later map, whether it asks for a mapping or only
    queries, returns the same address and I/O-memory flag without calling
    [ttm_bo_kmap] again. *)
Theorem kmap_reuses_mapping
    (s : kstate) (o1 o2 : ttm_kmap_outcome) (i1 i2 : option bool) (map2 : bool)
    (Hcount : kmap_use_count (gbo s) = 0)
    (Hnone : virtual (kmap (gbo s)) = NULL)
    (Hok : k_ret o1 = 0)
    (Haddr : virtual (k_obj o1) <> NULL) :
  let r1 := drm_gem_vram_kmap_locked o1 true i1 s in
  let t := snd (drm_gem_vram_kunmap_locked (snd r1)) in
  let r2 := drm_gem_vram_kmap_locked o2 map2 i2 t in
  fst (fst r1) = virtual (k_obj o1) /\
  dmesg (snd r1) = dmesg s ++ [Call ttm_bo_kmap_call] /\
  kmap_use_count (gbo t) = 0 /\
  kmap (gbo t) = k_obj o1 /\
  fst (fst r2) = virtual (k_obj o1) /\
  snd (fst r2) = match i2 with
                 | Some _ => Some (is_io_memory (k_obj o1))
                 | None => None
                 end /\
  kmap_use_count (gbo (snd r2)) = 1 /\
  dmesg (snd r2) = dmesg t.
Proof.
  cbv zeta.
  pose proof (kmap_locked_dmesg o1 true i1 s) as Hlog1.
  rewrite Hcount, Hnone in Hlog1. cbn in Hlog1.
  assert (H1 : fst (fst (drm_gem_vram_kmap_locked o1 true i1 s)) = virtual (k_obj o1) /\
               gbo (snd (drm_gem_vram_kmap_locked o1 true i1 s))
                 = set_kmap_use_count 1 (set_kmap (k_obj o1) (gbo s))).
  { unfold drm_gem_vram_kmap_locked, drm_gem_vram_kmap_locked_out,
      ttm_kmap_obj_virtual, ttm_bo_kmap. unf_m.
    rewrite Hcount, Hnone, Hok. cbn [Z.gtb Z.compare truthy Z.eqb NULL fst snd gbo dmesg negb andb orb].
    fields. apply truthy_true in Haddr. rewrite Haddr.
    cbn [fst snd gbo dmesg negb andb orb]. fields. rewrite Hcount.
    destruct i1; cbn; auto. }
  destruct H1 as (Hp1 & Hg1).
  assert (Ht : gbo (snd (drm_gem_vram_kunmap_locked
                           (snd (drm_gem_vram_kmap_locked o1 true i1 s))))
               = set_kmap_use_count 0 (set_kmap (k_obj o1) (gbo s))).
  { rewrite kunmap_locked_effect, Hg1. reflexivity. }
  set (t := snd (drm_gem_vram_kunmap_locked
                   (snd (drm_gem_vram_kmap_locked o1 true i1 s)))) in *.
  assert (Hv : virtual (kmap (gbo t)) <> NULL) by (rewrite Ht; exact Haddr).
  pose proof (kmap_locked_dmesg o2 map2 i2 t) as Hlog2.
  replace (virtual (kmap (gbo t)) =? NULL) with false in Hlog2
    by (symmetry; apply Z.eqb_neq; exact Hv).
  rewrite andb_false_r, app_nil_r in Hlog2.
  destruct (kmap_locked_effect o2 map2 i2 t) as (_ & _ & Hreuse & _).
  cbv zeta in Hreuse. destruct (Hreuse Hv) as (Hp2 & Hg2 & _).
  repeat split; auto.
  - rewrite Ht. reflexivity.
  - rewrite Ht. reflexivity.
  - rewrite Hp2, Ht. reflexivity.
  - clearbody t.
    unfold drm_gem_vram_kmap_locked, drm_gem_vram_kmap_locked_out,
      ttm_kmap_obj_virtual. unf_m.
    apply truthy_true in Haddr.
    repeat (progress (rewrite ?Ht, ?Haddr;
                      cbn [Z.gtb Z.compare fst snd gbo dmesg negb andb orb]; fields)).
    destruct i2; reflexivity.
  - rewrite Hg2, Ht. reflexivity.
Qed.

Lemma kmap_dmesg (reserve : Z) (o : ttm_kmap_outcome) (map : bool)
    (is_iomem : option bool) (s : kstate) :
  dmesg (snd (drm_gem_vram_kmap reserve o map is_iomem s)) =
    if truthy reserve then dmesg s ++ [Call ttm_bo_reserve_call]
    else dmesg (snd (drm_gem_vram_kmap_locked o map is_iomem
                       (snd (ttm_bo_reserve reserve s))))
         ++ [Call ttm_bo_unreserve_call].
Proof.
  unfold drm_gem_vram_kmap. unf_m. destruct (truthy reserve); reflexivity.
Qed.

(** X10: the exported map takes a reference exactly when it returns an
    address.  Either it returns the stored address, not [NULL], and the
    count has grown by one; or it returns [NULL] and the count is as before;
    or it returns the error of the mapping service or of the reservation and
    the count is as before.  It never touches [pin_count].  It calls
    [ttm_bo_kmap] only after a successful reservation, when a mapping is
    asked for and there is neither a reference nor a mapping, and it drops
    the reservation on every path that took it. *)
Theorem kmap_reference_iff_mapped
    (reserve : Z) (o : ttm_kmap_outcome) (map : bool) (is_iomem : option bool)
    (s : kstate) :
  let r := drm_gem_vram_kmap reserve o map is_iomem s in
  let p := fst (fst r) in
  pin_count (gbo (snd r)) = pin_count (gbo s) /\
  ((p = virtual (kmap (gbo (snd r))) /\ p <> NULL /\
    kmap_use_count (gbo (snd r)) = kmap_use_count (gbo s) + 1) \/
   (p = NULL /\ virtual (kmap (gbo (snd r))) = NULL /\
    kmap_use_count (gbo (snd r)) = kmap_use_count (gbo s)) \/
   (p = ERR_PTR (k_ret o) /\ k_ret o <> 0 /\
    kmap_use_count (gbo (snd r)) = kmap_use_count (gbo s)) \/
   (p = ERR_PTR reserve /\ reserve <> 0 /\ gbo (snd r) = gbo s)) /\
  dmesg (snd r) =
    dmesg s ++ [Call ttm_bo_reserve_call] ++
    (if truthy reserve then []
     else (if map && (kmap_use_count (gbo s) <=? 0) && (virtual (kmap (gbo s)) =? NULL)
           then [Call ttm_bo_kmap_call] else [])
          ++ [Call ttm_bo_unreserve_call]).
Proof.
  cbv zeta. rewrite kmap_gbo, kmap_fst, kmap_dmesg.
  destruct (truthy reserve) eqn:Er; tests.
  - cbn [fst]. rewrite app_nil_r. repeat split; auto.
    right. right. right. auto.
  - rewrite kmap_locked_dmesg. cbn [ttm_bo_reserve]. unf_m.
    rewrite <- !app_assoc. split; [| split; [| reflexivity]].
    + match goal with |- context [drm_gem_vram_kmap_locked o map is_iomem ?t] =>
        exact (proj1 (kmap_locked_effect o map is_iomem t))
      end.
    + match goal with |- context [drm_gem_vram_kmap_locked o map is_iomem ?t] =>
        destruct (kmap_locked_effect o map is_iomem t) as (_ & _ & _ & H);
        cbv zeta in H; cbn [gbo] in H
      end.
      destruct H as [(H1 & H2 & H3) | [(H1 & H2 & H3 & _) | (H1 & H2 & H3 & _)]].
      * left. rewrite H1. auto.
      * right. left. auto.
      * right. right. left. auto.
Qed.

Lemma kunmap_locked_at_zero (s : kstate) :
  kmap_use_count (gbo s) = 0 ->
  gbo (snd (drm_gem_vram_kunmap_locked s)) = gbo s /\
  warned WARN_kunmap_use_count (dmesg (snd (drm_gem_vram_kunmap_locked s))) = true.
Proof.
  intros H. unfold drm_gem_vram_kunmap_locked. unf_m.
  rewrite H. cbn [truthy Z.eqb fst snd gbo dmesg negb andb orb].
  destruct (warned WARN_kunmap_use_count (dmesg s)) eqn:W;
    cbn [fst snd gbo dmesg negb andb orb].
  - auto.
  - split; [reflexivity |].
    unfold warned. rewrite existsb_app, orb_true_iff. right. reflexivity.
Qed.

(** X11: along every history of a buffer [kmap_use_count] is never negative:
    from a state where it is not negative, and so from a freshly created
    object, it is not negative after any number of steps.  An unmap at
    [kmap_use_count = 0] is refused: the object stays exactly as it was and
    the warning of that site is on the log afterwards. *)
Theorem kmap_use_count_never_negative :
  (forall (ops : list op) (s : kstate),
     0 <= kmap_use_count (gbo s) ->
     forall n : nat, 0 <= kmap_use_count (gbo (run (firstn n ops) s))) /\
  (forall co size pg_align interruptible p s0 (ops : list op),
     drm_gem_vram_create co size pg_align interruptible = (p, Some s0) ->
     forall n : nat, 0 <= kmap_use_count (gbo (run (firstn n ops) s0))) /\
  (forall s : kstate,
     kmap_use_count (gbo s) = 0 ->
     gbo (snd (drm_gem_vram_kunmap_locked s)) = gbo s /\
     warned WARN_kunmap_use_count (dmesg (snd (drm_gem_vram_kunmap_locked s))) = true /\
     gbo (snd (drm_gem_vram_kunmap 0 s)) = gbo s).
Proof.
  split; [| split].
  - intros ops s H n. apply run_use_count_nonneg. exact H.
  - intros co size pg_align interruptible p s0 ops Hc n.
    apply run_use_count_nonneg.
    destruct (create_fresh _ _ _ _ Hc) as (_ & -> & _). lia.
  - intros s H. destruct (kunmap_locked_at_zero s H) as (Hg & Hw).
    repeat split; auto.
    rewrite kunmap_gbo. cbn [truthy Z.eqb negb].
    match goal with |- gbo (snd (drm_gem_vram_kunmap_locked ?t)) = _ =>
      destruct (kunmap_locked_at_zero t) as (Hg' & _);
        [rewrite warn_once_gbo; exact H | rewrite Hg', warn_once_gbo; reflexivity]
    end.
Qed.

Lemma kmap_locked_error (o : ttm_kmap_outcome) (map : bool)
    (is_iomem : option bool) (t : kstate) :
  IS_ERR (virtual (kmap (gbo t))) = false ->
  IS_ERR (virtual (k_obj o)) = false ->
  IS_ERR (fst (fst (drm_gem_vram_kmap_locked o map is_iomem t))) = true ->
  kmap_use_count (gbo (snd (drm_gem_vram_kmap_locked o map is_iomem t)))
    = kmap_use_count (gbo t) /\
  pin_count (gbo (snd (drm_gem_vram_kmap_locked o map is_iomem t)))
    = pin_count (gbo t).
Proof.
  intros Ht Ho.
  assert (HN : IS_ERR NULL = false) by reflexivity.
  unfold drm_gem_vram_kmap_locked, drm_gem_vram_kmap_locked_out,
    ttm_kmap_obj_virtual, ttm_bo_kmap.
  unf_m.
  destruct (kmap_use_count (gbo t) >? 0); cbn [fst snd gbo dmesg negb andb orb];
  [ | destruct (truthy (virtual (kmap (gbo t)))); cbn [fst snd gbo dmesg negb andb orb];
      [ | destruct map; cbn [fst snd gbo dmesg negb andb orb];
          [ destruct (truthy (k_ret o)); cbn [fst snd gbo dmesg negb andb orb]; fields | ] ] ];
  repeat match goal with
  | |- context [if negb (truthy ?v) then _ else _] =>
      destruct (truthy v); cbn [fst snd gbo dmesg negb andb orb]
  end;
  destruct is_iomem; cbn [fst snd gbo dmesg]; fields;
  intros E; try congruence; auto.
Qed.

(** X12: a [vmap] that fails changes neither counter.  On a buffer in a
    consistent state, with services that answer 0 or a negative errno and
    addresses that are not error pointers, whenever [vmap] returns an error
    pointer [pin_count] and [kmap_use_count] are what they were before. *)
Theorem vmap_failure_keeps_counts
    (s : kstate) (reserve : Z) (o_pin : ttm_validate_outcome)
    (o_kmap : ttm_kmap_outcome) (o_unpin : ttm_validate_outcome)
    (Hpin : 0 <= pin_count (gbo s))
    (Huse : 0 <= kmap_use_count (gbo s))
    (Hinv : kmap_inv (gbo s))
    (Hres : errno_result reserve)
    (Hval : errno_result (v_ret o_pin))
    (Haddr : IS_ERR (virtual (kmap (gbo s))) = false)
    (Haddr' : IS_ERR (virtual (k_obj o_kmap)) = false) :
  let v := drm_gem_vram_object_vmap reserve o_pin o_kmap o_unpin s in
  IS_ERR (fst v) = true ->
  pin_count (gbo (snd v)) = pin_count (gbo s) /\
  kmap_use_count (gbo (snd v)) = kmap_use_count (gbo s).
Proof.
  cbv zeta. rewrite vmap_fst, vmap_gbo. cbv zeta.
  destruct (truthy reserve) eqn:Er; [auto |].
  destruct (truthy (fst (drm_gem_vram_pin_locked _ _ _))) eqn:Ep.
  { intros _. know_effects. unfold errno_result in *. cases; settle. }
  destruct (IS_ERR (fst (fst (drm_gem_vram_kmap_locked _ _ _ _)))) eqn:Ek.
  - intros _.
    assert (Hsp : IS_ERR (virtual (kmap (gbo (snd (drm_gem_vram_pin_locked o_pin 0
                     (snd (ttm_bo_reserve reserve s))))))) = false).
    { destruct (pin_locked_effect o_pin 0 (snd (ttm_bo_reserve reserve s)))
        as (_ & _ & [Hsame | (_ & Hnull)] & _); cbv zeta in *;
        rewrite ?reserve_gbo in *.
      - rewrite Hsame. exact Haddr.
      - rewrite Hnull. reflexivity. }
    destruct (kmap_locked_error o_kmap true None _ Hsp Haddr' Ek) as (Hkc & Hkp).
    know_effects. unfold kmap_inv, kmap_kept_or_released, NULL in *.
    cases; settle.
  - rewrite Ek. discriminate.
Qed.

(** X13: running the move-notify hook a second time changes nothing: after
    the first run either the mapping is gone or the warning about the
    references has been given. *)
Theorem move_notify_idempotent (s : kstate) :
  drm_gem_vram_bo_driver_move_notify (snd (drm_gem_vram_bo_driver_move_notify s))
  = (tt, snd (drm_gem_vram_bo_driver_move_notify s)).
Proof.
  unfold drm_gem_vram_bo_driver_move_notify. unf_m.
  destruct (truthy (kmap_use_count (gbo s))) eqn:Eu;
    cbn [fst snd gbo dmesg negb andb orb].
  - destruct (warned WARN_move_notify_use_count (dmesg s)) eqn:W;
      cbn [fst snd gbo dmesg negb andb orb]; rewrite Eu;
      cbn [fst snd gbo dmesg negb andb orb].
    + rewrite W. reflexivity.
    + unfold warned. rewrite existsb_app. cbn. rewrite orb_true_r. reflexivity.
  - destruct (truthy (virtual (kmap (gbo s)))) eqn:Ev;
      cbn [fst snd gbo dmesg negb andb orb]; fields; rewrite Eu;
      cbn [fst snd gbo dmesg negb andb orb]; fields.
    + reflexivity.
    + rewrite Ev. reflexivity.
Qed.

(** ** The lock *)

Lemma lock_trace_app (a b : list event) :
  lock_trace (a ++ b) = lock_trace a ++ lock_trace b.
Proof. apply filter_app. Qed.

(** Closes a goal on the lock trace once the control flow is decided. *)
Ltac lock_done :=
  cbn [fst snd gbo dmesg negb andb orb];
  rewrite ?lock_trace_app; cbn [lock_trace filter is_lock];
  rewrite ?app_nil_r; try reflexivity.

Lemma warn_once_lock (site : warn_site) (c : bool) (s : kstate) :
  lock_trace (dmesg (snd (WARN_ON_ONCE site c s))) = lock_trace (dmesg s).
Proof. unf_m. destruct (c && _); lock_done. Qed.

Lemma move_notify_lock (s : kstate) :
  lock_trace (dmesg (snd (drm_gem_vram_bo_driver_move_notify s)))
    = lock_trace (dmesg s).
Proof.
  unfold drm_gem_vram_bo_driver_move_notify. unf_m.
  destruct (truthy (kmap_use_count (gbo s))); cbn [fst snd gbo dmesg negb andb orb].
  - destruct (negb (warned _ _)); lock_done.
  - destruct (negb (truthy _)); lock_done.
Qed.

Lemma validate_lock (o : ttm_validate_outcome) (s : kstate) :
  lock_trace (dmesg (snd (ttm_bo_validate o s))) = lock_trace (dmesg s).
Proof.
  unfold ttm_bo_validate. unf_m.
  destruct (v_move o) as [[ty off] |]; cbn [fst snd gbo dmesg negb andb orb].
  - rewrite move_notify_lock. lock_done.
  - lock_done.
Qed.

Lemma pin_locked_lock (o : ttm_validate_outcome) (pl_flag : Z) (s : kstate) :
  lock_trace (dmesg (snd (drm_gem_vram_pin_locked o pl_flag s)))
    = lock_trace (dmesg s).
Proof.
  unfold drm_gem_vram_pin_locked. unf_m.
  destruct (truthy (pin_count (gbo s))); cbn [fst snd gbo dmesg negb andb orb];
    [reflexivity |].
  destruct (truthy pl_flag); cbn [fst snd gbo dmesg negb andb orb];
    match goal with |- context [fst ?v <? 0] =>
      destruct (fst v <? 0); cbn [fst snd gbo dmesg negb andb orb];
      rewrite validate_lock; reflexivity
    end.
Qed.

Lemma unpin_locked_lock (o : ttm_validate_outcome) (s : kstate) :
  lock_trace (dmesg (snd (drm_gem_vram_unpin_locked o s)))
    = lock_trace (dmesg s).
Proof.
  unfold drm_gem_vram_unpin_locked. unf_m.
  destruct (truthy (pin_count (gbo s))); cbn [fst snd gbo dmesg negb andb orb].
  - fields.
    destruct (truthy (pin_count (gbo s) - 1)); cbn [fst snd gbo dmesg negb andb orb];
      [reflexivity |].
    match goal with |- context [fst ?v <? 0] =>
      destruct (fst v <? 0); cbn [fst snd gbo dmesg negb andb orb];
      rewrite validate_lock; reflexivity
    end.
  - destruct (negb (warned _ _)); lock_done.
Qed.

Lemma kmap_locked_lock (o : ttm_kmap_outcome) (map : bool)
    (is_iomem : option bool) (s : kstate) :
  lock_trace (dmesg (snd (drm_gem_vram_kmap_locked o map is_iomem s)))
    = lock_trace (dmesg s).
Proof.
  rewrite kmap_locked_dmesg, lock_trace_app.
  destruct (_ && _ && _); cbn; rewrite app_nil_r; reflexivity.
Qed.

Lemma kunmap_locked_lock (s : kstate) :
  lock_trace (dmesg (snd (drm_gem_vram_kunmap_locked s))) = lock_trace (dmesg s).
Proof.
  unfold drm_gem_vram_kunmap_locked. unf_m.
  destruct (truthy (kmap_use_count (gbo s))); cbn [fst snd gbo dmesg negb andb orb].
  - destruct (_ >? _); reflexivity.
  - destruct (negb (warned _ _)); lock_done.
Qed.

Lemma offset_lock (s : kstate) :
  lock_trace (dmesg (snd (drm_gem_vram_offset s))) = lock_trace (dmesg s).
Proof.
  unfold drm_gem_vram_offset. unf_m.
  destruct (negb (truthy _)); cbn [fst snd gbo dmesg negb andb orb];
    [destruct (negb (warned _ _)) |]; lock_done.
Qed.

(** X14: every operation that takes the buffer's lock gives it back before
    it returns, on the error paths as on the others, and never gives back a
    lock it did not get.  On the log, an operation adds one reservation
    followed by one release when the reservation succeeds, the reservation
    alone when it fails, and no lock call at all if it takes no lock. *)
Theorem lock_is_released (x : op) (s : kstate) :
  lock_trace (dmesg (run_op x s)) =
    lock_trace (dmesg s) ++
    match op_reserve x with
    | Some r => if truthy r then [Call ttm_bo_reserve_call]
                else [Call ttm_bo_reserve_call; Call ttm_bo_unreserve_call]
    | None => []
    end.
Proof.
  destruct x; cbn [run_op op_reserve].
  - unfold drm_gem_vram_pin. unf_m.
    destruct (truthy reserve); lock_done.
    rewrite pin_locked_lock. lock_done. rewrite <- app_assoc. reflexivity.
  - unfold drm_gem_vram_unpin. unf_m.
    destruct (truthy reserve); lock_done.
    rewrite unpin_locked_lock. lock_done. rewrite <- app_assoc. reflexivity.
  - unfold drm_gem_vram_kmap. unf_m.
    destruct (truthy reserve); lock_done.
    rewrite kmap_locked_lock. lock_done. rewrite <- app_assoc. reflexivity.
  - unfold drm_gem_vram_kunmap. unf_m.
    destruct (truthy reserve); cbn [fst snd gbo dmesg negb andb orb].
    + destruct (negb (warned _ _)); lock_done.
    + lock_done. rewrite kunmap_locked_lock. lock_done.
      rewrite <- app_assoc. reflexivity.
  - unfold drm_gem_vram_object_vmap. unf_m.
    destruct (truthy reserve); lock_done.
    destruct (truthy (fst (drm_gem_vram_pin_locked _ _ _))); lock_done.
    + rewrite pin_locked_lock. lock_done. rewrite <- app_assoc. reflexivity.
    + destruct (IS_ERR _); lock_done;
        rewrite ?unpin_locked_lock, kmap_locked_lock, pin_locked_lock; lock_done;
        rewrite <- app_assoc; reflexivity.
  - unfold drm_gem_vram_object_vunmap. unf_m.
    destruct (truthy reserve); cbn [fst snd gbo dmesg negb andb orb].
    + destruct (negb (warned _ _)); lock_done.
    + lock_done. rewrite unpin_locked_lock, kunmap_locked_lock. lock_done.
      rewrite <- app_assoc. reflexivity.
  - rewrite offset_lock, app_nil_r. reflexivity.
  - rewrite move_notify_lock, app_nil_r. reflexivity.
  - unfold drm_gem_vram_bo_driver_evict_flags. unf_m.
    rewrite move_notify_lock, app_nil_r. reflexivity.
Qed.

Lemma land_lnot_clean (f n : Z) : Z.land f n = 0 -> Z.land f (Z.lnot n) = f.
Proof.
  intro H. apply Z.bits_inj'. intros i Hi.
  rewrite Z.land_spec, Z.lnot_spec by lia.
  assert (Hb : Z.testbit (Z.land f n) i = false) by (rewrite H; apply Z.bits_0).
  rewrite Z.land_spec in Hb.
  destruct (Z.testbit f i), (Z.testbit n i); cbn in *; congruence.
Qed.

(** An unpin that does not get the lock returns the error of the
    reservation and leaves the object alone. *)
Lemma unpin_refused (o : ttm_validate_outcome) (s : kstate) (reserve : Z) :
  reserve <> 0 ->
  drm_gem_vram_unpin reserve o s
  = (reserve, {| gbo := gbo s; dmesg := dmesg s ++ [Call ttm_bo_reserve_call] |}).
Proof.
  intros H. apply truthy_true in H.
  unfold drm_gem_vram_unpin, ttm_bo_reserve. unf_m. rewrite H. reflexivity.
Qed.

(** X15: the PRIME pin and unpin undo each other when the unpin gets the
    buffer's lock.  On a buffer without pins whose listed placements do not
    carry [TTM_PL_FLAG_NO_EVICT], a [drm_gem_vram_object_pin] that succeeds
    leaves [pin_count] at 1.  A [drm_gem_vram_object_unpin] whose
    reservation succeeds then leaves the pin count at 0 and the placement
    list exactly as it was before the pin, whatever the two validations
    answer, and the reference count of the mapping is not touched.  When
    the reservation of the unpin fails, the error is dropped and the object
    stays as the pin left it, pinned once; the log shows the reservation
    alone. *)
Theorem object_pin_unpin_round_trip
    (s : kstate) (reserve1 reserve2 : Z) (o1 o2 : ttm_validate_outcome)
    (Hunpinned : pin_count (gbo s) = 0)
    (Hclean : forall (i : nat) (p : ttm_place),
        (i < num_placement (gbo s))%nat ->
        nth_error (placements (gbo s)) i = Some p ->
        Z.land (flags p) TTM_PL_FLAG_NO_EVICT = 0) :
  let p := drm_gem_vram_object_pin reserve1 o1 s in
  let u := drm_gem_vram_object_unpin reserve2 o2 (snd p) in
  fst p = 0 ->
  pin_count (gbo (snd p)) = 1 /\
  (reserve2 = 0 ->
     pin_count (gbo (snd u)) = 0 /\
     num_placement (gbo (snd u)) = num_placement (gbo s) /\
     placements (gbo (snd u)) = placements (gbo s) /\
     kmap_use_count (gbo (snd u)) = kmap_use_count (gbo s)) /\
  (reserve2 <> 0 ->
     gbo (snd u) = gbo (snd p) /\
     dmesg (snd u) = dmesg (snd p) ++ [Call ttm_bo_reserve_call]).
Proof.
  cbv zeta. unfold drm_gem_vram_object_pin, drm_gem_vram_object_unpin.
  change (snd ((drm_gem_vram_unpin reserve2 o2 ;; ret tt)
                 (snd (drm_gem_vram_pin reserve1 o1 0 s))))
    with (snd (drm_gem_vram_unpin reserve2 o2
                 (snd (drm_gem_vram_pin reserve1 o1 0 s)))).
  rewrite pin_fst, pin_gbo.
  destruct (truthy reserve1) eqn:Hres.
  { apply truthy_true in Hres. intro H. contradiction. }
  set (s0 := snd (ttm_bo_reserve reserve1 s)).
  assert (Hs0 : gbo s0 = gbo s) by apply reserve_gbo.
  assert (Hpin0 : pin_count (gbo s0) = 0) by (rewrite Hs0; exact Hunpinned).
  pose proof (pin_locked_unpinned o1 0 s0 Hpin0) as Hpin. cbv zeta in Hpin.
  change (truthy 0) with false in Hpin. cbv iota in Hpin.
  pose proof (pin_locked_effect o1 0 s0) as Heff. cbv zeta in Heff.
  destruct Heff as (Huse1 & Hcount1 & _).
  match type of Hpin with
  | context [ttm_bo_validate o1 ?st] =>
      pose proof (validate_frame o1 st) as Hframe1; cbv zeta in Hframe1;
      set (v1 := ttm_bo_validate o1 st) in *
  end.
  destruct Hframe1 as (Hnum1 & Hpls1 & _).
  intro Hret.
  assert (Hok : (fst v1 <? 0) = false).
  { destruct (fst v1 <? 0) eqn:Hneg; [| reflexivity].
    apply Z.ltb_lt in Hneg. rewrite Hpin in Hret. cbn [fst] in Hret. lia. }
  rewrite Hok in Hpin.
  assert (Hone : pin_count (gbo (snd (drm_gem_vram_pin_locked o1 0 s0))) = 1).
  { destruct Hcount1 as [(_ & Hc) | (Hr & Hneg & _)]; [lia |].
    rewrite Hret in Hr. lia. }
  split; [exact Hone |].
  split.
  - intros ->. rewrite unpin_gbo. change (truthy 0) with false. cbv iota.
    set (t1 := snd (ttm_bo_reserve 0 (snd (drm_gem_vram_pin reserve1 o1 0 s)))).
    assert (Ht1 : gbo t1 = gbo (snd (drm_gem_vram_pin_locked o1 0 s0))).
    { unfold t1. rewrite reserve_gbo, pin_gbo, Hres. reflexivity. }
    assert (Hg : gbo t1 = incr_pin_count (gbo (snd v1))).
    { rewrite Ht1, Hpin. reflexivity. }
    assert (Hlast : pin_count (gbo t1) = 1) by (rewrite Ht1; exact Hone).
    pose proof (unpin_locked_last o2 t1 Hlast) as Hun. cbv zeta in Hun.
    pose proof (unpin_locked_effect o2 t1) as Heff2. cbv zeta in Heff2.
    destruct Heff2 as (Huse2 & _ & Hdec & _).
    match type of Hun with
    | context [ttm_bo_validate o2 ?st] =>
        pose proof (validate_frame o2 st) as Hframe2; cbv zeta in Hframe2;
        set (v2 := ttm_bo_validate o2 st) in *
    end.
    destruct Hframe2 as (Hnum2 & Hpls2 & _).
    cbn [gbo dmesg] in Hnum1, Hpls1, Hnum2, Hpls2.
    rewrite Hg in Hnum2, Hpls2.
    unfold incr_pin_count in Hnum2, Hpls2. simp_gbo.
    split; [rewrite Hdec; lia |].
    split; [| split].
    + rewrite Hun. cbn [snd]. rewrite Hnum2, Hnum1, Hs0. reflexivity.
    + rewrite Hun. cbn [snd]. rewrite Hpls2, Hpls1, Hnum1, Hs0.
      apply nth_error_ext. intro j.
      rewrite !nth_error_for_placements.
      destruct (Nat.ltb j (num_placement (gbo s))) eqn:Hj; [| reflexivity].
      apply Nat.ltb_lt in Hj.
      destruct (nth_error (placements (gbo s)) j) as [pl |] eqn:Hnth;
        [| reflexivity].
      cbn [option_map]. f_equal.
      specialize (Hclean j pl Hj Hnth).
      destruct pl as [fp lp fl]. unfold and_not_no_evict, or_no_evict, set_flags.
      cbn [fpfn lpfn flags] in *. f_equal.
      rewrite land_lor_lnot. now apply land_lnot_clean.
    + rewrite Huse2, Ht1, Huse1, Hs0. reflexivity.
  - intros Hfail. rewrite (unpin_refused o2 _ Hfail). cbn [snd gbo dmesg].
    split; [rewrite pin_gbo, Hres; reflexivity | reflexivity].
Qed.

End pin_properties.

(** ** Destruction *)

(** C9, as the code has it: at destruction the mapping cache is checked and
    nothing else.  [drm_gem_vram_cleanup] warns once for a non-zero
    [kmap_use_count] and once for a retained mapping address, then releases
    the GEM object; it leaves the object as it is, and what it logs does not
    depend on [pin_count], which is not looked at. *)
Theorem cleanup_checks_mapping_cache (s : kstate) :
  gbo (snd (drm_gem_vram_cleanup s)) = gbo s /\
  dmesg (snd (drm_gem_vram_cleanup s)) =
    dmesg s
    ++ (if truthy (kmap_use_count (gbo s)) then [Warn WARN_cleanup_kmap_use_count] else [])
    ++ (if truthy (virtual (kmap (gbo s))) then [Warn WARN_cleanup_kmap_virtual] else [])
    ++ [Call drm_gem_object_release_call] /\
  (forall n : Z,
     dmesg (snd (drm_gem_vram_cleanup
                   {| gbo := set_pin_count n (gbo s); dmesg := dmesg s |})) =
     dmesg (snd (drm_gem_vram_cleanup s))).
Proof.
  unfold drm_gem_vram_cleanup. unf_m. fields.
  destruct (truthy (kmap_use_count (gbo s)));
    destruct (truthy (virtual (kmap (gbo s))));
    cbn [fst snd gbo dmesg negb andb orb]; rewrite <- ?app_assoc; auto.
Qed.

(** C9 as stated fails: an object destroyed with [pin_count = 1] and an
    empty mapping cache raises no warning at all; the log only shows the
    release of the GEM object. *)
Lemma cleanup_ignores_pin_count :
  let s := {| gbo := set_pin_count 1 zeroed_gbo; dmesg := [] |} in
  pin_count (gbo s) = 1 /\
  dmesg (snd (drm_gem_vram_cleanup s)) = [Call drm_gem_object_release_call] /\
  (forall site, ~ In (Warn site) (dmesg (snd (drm_gem_vram_cleanup s)))).
Proof.
  cbn. repeat split. intros site [H | []]. discriminate.
Qed.

(** ** Dumb buffers *)

Lemma ceil_div_least (a b : Z) :
  0 < b -> b * (ceil_div a b - 1) < a <= b * ceil_div a b.
Proof.
  intros Hb. unfold ceil_div.
  pose proof (Z.div_mod (a + b - 1) b ltac:(lia)).
  pose proof (Z.mod_pos_bound (a + b - 1) b Hb). nia.
Qed.

Lemma round_up_least (x y : Z) :
  0 < y -> (round_up x y) mod y = 0 /\ x <= round_up x y < x + y.
Proof.
  intros Hy. unfold round_up. split.
  - apply Z.mod_mul. lia.
  - pose proof (ceil_div_least x Hy). nia.
Qed.

Section dumb_properties.

Context {hdr : kernel_headers}.

Lemma u32_small (x : Z) : 0 <= x < 2 ^ 32 -> u32 x = x.
Proof. intros H. unfold u32. apply Z.mod_small. exact H. Qed.

Lemma size_t_small (x : Z) : 0 <= x < 2 ^ BITS_PER_LONG -> size_t x = x.
Proof. intros H. unfold size_t. apply Z.mod_small. exact H. Qed.

(** Within the width of the types the code computes the spec's pitch and
    size. *)
Lemma dumb_geometry (w h b : Z) :
  32 <= BITS_PER_LONG ->
  0 < PAGE_SIZE ->
  0 <= w -> 0 <= h -> 0 <= b ->
  b + 7 < 2 ^ 32 ->
  spec_pitch w b < 2 ^ 32 ->
  spec_pitch w b * h + PAGE_SIZE - 1 < 2 ^ BITS_PER_LONG ->
  size_t (u32 (w * (u32 (b + 7) / 8))) = spec_pitch w b /\
  roundup (size_t (spec_pitch w b * h)) PAGE_SIZE = spec_size w h b PAGE_SIZE.
Proof.
  intros Hbits Hpage Hw Hh Hb Hb7 Hp Hs.
  unfold spec_size, spec_pitch, round_up, ceil_div in *.
  replace (b + 8 - 1) with (b + 7) in * by lia.
  assert (H32 : 2 ^ 32 <= 2 ^ BITS_PER_LONG)
    by (apply Z.pow_le_mono_r; lia).
  assert (Hc : 0 <= (b + 7) / 8) by (apply Z.div_pos; lia).
  assert (Hwc : 0 <= w * ((b + 7) / 8)) by nia.
  assert (Hx : 0 <= w * ((b + 7) / 8) * h) by nia.
  split.
  - rewrite (u32_small (x := b + 7)) by lia.
    rewrite u32_small by lia. apply size_t_small. lia.
  - unfold roundup.
    rewrite (size_t_small (x := w * ((b + 7) / 8) * h)) by lia.
    rewrite (size_t_small (x := PAGE_SIZE - 1)) by lia.
    replace (w * ((b + 7) / 8) * h + (PAGE_SIZE - 1))
      with (w * ((b + 7) / 8) * h + PAGE_SIZE - 1) by lia.
    set (x := w * ((b + 7) / 8) * h + PAGE_SIZE - 1) in *.
    assert (Hq : 0 <= x / PAGE_SIZE) by (apply Z.div_pos; lia).
    assert (Hm : x / PAGE_SIZE * PAGE_SIZE <= x)
      by (rewrite Z.mul_comm; apply Z.mul_div_le; lia).
    assert (Hq' : x / PAGE_SIZE <= x) by nia.
    rewrite (size_t_small (x := x)) by lia.
    rewrite (size_t_small (x := x / PAGE_SIZE)) by lia.
    apply size_t_small. nia.
Qed.

(** C8, as the code has it: for inputs whose pitch fits the 32-bit
    arithmetic of the uAPI fields ([bpp + 7] and [width * ceil(bpp/8)] below
    [2^32]) and whose rounded size fits [size_t], the helper computes
    [pitch = width * ceil(bpp/8)] and
    [size = round_up(pitch * height, PAGE_SIZE)].  When that size is 0 it
    returns [-EINVAL] and leaves [args] alone, whatever the creation would
    have answered; otherwise it returns the error of the object creation or
    of the handle creation if one fails, and else 0 with pitch, size and
    handle stored in [args].  For 100 x 50 at 32 bpp and a page of 4096
    bytes this gives pitch 400 and size 20480. *)
Theorem fill_create_dumb_geometry
    (co : create_outcome) (ho : handle_outcome) (pg_align : Z)
    (interruptible : bool) (args : drm_mode_create_dumb)
    (Hbits : 32 <= BITS_PER_LONG <= 64)
    (Hpage : 0 < PAGE_SIZE)
    (Hw : 0 <= width args) (Hh : 0 <= height args) (Hb : 0 <= bpp args)
    (Hb7 : bpp args + 7 < 2 ^ 32)
    (Hp : spec_pitch (width args) (bpp args) < 2 ^ 32)
    (Hs : spec_pitch (width args) (bpp args) * height args + PAGE_SIZE - 1
            < 2 ^ BITS_PER_LONG) :
  let p := spec_pitch (width args) (bpp args) in
  let sz := spec_size (width args) (height args) (bpp args) PAGE_SIZE in
  let r := drm_gem_vram_fill_create_dumb co ho pg_align interruptible args in
  let gbo := fst (drm_gem_vram_create co sz pg_align interruptible) in
  (sz = 0 -> r = (- EINVAL, args)) /\
  (sz <> 0 ->
     r = if IS_ERR gbo then (PTR_ERR gbo, args)
         else if truthy (h_ret ho) then (h_ret ho, args)
         else (0, set_dumb_result p sz (u32 (h_handle ho)) args)) /\
  (sz <> 0 -> IS_ERR gbo = false -> h_ret ho = 0 ->
     fst r = 0 /\ pitch (snd r) = p /\ size (snd r) = sz) /\
  (PAGE_SIZE = 4096 -> width args = 100 -> height args = 50 -> bpp args = 32 ->
     IS_ERR gbo = false -> h_ret ho = 0 ->
     fst r = 0 /\ pitch (snd r) = 400 /\ size (snd r) = 20480).
Proof.
  cbv zeta.
  destruct (dumb_geometry (w := width args) (h := height args) (b := bpp args))
    as (Hpitch & Hsize); try lia.
  assert (H32 : 2 ^ 32 <= 2 ^ BITS_PER_LONG) by (apply Z.pow_le_mono_r; lia).
  assert (H64 : 2 ^ BITS_PER_LONG <= 2 ^ 64) by (apply Z.pow_le_mono_r; lia).
  assert (Hp0 : 0 <= spec_pitch (width args) (bpp args)).
  { unfold spec_pitch, ceil_div.
    assert (0 <= (bpp args + 8 - 1) / 8) by (apply Z.div_pos; lia). nia. }
  pose proof (round_up_least (spec_pitch (width args) (bpp args) * height args) Hpage)
    as (_ & Hlo & Hhi).
  fold (spec_size (width args) (height args) (bpp args) PAGE_SIZE) in Hlo, Hhi.
  assert (Hsz0 : 0 <= spec_size (width args) (height args) (bpp args) PAGE_SIZE) by nia.
  assert (Hr : drm_gem_vram_fill_create_dumb co ho pg_align interruptible args =
    if negb (truthy (spec_size (width args) (height args) (bpp args) PAGE_SIZE))
    then (- EINVAL, args)
    else
      let gbo := fst (drm_gem_vram_create co
                        (spec_size (width args) (height args) (bpp args) PAGE_SIZE)
                        pg_align interruptible) in
      if IS_ERR gbo then (PTR_ERR gbo, args)
      else if truthy (h_ret ho) then (h_ret ho, args)
      else (0, set_dumb_result (spec_pitch (width args) (bpp args))
                 (spec_size (width args) (height args) (bpp args) PAGE_SIZE)
                 (u32 (h_handle ho)) args)).
  { unfold drm_gem_vram_fill_create_dumb. cbv zeta.
    rewrite Hpitch, Hsize.
    rewrite (u32_small (x := spec_pitch (width args) (bpp args))) by lia.
    unfold u64. rewrite (Z.mod_small (spec_size _ _ _ _)) by lia.
    reflexivity. }
  assert (Hgen : spec_size (width args) (height args) (bpp args) PAGE_SIZE <> 0 ->
     IS_ERR (fst (drm_gem_vram_create co
                    (spec_size (width args) (height args) (bpp args) PAGE_SIZE)
                    pg_align interruptible)) = false ->
     h_ret ho = 0 ->
     fst (drm_gem_vram_fill_create_dumb co ho pg_align interruptible args) = 0 /\
     pitch (snd (drm_gem_vram_fill_create_dumb co ho pg_align interruptible args))
       = spec_pitch (width args) (bpp args) /\
     size (snd (drm_gem_vram_fill_create_dumb co ho pg_align interruptible args))
       = spec_size (width args) (height args) (bpp args) PAGE_SIZE).
  { intros Hnz He Hh0. rewrite Hr. cbv zeta.
    apply truthy_true in Hnz. rewrite Hnz, He, Hh0. cbn. auto. }
  split; [| split; [| split]].
  - intros Hz. rewrite Hr, Hz. reflexivity.
  - intros Hnz. rewrite Hr. apply truthy_true in Hnz. rewrite Hnz. reflexivity.
  - exact Hgen.
  - intros HP Hw' Hh' Hb'.
    assert (Hv : spec_pitch (width args) (bpp args) = 400 /\
                 spec_size (width args) (height args) (bpp args) PAGE_SIZE = 20480).
    { rewrite HP, Hw', Hh', Hb'. split; reflexivity. }
    destruct Hv as (Hv1 & Hv2). intros He Hh0.
    destruct (Hgen ltac:(lia) He Hh0) as (A & B & C).
    rewrite A, B, C. auto.
Qed.

(** X16: whatever the inputs, also when the arithmetic wraps around:
    [drm_gem_vram_fill_create_dumb] leaves [args] untouched whenever it
    does not return 0, and whenever it returns 0 the size it reports is not
    0 and is a multiple of the page size, the handle creation answered 0,
    and the handle it reports is the one that was created.  (The page size
    is a power of two that fits [size_t], and [EINVAL] is not 0.) *)
Theorem fill_create_dumb_size_aligned
    (co : create_outcome) (ho : handle_outcome) (pg_align : Z)
    (interruptible : bool) (args : drm_mode_create_dumb) (k : Z)
    (Hk : 0 <= k <= BITS_PER_LONG) (Hbits : BITS_PER_LONG <= 64)
    (Hpage : PAGE_SIZE = 2 ^ k) (Heinval : EINVAL <> 0) :
  let r := drm_gem_vram_fill_create_dumb co ho pg_align interruptible args in
  (fst r <> 0 -> snd r = args) /\
  (fst r = 0 ->
     size (snd r) <> 0 /\
     size (snd r) mod PAGE_SIZE = 0 /\
     h_ret ho = 0 /\
     handle (snd r) = u32 (h_handle ho)).
Proof.
  cbv zeta. unfold drm_gem_vram_fill_create_dumb. cbv zeta.
  set (pitch0 := size_t (u32 (width args * (u32 (bpp args + 7) / 8)))).
  set (sz := roundup (size_t (pitch0 * height args)) PAGE_SIZE).
  assert (Hpow : 0 < 2 ^ k) by (apply Z.pow_pos_nonneg; lia).
  assert (Hsplit : 2 ^ BITS_PER_LONG = 2 ^ (BITS_PER_LONG - k) * 2 ^ k).
  { rewrite <- Z.pow_add_r by lia. f_equal. lia. }
  assert (Hrest : 0 < 2 ^ (BITS_PER_LONG - k)) by (apply Z.pow_pos_nonneg; lia).
  assert (Hmult : sz mod PAGE_SIZE = 0).
  { unfold sz, roundup. rewrite Hpage.
    match goal with
    | |- size_t (?a * _) mod _ = 0 => generalize a; intro q
    end.
    unfold size_t at 1. rewrite Hsplit.
    rewrite Z.mul_mod_distr_r by lia.
    apply Z.mod_mul. lia. }
  assert (Hrange : 0 <= sz < 2 ^ 64).
  { assert (H64 : 2 ^ BITS_PER_LONG <= 2 ^ 64) by (apply Z.pow_le_mono_r; lia).
    assert (Hb : 0 < 2 ^ BITS_PER_LONG) by (apply Z.pow_pos_nonneg; lia).
    unfold sz, roundup.
    match goal with
    | |- 0 <= size_t ?a < _ => generalize a; intro q
    end.
    unfold size_t. pose proof (Z.mod_pos_bound q (2 ^ BITS_PER_LONG) Hb). lia. }
  assert (Hu64 : u64 sz = sz) by (unfold u64; apply Z.mod_small; exact Hrange).
  destruct (truthy sz) eqn:Hsz; cbn [negb].
  - apply truthy_true in Hsz.
    destruct (IS_ERR (fst (drm_gem_vram_create co sz pg_align interruptible)))
      eqn:Herr.
    + cbn [fst snd]. split; [reflexivity |]. intro H0. exfalso.
      unfold IS_ERR in Herr. apply andb_prop in Herr. destruct Herr as (_ & Hneg).
      apply Z.ltb_lt in Hneg. unfold PTR_ERR in H0. lia.
    + destruct (truthy (h_ret ho)) eqn:Hh.
      * cbn [fst snd]. split; [reflexivity |]. intro H0.
        apply truthy_true in Hh. contradiction.
      * apply truthy_false in Hh. cbn [fst snd size handle set_dumb_result].
        split; [intro H; now contradiction H |]. intros _.
        rewrite Hu64. repeat split; assumption.
  - cbn [fst snd]. split; [reflexivity |]. intro H0. lia.
Qed.

End dumb_properties.

Lemma fill_create_dumb_geometry_witness :
  fst (drm_gem_vram_fill_create_dumb (hdr := linux_x86_64)
         create_ok handle_ok 0 false dumb_100x50x32) = 0 /\
  pitch (snd (drm_gem_vram_fill_create_dumb (hdr := linux_x86_64)
         create_ok handle_ok 0 false dumb_100x50x32)) = 400 /\
  size (snd (drm_gem_vram_fill_create_dumb (hdr := linux_x86_64)
         create_ok handle_ok 0 false dumb_100x50x32)) = 20480.
Proof.
  pose proof (@fill_create_dumb_geometry linux_x86_64 create_ok handle_ok 0 false
                dumb_100x50x32) as H.
  cbv zeta in H.
  apply H; cbn; try lia; reflexivity.
Defined.

(** C8 as stated fails once the 32-bit product wraps.  For width
    [2^30 + 1], height 1 and 32 bpp the spec's pitch is [2^32 + 4], yet the
    helper succeeds with pitch 4 and size 4096.  For width [2^31], height
    [2^31] and 32 bpp the spec's pitch is [2^33] and its size [2^64], not 0,
    yet the helper computes size 0 and returns [-EINVAL].  And [-EINVAL]
    also comes back with a size that is not 0, when the object creation
    fails with it: 100 x 50 at 32 bpp has size 20480. *)
Lemma fill_create_dumb_wraps :
  let a1 := {| height := 1; width := 1073741825; bpp := 32;
               dumb_flags := 0; handle := 0; pitch := 0; size := 0 |} in
  let a2 := {| height := 2147483648; width := 2147483648; bpp := 32;
               dumb_flags := 0; handle := 0; pitch := 0; size := 0 |} in
  let create_einval := {| kzalloc := 65536; gem_object_init_ret := - 22;
                          ttm_bo_init_ret := 0; ttm_bo_init_mem := (0, 0) |} in
  (spec_pitch (width a1) (bpp a1) = 4294967300 /\
   drm_gem_vram_fill_create_dumb (hdr := linux_x86_64)
     create_ok handle_ok 0 false a1 = (0, set_dumb_result 4 4096 1 a1)) /\
  (spec_pitch (width a2) (bpp a2) = 8589934592 /\
   spec_size (width a2) (height a2) (bpp a2) 4096 = 18446744073709551616 /\
   spec_size (width a2) (height a2) (bpp a2) 4096 <> 0 /\
   drm_gem_vram_fill_create_dumb (hdr := linux_x86_64)
     create_ok handle_ok 0 false a2 = (- 22, a2)) /\
  (spec_size 100 50 32 4096 = 20480 /\
   drm_gem_vram_fill_create_dumb (hdr := linux_x86_64)
     create_einval handle_ok 0 false dumb_100x50x32 = (- 22, dumb_100x50x32)).
Proof.
  cbv zeta. repeat split. discriminate.
Qed.

(** ** The memory types *)

Section mm_properties.

Context {hdr : kernel_headers} {ttm : ttm_headers}.

Lemma shiftl_pages (n : Z) :
  0 <= PAGE_SHIFT -> PAGE_SIZE = 2 ^ PAGE_SHIFT ->
  0 <= n -> n * PAGE_SIZE < 2 ^ BITS_PER_LONG ->
  size_t (Z.shiftl n PAGE_SHIFT) = n * PAGE_SIZE.
Proof.
  intros Hs Hp Hn Hfit. rewrite Z.shiftl_mul_pow2, <- Hp by exact Hs.
  apply Z.mod_small. split; [| exact Hfit].
  assert (0 < PAGE_SIZE) by (rewrite Hp; apply Z.pow_pos_nonneg; lia). nia.
Qed.

(** X17: [bo_driver_io_mem_reserve] describes the bus placement of a memory
    region.  A region in system memory is not I/O memory and has base and
    offset 0; a region in VRAM is I/O memory at the VRAM base, at the offset
    of its first page; in both cases the address is cleared and the size is
    the number of pages times the page size.  A region whose manager is not
    mappable is refused with [-EINVAL] and left alone; a region of any other
    type is refused with [-EINVAL] after its address and size have been
    written. *)
Theorem io_mem_reserve_result
    (man : Z -> ttm_mem_type_manager) (base : Z) (mem : ttm_mem_reg)
    (Hshift : 0 <= PAGE_SHIFT) (Hpage : PAGE_SIZE = 2 ^ PAGE_SHIFT)
    (Hpages : 0 <= mem_num_pages mem)
    (Hsize : mem_num_pages mem * PAGE_SIZE < 2 ^ BITS_PER_LONG)
    (Hstart : 0 <= mem_start mem)
    (Hoff : mem_start mem * PAGE_SIZE < 2 ^ BITS_PER_LONG)
    (Hbase : 0 <= base < 2 ^ PHYS_ADDR_BITS)
    (Htypes : TTM_PL_SYSTEM <> TTM_PL_VRAM) :
  let r := bo_driver_io_mem_reserve man base mem in
  let mappable :=
    Z.land (man_flags (man (mem_type mem))) TTM_MEMTYPE_FLAG_MAPPABLE <> 0 in
  (~ mappable -> r = (- EINVAL, mem)) /\
  (mappable -> mem_type mem = TTM_PL_SYSTEM ->
     r = (0, set_bus {| bus_addr := NULL; bus_base := 0;
                        bus_size := mem_num_pages mem * PAGE_SIZE;
                        bus_offset := 0; bus_is_iomem := false |} mem)) /\
  (mappable -> mem_type mem = TTM_PL_VRAM ->
     r = (0, set_bus {| bus_addr := NULL; bus_base := base;
                        bus_size := mem_num_pages mem * PAGE_SIZE;
                        bus_offset := mem_start mem * PAGE_SIZE;
                        bus_is_iomem := true |} mem)) /\
  (mappable -> mem_type mem <> TTM_PL_SYSTEM -> mem_type mem <> TTM_PL_VRAM ->
     r = (- EINVAL,
          set_bus {| bus_addr := NULL; bus_base := bus_base (mem_bus mem);
                     bus_size := mem_num_pages mem * PAGE_SIZE;
                     bus_offset := bus_offset (mem_bus mem);
                     bus_is_iomem := bus_is_iomem (mem_bus mem) |} mem)).
Proof.
  cbv zeta. unfold bo_driver_io_mem_reserve. cbv zeta.
  rewrite (shiftl_pages Hshift Hpage Hpages Hsize).
  rewrite (shiftl_pages Hshift Hpage Hstart Hoff).
  rewrite (Z.mod_small base) by exact Hbase.
  destruct (truthy (Z.land (man_flags (man (mem_type mem))) TTM_MEMTYPE_FLAG_MAPPABLE))
    eqn:Em; cbn [negb]; tests.
  - split; [intros H; contradiction |].
    split; [| split].
    + intros _ ->. rewrite Z.eqb_refl. reflexivity.
    + intros _ ->. rewrite (proj2 (Z.eqb_neq _ _)) by congruence.
      rewrite Z.eqb_refl. reflexivity.
    + intros _ H1 H2.
      rewrite (proj2 (Z.eqb_neq _ _) H1), (proj2 (Z.eqb_neq _ _) H2). reflexivity.
  - split; [reflexivity |]. repeat split; intros H; contradiction.
Qed.

(** X18: the memory types [bo_driver_init_mem_type] sets up are the ones
    [bo_driver_io_mem_reserve] serves.  For system memory and for VRAM the
    setup returns 0 and a region of that type, under the manager just set
    up, is reserved with success, as I/O memory exactly for VRAM.  For every
    other type the setup returns [-EINVAL] and leaves the manager alone. *)
Theorem init_mem_type_then_reserve
    (type : Z) (man0 : ttm_mem_type_manager) (base : Z) (mem : ttm_mem_reg)
    (Heinval : 0 < EINVAL)
    (Htypes : TTM_PL_SYSTEM <> TTM_PL_VRAM)
    (Hmappable : TTM_MEMTYPE_FLAG_MAPPABLE <> 0)
    (Hmem : mem_type mem = type) :
  let i := bo_driver_init_mem_type type man0 in
  let r := bo_driver_io_mem_reserve (fun _ => snd i) base mem in
  (fst i = 0 <-> type = TTM_PL_SYSTEM \/ type = TTM_PL_VRAM) /\
  (fst i = 0 ->
     fst r = 0 /\
     bus_is_iomem (mem_bus (snd r)) = (type =? TTM_PL_VRAM) /\
     bus_addr (mem_bus (snd r)) = NULL) /\
  (fst i <> 0 -> i = (- EINVAL, man0)) /\
  (type = TTM_PL_VRAM ->
     man_func (snd i) = ttm_bo_manager_func /\
     Z.land (man_flags (snd i)) TTM_MEMTYPE_FLAG_FIXED = TTM_MEMTYPE_FLAG_FIXED /\
     default_caching (snd i) = TTM_PL_FLAG_WC) /\
  (type = TTM_PL_SYSTEM ->
     man_func (snd i) = man_func man0 /\
     man_flags (snd i) = TTM_MEMTYPE_FLAG_MAPPABLE /\
     default_caching (snd i) = TTM_PL_FLAG_CACHED).
Proof.
  cbv zeta. unfold bo_driver_init_mem_type, bo_driver_io_mem_reserve. cbv zeta.
  rewrite Hmem.
  destruct (Z.eqb_spec type TTM_PL_SYSTEM) as [Hs | Hs].
  - cbn [fst snd man_flags man_func default_caching].
    rewrite Z.land_diag, (proj2 (truthy_true _) Hmappable). cbn [negb].
    rewrite (proj2 (Z.eqb_neq type TTM_PL_VRAM)) by congruence.
    repeat split; auto; try congruence.
  - destruct (Z.eqb_spec type TTM_PL_VRAM) as [Hv | Hv].
    + cbn [fst snd man_flags man_func default_caching].
      rewrite land_lor_r, (proj2 (truthy_true _) Hmappable). cbn [negb].
      repeat split; auto; try congruence.
      apply land_lor_l.
    + cbn [fst snd]. repeat split; try lia; try tauto; try congruence.
Qed.

(** ** The device's memory manager *)

Lemma alloc_mm_fails (o : mm_outcome) (base size : Z) (d : drm_device) :
  vram_mm d = NULL ->
  mm_kzalloc o = NULL \/ device_init_ret o <> 0 \/ init_mm_ret o <> 0 ->
  vram_mm (snd (drm_vram_helper_alloc_mm o base size d)) = NULL.
Proof.
  intros H Hfail.
  unfold drm_vram_helper_alloc_mm, drm_vram_mm_init. cbv zeta.
  rewrite H. cbn [truthy Z.eqb negb NULL]. cbn [vram_mm set_vram_mm set_vram_mm_obj dev_log].
  destruct (truthy (mm_kzalloc o)) eqn:Ek; cbn [negb snd vram_mm]; tests;
    [| exact Ek].
  destruct (truthy (device_init_ret o)) eqn:Er; cbn [fst snd]; tests.
  - rewrite (proj2 (truthy_true _) Er). reflexivity.
  - destruct (truthy (init_mm_ret o)) eqn:Ei; cbn [fst snd]; tests.
    + rewrite (proj2 (truthy_true _) Ei). reflexivity.
    + unfold NULL in *. destruct Hfail as [? | [? | ?]]; congruence.
Qed.

(** X19: [drm_vram_helper_alloc_mm] sets a manager up once.  On a device
    that has one it warns, returns the existing manager and does nothing
    else: the new base and size are ignored.  On a device without one it
    returns [ERR_PTR(-ENOMEM)] when the allocation fails and the error of
    [ttm_bo_device_init] or [ttm_bo_init_mm] when one of them fails, freeing
    the allocation; after any failure the device is still without manager.
    On success the device points to the new manager, which holds the base
    and size given, with the VRAM type set up for [size >> PAGE_SHIFT]
    pages. *)
Theorem alloc_mm_result (o : mm_outcome) (base size : Z) (d : drm_device) :
  let r := drm_vram_helper_alloc_mm o base size d in
  (vram_mm d <> NULL ->
     r = (vram_mm d, dev_log (DevWarn WARN_alloc_mm_vram_mm) d)) /\
  (vram_mm d = NULL -> mm_kzalloc o = NULL ->
     fst r = ERR_PTR (- ENOMEM) /\ vram_mm (snd r) = NULL /\
     dev_dmesg (snd r) = dev_dmesg d ++ [DevCall kzalloc_call]) /\
  (vram_mm d = NULL -> mm_kzalloc o <> NULL -> device_init_ret o <> 0 ->
     fst r = ERR_PTR (device_init_ret o) /\ vram_mm (snd r) = NULL /\
     dev_dmesg (snd r) =
       dev_dmesg d ++ [DevCall kzalloc_call; DevCall ttm_bo_device_init_call;
                       DevCall (kfree_call (mm_kzalloc o))]) /\
  (vram_mm d = NULL -> mm_kzalloc o <> NULL -> device_init_ret o = 0 ->
   init_mm_ret o <> 0 ->
     fst r = ERR_PTR (init_mm_ret o) /\ vram_mm (snd r) = NULL /\
     dev_dmesg (snd r) =
       dev_dmesg d ++ [DevCall kzalloc_call; DevCall ttm_bo_device_init_call;
                       DevCall (ttm_bo_init_mm_call TTM_PL_VRAM
                                  (Z.shiftr size PAGE_SHIFT));
                       DevCall (kfree_call (mm_kzalloc o))]) /\
  (vram_mm d = NULL -> mm_kzalloc o <> NULL -> device_init_ret o = 0 ->
   init_mm_ret o = 0 ->
     fst r = mm_kzalloc o /\ vram_mm (snd r) = mm_kzalloc o /\
     vram_mm_obj (snd r) = {| vram_base := base; vram_size := size |} /\
     dev_dmesg (snd r) =
       dev_dmesg d ++ [DevCall kzalloc_call; DevCall ttm_bo_device_init_call;
                       DevCall (ttm_bo_init_mm_call TTM_PL_VRAM
                                  (Z.shiftr size PAGE_SHIFT))]).
Proof.
  cbv zeta. unfold drm_vram_helper_alloc_mm, drm_vram_mm_init. cbv zeta.
  split; [| split; [| split; [| split]]].
  - intros H. apply truthy_true in H. rewrite H. reflexivity.
  - intros H Hk. rewrite H. cbn [truthy Z.eqb negb NULL]. cbn.
    rewrite Hk. cbn. auto.
  - intros H Hk Hr. rewrite H. cbn [truthy Z.eqb negb NULL].
    apply truthy_true in Hk. apply truthy_true in Hr.
    repeat (progress (rewrite ?Hk, ?Hr; cbn)).
    rewrite <- ?app_assoc. auto.
  - intros H Hk Hr Hi. rewrite H. cbn [truthy Z.eqb negb NULL].
    apply truthy_true in Hk. apply truthy_false in Hr. apply truthy_true in Hi.
    repeat (progress (rewrite ?Hk, ?Hr, ?Hi; cbn)).
    rewrite <- ?app_assoc. auto.
  - intros H Hk Hr Hi. rewrite H. cbn [truthy Z.eqb negb NULL].
    apply truthy_true in Hk. apply truthy_false in Hr. apply truthy_false in Hi.
    repeat (progress (rewrite ?Hk, ?Hr, ?Hi; cbn)).
    rewrite <- ?app_assoc. auto.
Qed.

(** X20: [drm_vram_helper_release_mm] on a device without manager does
    nothing.  On a device with one it releases the TTM device, frees the
    manager and clears the pointer, so releasing twice is the same as
    releasing once. *)
Theorem release_mm_result (d : drm_device) :
  (vram_mm d = NULL -> drm_vram_helper_release_mm d = d) /\
  (vram_mm d <> NULL ->
     vram_mm (drm_vram_helper_release_mm d) = NULL /\
     dev_dmesg (drm_vram_helper_release_mm d) =
       dev_dmesg d ++ [DevCall ttm_bo_device_release_call;
                       DevCall (kfree_call (vram_mm d))]) /\
  drm_vram_helper_release_mm (drm_vram_helper_release_mm d)
    = drm_vram_helper_release_mm d.
Proof.
  unfold drm_vram_helper_release_mm, drm_vram_mm_cleanup.
  destruct (truthy (vram_mm d)) eqn:E; cbn [negb].
  - apply truthy_true in E. split; [| split].
    + intros Hn. unfold NULL in Hn. contradiction.
    + intros _. cbn. rewrite <- app_assoc. auto.
    + reflexivity.
  - rewrite E. cbn [negb]. apply truthy_false in E. split; [| split].
    + reflexivity.
    + intros Hn. unfold NULL in Hn. contradiction.
    + reflexivity.
Qed.

Lemma no_manager_refused (co : create_outcome) (ho : handle_outcome)
    (args : drm_mode_create_dumb) (mmap_ret : Z) (d : drm_device) :
  vram_mm d = NULL ->
  fst (drm_gem_vram_driver_dumb_create co ho args d) = (- EINVAL, args) /\
  fst (drm_vram_mm_file_operations_mmap mmap_ret d) = - EINVAL /\
  vram_mm (snd (drm_gem_vram_driver_dumb_create co ho args d)) = NULL /\
  vram_mm (snd (drm_vram_mm_file_operations_mmap mmap_ret d)) = NULL.
Proof.
  intros H.
  unfold drm_gem_vram_driver_dumb_create, drm_vram_mm_file_operations_mmap,
    dev_warn_once.
  cbv zeta. rewrite H. cbn [truthy Z.eqb negb NULL fst snd andb].
  repeat split; destruct (negb _); cbn; auto.
Qed.

Lemma alloc_mm_succeeds (o : mm_outcome) (base size : Z) (d : drm_device) :
  vram_mm d = NULL ->
  mm_kzalloc o <> NULL -> device_init_ret o = 0 -> init_mm_ret o = 0 ->
  vram_mm (snd (drm_vram_helper_alloc_mm o base size d)) = mm_kzalloc o.
Proof.
  intros H Hk Hr Hi.
  unfold drm_vram_helper_alloc_mm, drm_vram_mm_init. cbv zeta.
  rewrite H. cbn [truthy Z.eqb negb NULL].
  apply truthy_true in Hk. apply truthy_false in Hr. apply truthy_false in Hi.
  repeat (progress (rewrite ?Hk, ?Hr, ?Hi; cbn)).
  reflexivity.
Qed.

Lemma manager_serves (co : create_outcome) (ho : handle_outcome)
    (args : drm_mode_create_dumb) (mmap_ret : Z) (d : drm_device) :
  vram_mm d <> NULL ->
  drm_gem_vram_driver_dumb_create co ho args d
    = (drm_gem_vram_fill_create_dumb co ho 0 false args, d) /\
  drm_vram_mm_file_operations_mmap mmap_ret d
    = (mmap_ret, dev_log (DevCall ttm_bo_mmap_call) d).
Proof.
  intros H. apply truthy_true in H.
  unfold drm_gem_vram_driver_dumb_create, drm_vram_mm_file_operations_mmap,
    dev_warn_once, drm_vram_mm_mmap. cbv zeta. rewrite H. cbn. auto.
Qed.

(** On a device without manager a second refused call adds nothing to the
    log: the warnings are given once. *)
Lemma refusal_logged_once (co : create_outcome) (ho : handle_outcome)
    (args : drm_mode_create_dumb) (mmap_ret : Z) (d : drm_device) :
  vram_mm d = NULL ->
  snd (drm_vram_mm_file_operations_mmap mmap_ret
         (snd (drm_vram_mm_file_operations_mmap mmap_ret d)))
    = snd (drm_vram_mm_file_operations_mmap mmap_ret d) /\
  snd (drm_gem_vram_driver_dumb_create co ho args
         (snd (drm_gem_vram_driver_dumb_create co ho args d)))
    = snd (drm_gem_vram_driver_dumb_create co ho args d).
Proof.
  intros H. split.
  - unfold drm_vram_mm_file_operations_mmap, dev_warn_once. cbv zeta.
    rewrite H. cbn [truthy Z.eqb negb NULL fst snd andb].
    destruct (dev_warned WARN_mmap_vram_mm (dev_dmesg d)) eqn:W; cbn [negb snd vram_mm].
    + rewrite H. cbn. rewrite W. reflexivity.
    + cbn. unfold dev_warned. rewrite H, existsb_app. cbn. rewrite orb_true_r.
      reflexivity.
  - unfold drm_gem_vram_driver_dumb_create, dev_warn_once. cbv zeta.
    rewrite H. cbn [truthy Z.eqb negb NULL fst snd andb].
    destruct (dev_warned WARN_dumb_create_vram_mm (dev_dmesg d)) eqn:W;
      cbn [negb snd vram_mm].
    + rewrite H. cbn. rewrite W. reflexivity.
    + cbn. unfold dev_warned. rewrite H, existsb_app. cbn. rewrite orb_true_r.
      reflexivity.
Qed.

(** X21: dumb-buffer creation and mmap go through only on a device that has
    a memory manager.  Without one, both return [-EINVAL], the creation
    leaves its arguments alone, and a repeated call of either logs nothing
    more than the first; that is the case before any setup, after a setup
    that failed and after [drm_vram_helper_release_mm].  With a manager,
    and so after a setup that succeeded, the creation returns what
    [drm_gem_vram_fill_create_dumb] returns and leaves the device as it is,
    and mmap returns what [ttm_bo_mmap] returns. *)
Theorem device_calls_need_manager
    (co : create_outcome) (ho : handle_outcome) (args : drm_mode_create_dumb)
    (mmap_ret : Z) (d : drm_device) :
  (vram_mm d = NULL ->
     fst (drm_gem_vram_driver_dumb_create co ho args d) = (- EINVAL, args) /\
     fst (drm_vram_mm_file_operations_mmap mmap_ret d) = - EINVAL /\
     snd (drm_vram_mm_file_operations_mmap mmap_ret
            (snd (drm_vram_mm_file_operations_mmap mmap_ret d)))
       = snd (drm_vram_mm_file_operations_mmap mmap_ret d) /\
     snd (drm_gem_vram_driver_dumb_create co ho args
            (snd (drm_gem_vram_driver_dumb_create co ho args d)))
       = snd (drm_gem_vram_driver_dumb_create co ho args d)) /\
  (vram_mm d <> NULL ->
     drm_gem_vram_driver_dumb_create co ho args d
       = (drm_gem_vram_fill_create_dumb co ho 0 false args, d) /\
     drm_vram_mm_file_operations_mmap mmap_ret d
       = (mmap_ret, dev_log (DevCall ttm_bo_mmap_call) d)) /\
  fst (drm_vram_mm_file_operations_mmap mmap_ret (drm_vram_helper_release_mm d))
    = - EINVAL /\
  fst (drm_gem_vram_driver_dumb_create co ho args (drm_vram_helper_release_mm d))
    = (- EINVAL, args) /\
  (forall (o : mm_outcome) (base size : Z),
     vram_mm d = NULL ->
     mm_kzalloc o = NULL \/ device_init_ret o <> 0 \/ init_mm_ret o <> 0 ->
     fst (drm_vram_mm_file_operations_mmap mmap_ret
            (snd (drm_vram_helper_alloc_mm o base size d))) = - EINVAL /\
     fst (drm_gem_vram_driver_dumb_create co ho args
            (snd (drm_vram_helper_alloc_mm o base size d))) = (- EINVAL, args)) /\
  (forall (o : mm_outcome) (base size : Z),
     vram_mm d = NULL ->
     mm_kzalloc o <> NULL -> device_init_ret o = 0 -> init_mm_ret o = 0 ->
     fst (drm_vram_mm_file_operations_mmap mmap_ret
            (snd (drm_vram_helper_alloc_mm o base size d))) = mmap_ret /\
     drm_gem_vram_driver_dumb_create co ho args
       (snd (drm_vram_helper_alloc_mm o base size d))
     = (drm_gem_vram_fill_create_dumb co ho 0 false args,
        snd (drm_vram_helper_alloc_mm o base size d))).
Proof.
  assert (Hrel : vram_mm (drm_vram_helper_release_mm d) = NULL).
  { unfold drm_vram_helper_release_mm, drm_vram_mm_cleanup.
    destruct (truthy (vram_mm d)) eqn:E; cbn [negb]; tests; [reflexivity | exact E]. }
  split; [| split; [| split; [| split; [| split]]]].
  - intros H. destruct (no_manager_refused co ho args mmap_ret d H) as (A & B & _).
    destruct (refusal_logged_once co ho args mmap_ret d H) as (C & D).
    repeat split; assumption.
  - exact (manager_serves co ho args mmap_ret d).
  - apply (no_manager_refused co ho args mmap_ret _ Hrel).
  - apply (no_manager_refused co ho args mmap_ret _ Hrel).
  - intros o base size H Hfail.
    destruct (no_manager_refused co ho args mmap_ret _
                (alloc_mm_fails o base size d H Hfail)) as (A & B & _).
    split; assumption.
  - intros o base size H Hk Hr Hi.
    assert (Hmm : vram_mm (snd (drm_vram_helper_alloc_mm o base size d)) <> NULL).
    { rewrite (alloc_mm_succeeds o base size d H Hk Hr Hi). exact Hk. }
    destruct (manager_serves co ho args mmap_ret _ Hmm) as (A & B).
    split; [rewrite B; reflexivity | exact A].
Qed.

End mm_properties.

(** ** Power management of the GT *)

Lemma engine_gets_app (id : nat) (a b : list gt_event) :
  engine_gets id (a ++ b) = (engine_gets id a + engine_gets id b)%nat.
Proof. unfold engine_gets. now rewrite filter_app, length_app. Qed.

Lemma engine_puts_app (id : nat) (a b : list gt_event) :
  engine_puts id (a ++ b) = (engine_puts id a + engine_puts id b)%nat.
Proof. unfold engine_puts. now rewrite filter_app, length_app. Qed.

Section gt_pm_properties.

Context {cfg : i915_config}.

(** The events of one pass of the loop of [intel_gt_resume] over an engine
    take and release that engine's wakeref once, and no other. *)
Lemma resume_pass_balanced (id i : nat) (ctx tail : list gt_event)
    (Hctx : ctx = [] \/ ctx = [context_reset_call i])
    (Htail : tail = [] \/ exists err, tail = [dev_err_restart i err]) :
  engine_gets id ([intel_engine_pm_get_call i] ++ ctx ++
                  [engine_resume_call i; intel_engine_pm_put_call i] ++ tail)
  = engine_puts id ([intel_engine_pm_get_call i] ++ ctx ++
                  [engine_resume_call i; intel_engine_pm_put_call i] ++ tail).
Proof.
  destruct Hctx as [-> | ->]; destruct Htail as [-> | (err & ->)];
    unfold engine_gets, engine_puts; cbn; destruct (Nat.eqb i id); reflexivity.
Qed.

Lemma resume_engines_ok (es : list intel_engine_cs) :
  forall log,
    (CONFIG_DRM_I915_DEBUG_GEM = true ->
     Forall (fun e => kernel_context e <> Some false) (resumed es)) ->
    exists mid,
      resume_engines es 0 log
      = Some (first_error es,
              map serial_incr (resumed es) ++ skipn (length (resumed es)) es,
              log ++ mid)
      /\ (forall id, engine_gets id mid = engine_puts id mid)
      /\ ~ In intel_gt_pm_get_call mid
      /\ ~ In intel_gt_pm_put_call mid.
Proof.
  induction es as [| e rest IH]; intros log Hpin.
  - exists []. cbn. rewrite app_nil_r. repeat split; auto.
  - assert (Hctx : exists ctx,
               (ctx = [] \/ ctx = [context_reset_call (engine_id e)]) /\
               match kernel_context e with
               | Some pinned =>
                   if GEM_BUG_ON (negb pinned) then None
                   else Some ((log ++ [intel_engine_pm_get_call (engine_id e)])
                              ++ [context_reset_call (engine_id e)])
               | None => Some (log ++ [intel_engine_pm_get_call (engine_id e)])
               end
               = Some ((log ++ [intel_engine_pm_get_call (engine_id e)]) ++ ctx)).
    { destruct (kernel_context e) as [pinned |] eqn:Hk.
      - exists [context_reset_call (engine_id e)]. split; [now right |].
        unfold GEM_BUG_ON.
        destruct CONFIG_DRM_I915_DEBUG_GEM eqn:Hcfg; [| reflexivity].
        destruct pinned; [reflexivity |].
        specialize (Hpin eq_refl). cbn in Hpin.
        assert (He : kernel_context e <> Some false).
        { destruct (truthy (resume e)); inversion Hpin; assumption. }
        congruence.
      - exists []. split; [now left |]. now rewrite app_nil_r. }
    destruct Hctx as (ctx & Hshape & Hctx).
    cbn [resume_engines]. cbv zeta. rewrite Hctx.
    change (resume (serial_incr e)) with (resume e).
    cbn [resumed first_error].
    destruct (truthy (resume e)) eqn:Herr.
    + exists ([intel_engine_pm_get_call (engine_id e)] ++ ctx ++
              [engine_resume_call (engine_id e);
               intel_engine_pm_put_call (engine_id e)] ++
              [dev_err_restart (engine_id e) (resume e)]).
      split; [| split; [| split]].
      * cbn [map length skipn app]. rewrite <- !app_assoc. reflexivity.
      * intro id. apply resume_pass_balanced; [exact Hshape | right; eauto].
      * destruct Hshape as [-> | ->]; cbn; intuition discriminate.
      * destruct Hshape as [-> | ->]; cbn; intuition discriminate.
    + apply truthy_false in Herr.
      assert (Hrest : CONFIG_DRM_I915_DEBUG_GEM = true ->
                      Forall (fun e => kernel_context e <> Some false) (resumed rest)).
      { intro Hcfg. specialize (Hpin Hcfg). cbn in Hpin.
        assert (Ht : truthy (resume e) = false) by now apply truthy_false.
        rewrite Ht in Hpin. now inversion Hpin. }
      rewrite Herr.
      destruct (IH ((((log ++ [intel_engine_pm_get_call (engine_id e)]) ++ ctx)
                       ++ [engine_resume_call (engine_id e)])
                       ++ [intel_engine_pm_put_call (engine_id e)]) Hrest)
        as (mid & Hrun & Hbal & Hget & Hput).
      rewrite Hrun.
      exists (([intel_engine_pm_get_call (engine_id e)] ++ ctx ++
               [engine_resume_call (engine_id e);
                intel_engine_pm_put_call (engine_id e)] ++ []) ++ mid).
      split; [| split; [| split]].
      * cbn [map length skipn app]. rewrite <- !app_assoc. reflexivity.
      * intro id. rewrite engine_gets_app, engine_puts_app, Hbal.
        f_equal. apply resume_pass_balanced; [exact Hshape | now left].
      * rewrite in_app_iff. intros [H | H]; [| now apply Hget].
        destruct Hshape as [-> | ->]; cbn in H; intuition discriminate.
      * rewrite in_app_iff. intros [H | H]; [| now apply Hput].
        destruct Hshape as [-> | ->]; cbn in H; intuition discriminate.
Qed.

Lemma resume_engines_bug (es : list intel_engine_cs) :
  forall log,
    resume_engines es 0 log = None <->
    CONFIG_DRM_I915_DEBUG_GEM = true /\
    Exists (fun e => kernel_context e = Some false) (resumed es).
Proof.
  induction es as [| e rest IH]; intro log.
  - cbn. split; [discriminate |]. intros (_ & H). inversion H.
  - cbn [resume_engines resumed]. cbv zeta.
    change (resume (serial_incr e)) with (resume e).
    destruct (Bool.bool_dec CONFIG_DRM_I915_DEBUG_GEM true) as [Hcfg | Hcfg];
      [destruct (kernel_context e) as [[|] |] eqn:Hk |].
    4: { apply not_true_is_false in Hcfg. unfold GEM_BUG_ON. rewrite Hcfg.
         cbn [andb].
         assert (Hsome : forall (A : Type) (x : option A),
                    x = None <-> true = true /\ x = None) by (intros; tauto).
         destruct (kernel_context e) as [pinned |];
           (destruct (truthy (resume e)) eqn:Herr;
            [ split; [discriminate | intros (Hc & _); discriminate Hc]
            | apply truthy_false in Herr; rewrite Herr;
              match goal with
              | |- context [resume_engines rest 0 ?l] =>
                  specialize (IH l);
                  destruct (resume_engines rest 0 l) as [[[err' rest'] log'] |]
              end;
              (split; [intro H; try discriminate H; apply IH in H;
                       destruct H as (Hc & _); congruence
                      | intros (Hc & _); discriminate Hc]) ]). }
    + (* a pinned kernel context *)
      unfold GEM_BUG_ON. cbn [negb]. rewrite andb_false_r.
      destruct (truthy (resume e)) eqn:Herr.
      * split; [discriminate |]. intros (_ & Hex).
        inversion Hex as [? ? Hh | ? ? Ht]; subst; [congruence | inversion Ht].
      * apply truthy_false in Herr. rewrite Herr.
        match goal with
        | |- context [resume_engines rest 0 ?l] =>
            specialize (IH l);
            destruct (resume_engines rest 0 l) as [[[err' rest'] log'] |]
        end.
        -- split; [discriminate |]. intros (Hc & Hex).
           inversion Hex as [? ? Hh | ? ? Ht]; subst; [congruence |].
           assert (Hnone : Some (err', rest', log') = None) by (apply IH; now split).
           discriminate Hnone.
        -- split; [| reflexivity]. intros _.
           destruct (proj1 IH eq_refl) as (Hc & Hex).
           split; [assumption | now apply Exists_cons_tl].
    + (* an unpinned kernel context *)
      unfold GEM_BUG_ON. rewrite Hcfg. cbn [negb andb].
      split; [| reflexivity]. intros _. split; [reflexivity |].
      destruct (truthy (resume e)); now apply Exists_cons_hd.
    + (* no kernel context *)
      destruct (truthy (resume e)) eqn:Herr.
      * split; [discriminate |]. intros (_ & Hex).
        inversion Hex as [? ? Hh | ? ? Ht]; subst; [congruence | inversion Ht].
      * apply truthy_false in Herr. rewrite Herr.
        match goal with
        | |- context [resume_engines rest 0 ?l] =>
            specialize (IH l);
            destruct (resume_engines rest 0 l) as [[[err' rest'] log'] |]
        end.
        -- split; [discriminate |]. intros (Hc & Hex).
           inversion Hex as [? ? Hh | ? ? Ht]; subst; [congruence |].
           assert (Hnone : Some (err', rest', log') = None) by (apply IH; now split).
           discriminate Hnone.
        -- split; [| reflexivity]. intros _.
           destruct (proj1 IH eq_refl) as (Hc & Hex).
           split; [assumption | now apply Exists_cons_tl].
Qed.

(** X22: Where no [GEM_BUG_ON] stands in the way (the checks are compiled
    out, or no engine the loop gets to has an unpinned kernel context),
    [intel_gt_resume] returns the error of the first engine whose [resume]
    fails, or 0 if none does; it increments the serial of exactly the engines
    up to and including that one and leaves the later ones untouched; and its
    calls are bracketed by one [intel_gt_pm_get] and one [intel_gt_pm_put],
    between which every engine's wakeref is released as often as it is
    taken, also on the error path. *)
Theorem gt_resume_result (gt : intel_gt) (log : list gt_event)
    (Hpinned : CONFIG_DRM_I915_DEBUG_GEM = true ->
               Forall (fun e => kernel_context e <> Some false)
                      (resumed (engines gt))) :
  exists mid,
    intel_gt_resume gt log
    = Some (first_error (engines gt),
            set_engines (map serial_incr (resumed (engines gt)) ++
                         skipn (length (resumed (engines gt))) (engines gt)) gt,
            log ++ [intel_gt_pm_get_call] ++ mid ++ [intel_gt_pm_put_call])
    /\ (forall id, engine_gets id mid = engine_puts id mid)
    /\ ~ In intel_gt_pm_get_call mid
    /\ ~ In intel_gt_pm_put_call mid.
Proof.
  destruct (resume_engines_ok (engines gt) (log ++ [intel_gt_pm_get_call]) Hpinned)
    as (mid & Hrun & Hbal & Hget & Hput).
  exists mid. unfold intel_gt_resume. cbv zeta. rewrite Hrun.
  repeat split; try assumption.
  rewrite <- !app_assoc. reflexivity.
Qed.

(** X23: [intel_gt_resume] runs into [BUG()] exactly when [GEM_BUG_ON] is
    compiled in and one of the engines the loop gets to (those up to and
    including the first whose [resume] fails) has a kernel context that is
    not pinned.  An engine without kernel context, and an unpinned context
    behind a failed engine, do no harm. *)
Theorem gt_resume_bug_iff (gt : intel_gt) (log : list gt_event) :
  intel_gt_resume gt log = None <->
  CONFIG_DRM_I915_DEBUG_GEM = true /\
  Exists (fun e => kernel_context e = Some false) (resumed (engines gt)).
Proof.
  rewrite <- (resume_engines_bug (engines gt) (log ++ [intel_gt_pm_get_call])).
  unfold intel_gt_resume. cbv zeta.
  destruct (resume_engines (engines gt) 0 (log ++ [intel_gt_pm_get_call]))
    as [[[err es] log'] |]; split; congruence.
Qed.

(** X24: [intel_gt_sanitize] always sanitizes the microcontrollers first.
    It attempts the full GPU reset exactly when that reset does not clobber
    the display, and it resets the state of the engines, all of them and no
    other, exactly when [force] is set or the full reset was attempted and
    succeeded. *)
Theorem gt_sanitize_resets (reset_ret : Z) (force : bool) (gt : intel_gt)
    (log : list gt_event) :
  exists new,
    intel_gt_sanitize reset_ret force gt log = log ++ intel_uc_sanitize_call :: new
    /\ (In intel_gt_reset_call new <-> gpu_reset_clobbers_display gt = false)
    /\ (forall id,
          In (intel_engine_reset_call id) new <->
          In id (map engine_id (engines gt)) /\
          (force = true \/
           (gpu_reset_clobbers_display gt = false /\ reset_ret = 0))).
Proof.
  assert (Hmap : forall id,
             In (intel_engine_reset_call id)
                (map (fun e => intel_engine_reset_call (engine_id e)) (engines gt))
             <-> In id (map engine_id (engines gt))).
  { intro id. rewrite !in_map_iff. split; intros (e & He & Hin); exists e;
      split; congruence || assumption. }
  assert (Hno : ~ In intel_gt_reset_call
                   (map (fun e => intel_engine_reset_call (engine_id e)) (engines gt))).
  { rewrite in_map_iff. intros (e & He & _). discriminate. }
  unfold intel_gt_sanitize, reset_engines. cbv zeta.
  destruct (gpu_reset_clobbers_display gt); cbn [fst snd negb andb].
  - destruct force; cbn [negb].
    + eexists. split; [rewrite <- app_assoc; reflexivity |]. split.
      * split; [intro H; now apply Hno in H | discriminate].
      * intro id. rewrite Hmap. intuition.
    + exists []. split; [reflexivity |]. split.
      * split; [intros [] | discriminate].
      * intro id. split; [intros [] |]. intros (_ & [H | (H & _)]); discriminate.
  - destruct (reset_ret =? 0) eqn:Hret; cbn [negb andb].
    + apply Z.eqb_eq in Hret.
      eexists. split; [rewrite <- !app_assoc; reflexivity |]. split.
      * split; [reflexivity | intros _; now left].
      * intro id. cbn [In app]. rewrite Hmap. split.
        -- intros [H | H]; [discriminate |]. split; [assumption | now right].
        -- intros (H & _). now right.
    + apply Z.eqb_neq in Hret. destruct force; cbn [negb].
      * eexists. split; [rewrite <- !app_assoc; reflexivity |]. split.
        -- split; [reflexivity | intros _; now left].
        -- intro id. cbn [In app]. rewrite Hmap. split.
           ++ intros [H | H]; [discriminate |]. split; [assumption | now left].
           ++ intros (H & _). now right.
      * exists [intel_gt_reset_call]. split; [rewrite <- app_assoc; reflexivity |].
        split.
        -- split; [reflexivity | intros _; now left].
        -- intro id. cbn [In]. split.
           ++ intros [H | []]. discriminate.
           ++ intros (_ & [H | (_ & H)]); [discriminate | contradiction].
Qed.

Lemma pm_enable_engines_ok (es : list intel_engine_cs) :
  forall log,
    exists mid,
      pm_enable_engines es log = (map serial_incr es, log ++ mid)
      /\ (forall id, engine_gets id mid = engine_puts id mid)
      /\ ~ In intel_gt_pm_get_call mid
      /\ ~ In intel_gt_pm_put_call mid.
Proof.
  induction es as [| e rest IH]; intro log.
  - exists []. cbn. rewrite app_nil_r. repeat split; auto.
  - cbn [pm_enable_engines]. cbv zeta.
    change (engine_id (serial_incr e)) with (engine_id e).
    destruct (IH ((log ++ [intel_engine_pm_get_call (engine_id e)])
                    ++ [intel_engine_pm_put_call (engine_id e)]))
      as (mid & Hrun & Hbal & Hget & Hput).
    rewrite Hrun. cbn [fst snd map].
    exists ([intel_engine_pm_get_call (engine_id e);
             intel_engine_pm_put_call (engine_id e)] ++ mid).
    split; [| split; [| split]].
    + rewrite <- !app_assoc. reflexivity.
    + intro id. rewrite engine_gets_app, engine_puts_app, Hbal. f_equal.
      unfold engine_gets, engine_puts. cbn.
      destruct (Nat.eqb (engine_id e) id); reflexivity.
    + rewrite in_app_iff. intros [H | H]; [| now apply Hget].
      cbn in H. intuition discriminate.
    + rewrite in_app_iff. intros [H | H]; [| now apply Hput].
      cbn in H. intuition discriminate.
Qed.

(** X25: Inside a VM, and on the mock device of the selftests,
    [intel_gt_pm_enable] does nothing.  Otherwise it increments the serial
    of every engine, between one [intel_gt_pm_get] and one
    [intel_gt_pm_put], and releases every engine's wakeref as often as it
    takes it. *)
Theorem gt_pm_enable_result (gt : intel_gt) (log : list gt_event) :
  (vgpu_active gt = true \/ is_mock_device gt = true ->
   intel_gt_pm_enable gt log = (gt, log))
  /\
  (vgpu_active gt = false -> is_mock_device gt = false ->
   exists mid,
     intel_gt_pm_enable gt log
     = (set_engines (map serial_incr (engines gt)) gt,
        log ++ [intel_gt_pm_get_call] ++ mid ++ [intel_gt_pm_put_call])
     /\ (forall id, engine_gets id mid = engine_puts id mid)
     /\ ~ In intel_gt_pm_get_call mid
     /\ ~ In intel_gt_pm_put_call mid).
Proof.
  unfold intel_gt_pm_enable. cbv zeta. split.
  - intros [-> | H]; [reflexivity |]. rewrite H. now destruct (vgpu_active gt).
  - intros -> ->.
    destruct (pm_enable_engines_ok (engines gt) (log ++ [intel_gt_pm_get_call]))
      as (mid & Hrun & Hbal & Hget & Hput).
    exists mid. rewrite Hrun. cbn [fst snd].
    repeat split; try assumption.
    rewrite <- !app_assoc. reflexivity.
Qed.

(** X26: Parking undoes unparking: when [intel_display_power_get] hands out
    a wakeref that is not 0, [__gt_unpark] stores it in [gt->awake] and
    [__gt_park] hands that very wakeref back with
    [intel_display_power_put], leaving [awake]
    at 0 and the rest of the GT as it was; in between, the notifier chain
    has seen [INTEL_GT_UNPARK] and [INTEL_GT_PARK] and no other power
    reference was taken or dropped.  Parking a GT that is already parked
    runs into [BUG()] when [GEM_BUG_ON] is compiled in. *)
Theorem gt_unpark_park_round_trip (wakeref : Z) (gt : intel_gt)
    (log : list gt_event) (Hwakeref : wakeref <> 0) :
  exists gt1 log1 mid,
    __gt_unpark wakeref gt log = Some (0, gt1, log1)
    /\ awake gt1 = wakeref
    /\ __gt_park gt1 log1
       = Some (0, set_awake 0 gt,
               log ++ [intel_display_power_get_call] ++ mid ++
               [intel_display_power_put_call wakeref])
    /\ In (pm_notify_call INTEL_GT_UNPARK) mid
    /\ In (pm_notify_call INTEL_GT_PARK) mid
    /\ ~ In intel_display_power_get_call mid
    /\ (forall w, ~ In (intel_display_power_put_call w) mid)
    /\ (CONFIG_DRM_I915_DEBUG_GEM = true ->
        forall log', __gt_park (set_awake 0 gt) log' = None).
Proof.
  assert (Ht : truthy wakeref = true) by now apply truthy_true.
  unfold __gt_unpark, __gt_park, GEM_BUG_ON. cbv zeta.
  cbn [awake set_awake gen]. rewrite Ht. cbn [negb]. rewrite andb_false_r.
  do 2 eexists.
  exists ([intel_enable_gt_powersave_call; i915_update_gfx_val_call] ++
          (if gen gt >=? 6 then [gen6_rps_busy_call] else []) ++
          [i915_pmu_gt_unparked_call; intel_gt_queue_hangcheck_call;
           pm_notify_call INTEL_GT_UNPARK; pm_notify_call INTEL_GT_PARK;
           i915_pmu_gt_parked_call] ++
          (if gen gt >=? 6 then [gen6_rps_idle_call] else []) ++
          [intel_synchronize_irq_call]).
  split; [reflexivity |]. split; [reflexivity |].
  cbn [awake set_awake gen engines gpu_reset_clobbers_display vgpu_active].
  rewrite Ht. cbn [negb]. rewrite andb_false_r.
  split; [| split; [| split; [| split; [| split]]]].
  - f_equal. f_equal.
    destruct (gen gt >=? 6); rewrite <- ?app_assoc; cbn [app];
      rewrite <- ?app_assoc; reflexivity.
  - destruct (gen gt >=? 6); cbn; tauto.
  - destruct (gen gt >=? 6); cbn; tauto.
  - destruct (gen gt >=? 6); cbn; intuition discriminate.
  - intro w. destruct (gen gt >=? 6); cbn; intuition discriminate.
  - intros -> log'. reflexivity.
Qed.

End gt_pm_properties.

(** ** The theorems at concrete inputs *)

Lemma pin_reentrant_witness :
  pin_count (gbo pinned_once) > 0 /\
  drm_gem_vram_pin_locked (hdr := linux_x86_64) validate_fail 4 pinned_once =
    (0, {| gbo := set_pin_count 2 zeroed_gbo; dmesg := [] |}).
Proof.
  assert (H : pin_count (gbo pinned_once) > 0) by (cbn; lia).
  split; [exact H |].
  exact (proj1 (@pin_reentrant linux_x86_64 pinned_once validate_fail 4 H)).
Defined.


Lemma pin_count_never_negative_witness :
  0 <= pin_count (gbo (run (hdr := linux_x86_64)
                         (firstn 3 [op_pin 0 validate_stay 4; op_unpin 0 validate_stay;
                                    op_unpin 0 validate_stay; op_pin 0 validate_fail 0])
                         fresh)) /\
  gbo (snd (drm_gem_vram_unpin_locked (hdr := linux_x86_64) validate_stay fresh))
    = gbo fresh.
Proof.
  destruct (@pin_count_never_negative linux_x86_64) as (Hseq & _ & Hzero).
  split.
  - apply Hseq. cbn. lia.
  - apply (Hzero fresh validate_stay). reflexivity.
Defined.

Lemma kmap_cache_invariant_witness :
  kmap_inv (gbo (run (hdr := linux_x86_64)
                   (firstn 2 [op_kmap 0 kmap_ok true None; op_evict 0 0; op_kunmap 0])
                   fresh)).
Proof.
  destruct (@kmap_cache_invariant linux_x86_64) as (Hseq & _).
  apply Hseq. unfold kmap_inv. cbn. lia.
Defined.

Lemma kunmap_defers_release_to_move_notify_witness :
  (kmap_use_count (gbo (snd (drm_gem_vram_kunmap_locked mapped_once))) = 0 /\
   dmesg (snd (drm_gem_vram_kunmap_locked mapped_once)) = dmesg mapped_once) /\
  virtual (kmap (gbo (snd (drm_gem_vram_bo_driver_move_notify stale)))) = NULL /\
  gbo (snd (drm_gem_vram_bo_driver_move_notify mapped_once)) = gbo mapped_once /\
  kmap (gbo (run_op (hdr := linux_x86_64) (op_pin 0 validate_stay 4) stale))
    = kmap (gbo stale).
Proof.
  destruct (@kunmap_defers_release_to_move_notify linux_x86_64 mapped_once)
    as (_ & _ & Hunmap & _ & Hbusy & _).
  destruct (@kunmap_defers_release_to_move_notify linux_x86_64 stale)
    as (_ & _ & _ & Hidle & _ & Honly).
  split; [apply Hunmap; reflexivity |].
  split; [apply Hidle; [reflexivity | cbn; unfold NULL; lia] |].
  split; [apply Hbusy; cbn; lia |].
  apply Honly; [reflexivity | cbn; unfold NULL; lia].
Defined.

Lemma vmap_vunmap_round_trip_witness :
  pin_count (gbo (snd (drm_gem_vram_object_vunmap (hdr := linux_x86_64) 0 validate_stay
     (snd (drm_gem_vram_object_vmap (hdr := linux_x86_64)
             0 validate_stay kmap_ok validate_stay fresh))))) = pin_count (gbo fresh) /\
  kmap_use_count (gbo (snd (drm_gem_vram_object_vunmap (hdr := linux_x86_64) 0 validate_stay
     (snd (drm_gem_vram_object_vmap (hdr := linux_x86_64)
             0 validate_stay kmap_ok validate_stay fresh))))) = kmap_use_count (gbo fresh).
Proof.
  assert (Hp : 0 <= pin_count (gbo fresh)) by (cbn; lia).
  assert (Hu : 0 <= kmap_use_count (gbo fresh)) by (cbn; lia).
  assert (Hi : kmap_inv (gbo fresh)) by (unfold kmap_inv; cbn; lia).
  assert (Hr : errno_result 0) by (unfold errno_result, MAX_ERRNO; lia).
  assert (Hv : errno_result (v_ret validate_stay))
    by (unfold errno_result, MAX_ERRNO; cbn; lia).
  pose proof (@vmap_vunmap_round_trip linux_x86_64 fresh 0 validate_stay kmap_ok
                validate_stay validate_stay Hp Hu Hi Hr Hv) as H.
  cbv zeta in H. destruct H as (H & _).
  apply H. reflexivity.
Defined.
Lemma placement_candidates_witness :
  length (placements zeroed_gbo) = 2%nat /\
  num_placement (drm_gem_vram_placement (hdr := linux_x86_64) 4 zeroed_gbo) = 1%nat /\
  nth_error (placements (drm_gem_vram_placement (hdr := linux_x86_64) 4 zeroed_gbo)) 0
    = Some {| fpfn := 0; lpfn := 0; flags := 393220 |}.
Proof.
  assert (Hlen : length (placements zeroed_gbo) = 2%nat) by reflexivity.
  pose proof (@placement_candidates linux_x86_64 4 zeroed_gbo Hlen) as H.
  cbv zeta in H. destruct H as (_ & _ & Hnum & Hlisted & _).
  split; [exact Hlen |]. split; [exact Hnum |].
  apply (Hlisted 0%nat). vm_compute. constructor.
Defined.

Lemma evict_flags_system_only_witness :
  num_placement (gbo (snd (bo_driver_evict_flags (hdr := linux_x86_64) true
                             pinned_once))) = 1%nat /\
  pin_count (gbo (snd (bo_driver_evict_flags (hdr := linux_x86_64) true
                         pinned_once))) = 1.
Proof.
  assert (Hlen : length (placements (gbo pinned_once)) = 2%nat) by reflexivity.
  assert (Hsys : TTM_PL_FLAG_SYSTEM (kernel_headers := linux_x86_64) <> 0)
    by (vm_compute; discriminate).
  assert (Hdisj : Z.land (TTM_PL_FLAG_SYSTEM (kernel_headers := linux_x86_64))
                    (TTM_PL_FLAG_VRAM (kernel_headers := linux_x86_64)) = 0)
    by reflexivity.
  pose proof (@evict_flags_system_only linux_x86_64 pinned_once true Hlen Hsys Hdisj)
    as H.
  cbv zeta in H. destruct H as (_ & H).
  destruct (H eq_refl) as (Hnum & _ & Hpin & _).
  split; [exact Hnum | exact Hpin].
Defined.

Lemma create_result_witness :
  exists s0,
    drm_gem_vram_create (hdr := linux_x86_64) create_ok 4096 0 false
      = (65536, Some s0) /\
    pin_count (gbo s0) = 0 /\ kmap_use_count (gbo s0) = 0 /\
    num_placement (gbo s0) = 2%nat.
Proof.
  assert (Henomem : 0 < ENOMEM (kernel_headers := linux_x86_64)) by (cbn; lia).
  assert (Hvram : TTM_PL_FLAG_VRAM (kernel_headers := linux_x86_64) <> 0)
    by (vm_compute; discriminate).
  assert (Hsys : TTM_PL_FLAG_SYSTEM (kernel_headers := linux_x86_64) <> 0)
    by (vm_compute; discriminate).
  pose proof (@create_result linux_x86_64 create_ok 4096 0 false Henomem Hvram Hsys)
    as H.
  cbv zeta in H. destruct H as (_ & _ & _ & _ & H).
  assert (Hk : kzalloc create_ok <> NULL) by (vm_compute; discriminate).
  destruct (H Hk eq_refl eq_refl) as (s0 & Hr & Hp & Hu & _ & Hn & _).
  exists s0. repeat split; assumption.
Defined.

Lemma pin_marks_no_evict_witness :
  exists p' : ttm_place,
    nth_error (placements (gbo (snd (drm_gem_vram_pin_locked (hdr := linux_x86_64)
                                       validate_stay 4 fresh)))) 0 = Some p' /\
    Z.land (flags p') (TTM_PL_FLAG_NO_EVICT (kernel_headers := linux_x86_64))
      = TTM_PL_FLAG_NO_EVICT (kernel_headers := linux_x86_64).
Proof.
  assert (H0 : pin_count (gbo fresh) = 0) by reflexivity.
  pose proof (@pin_marks_no_evict linux_x86_64 fresh validate_stay 4 H0) as H.
  cbv zeta in H. destruct H as (Hmark & _).
  eexists. split; [reflexivity |].
  apply (Hmark 0%nat); [vm_compute; constructor | reflexivity].
Defined.

Lemma unpin_clears_no_evict_witness :
  exists p' : ttm_place,
    nth_error
      (placements
         (gbo (snd (drm_gem_vram_unpin_locked (hdr := linux_x86_64) validate_stay
                      (snd (drm_gem_vram_pin_locked (hdr := linux_x86_64)
                              validate_stay 4 fresh)))))) 0 = Some p' /\
    Z.land (flags p') (TTM_PL_FLAG_NO_EVICT (kernel_headers := linux_x86_64)) = 0.
Proof.
  assert (H1 : pin_count (gbo (snd (drm_gem_vram_pin_locked (hdr := linux_x86_64)
                                      validate_stay 4 fresh))) = 1) by reflexivity.
  pose proof (@unpin_clears_no_evict linux_x86_64 _ validate_stay H1) as H.
  cbv zeta in H. destruct H as (_ & _ & H).
  destruct (H 0%nat _ eq_refl) as (p' & Hp' & _ & _ & _ & Hclear).
  exists p'. split; [exact Hp' |].
  apply Hclear. vm_compute. constructor.
Defined.

Lemma unpin_nested_and_last_witness :
  drm_gem_vram_unpin_locked (hdr := linux_x86_64) validate_fail pinned_twice
    = (0, pinned_once) /\
  fst (drm_gem_vram_unpin_locked (hdr := linux_x86_64) validate_fail pinned_once)
    = - 12 /\
  pin_count (gbo (snd (drm_gem_vram_unpin_locked (hdr := linux_x86_64) validate_fail
                         pinned_once))) = 0.
Proof.
  destruct (@unpin_nested_and_last linux_x86_64 pinned_twice validate_fail)
    as (Hnested & _).
  destruct (@unpin_nested_and_last linux_x86_64 pinned_once validate_fail)
    as (_ & Hlast).
  split; [apply Hnested; cbn; lia |].
  destruct (Hlast eq_refl) as (Hret & Hcount & _).
  split; [exact Hret | exact Hcount].
Defined.

Lemma nested_pins_are_neutral_witness :
  snd (drm_gem_vram_unpin_locked (hdr := linux_x86_64) validate_fail
    (snd (drm_gem_vram_unpin_locked (hdr := linux_x86_64) validate_stay
      (snd (drm_gem_vram_pin_locked (hdr := linux_x86_64) validate_stay 0
        (snd (drm_gem_vram_pin_locked (hdr := linux_x86_64) validate_fail 4
           pinned_once))))))) = pinned_once.
Proof.
  assert (Hp : pin_count (gbo pinned_once) > 0) by (cbn; lia).
  exact (@nested_pins_are_neutral linux_x86_64
           [(validate_fail, 4); (validate_stay, 0)] [validate_stay; validate_fail]
           pinned_once Hp eq_refl).
Defined.

Lemma offset_after_pin_witness :
  drm_gem_vram_offset (hdr := linux_x86_64)
    (snd (drm_gem_vram_pin_locked (hdr := linux_x86_64) validate_move 4 fresh))
  = (8192, snd (drm_gem_vram_pin_locked (hdr := linux_x86_64) validate_move 4 fresh)) /\
  fst (drm_gem_vram_offset (hdr := linux_x86_64) fresh) = - 19.
Proof.
  assert (Hc : 0 <= pin_count (gbo fresh)) by (cbn; lia).
  assert (He : 0 < ENODEV (kernel_headers := linux_x86_64) <= MAX_ERRNO)
    by (unfold MAX_ERRNO; cbn; lia).
  pose proof (@offset_after_pin linux_x86_64 fresh validate_move 4 Hc He) as H.
  cbv zeta in H. destruct H as (Hpinned & Hunpinned).
  destruct (Hpinned eq_refl) as (Hoff & _ & _).
  split.
  - rewrite Hoff. reflexivity.
  - exact (proj1 (Hunpinned eq_refl)).
Defined.
Lemma kmap_reuses_mapping_witness :
  fst (fst (drm_gem_vram_kmap_locked no_kmap true (Some false)
              (snd (drm_gem_vram_kunmap_locked
                      (snd (drm_gem_vram_kmap_locked kmap_ok true None fresh))))))
    = 4096 /\
  dmesg (snd (drm_gem_vram_kmap_locked no_kmap true (Some false)
                (snd (drm_gem_vram_kunmap_locked
                        (snd (drm_gem_vram_kmap_locked kmap_ok true None fresh))))))
    = [Call ttm_bo_kmap_call].
Proof.
  assert (Haddr : virtual (k_obj kmap_ok) <> NULL) by (vm_compute; discriminate).
  pose proof (@kmap_reuses_mapping fresh kmap_ok no_kmap None (Some false) true
                eq_refl eq_refl eq_refl Haddr) as H.
  cbv zeta in H. destruct H as (_ & _ & _ & _ & Hptr & _ & _ & Hlog).
  split; [exact Hptr | exact Hlog].
Defined.

Lemma kmap_use_count_never_negative_witness :
  0 <= kmap_use_count
         (gbo (run (hdr := linux_x86_64)
                 (firstn 3 [op_kmap 0 kmap_ok true None; op_kunmap 0; op_kunmap 0;
                            op_evict 0 0])
                 fresh)) /\
  gbo (snd (drm_gem_vram_kunmap 0 fresh)) = gbo fresh.
Proof.
  destruct (@kmap_use_count_never_negative linux_x86_64) as (Hseq & _ & Hzero).
  split.
  - apply Hseq. cbn. lia.
  - apply (Hzero fresh). reflexivity.
Defined.

Lemma vmap_failure_keeps_counts_witness :
  fst (drm_gem_vram_object_vmap (hdr := linux_x86_64) 0 validate_stay no_kmap
         validate_stay fresh) = - 12 /\
  pin_count (gbo (snd (drm_gem_vram_object_vmap (hdr := linux_x86_64) 0 validate_stay
                         no_kmap validate_stay fresh))) = 0 /\
  kmap_use_count (gbo (snd (drm_gem_vram_object_vmap (hdr := linux_x86_64) 0
                              validate_stay no_kmap validate_stay fresh))) = 0.
Proof.
  assert (Hp : 0 <= pin_count (gbo fresh)) by (cbn; lia).
  assert (Hu : 0 <= kmap_use_count (gbo fresh)) by (cbn; lia).
  assert (Hi : kmap_inv (gbo fresh)) by (unfold kmap_inv; cbn; lia).
  assert (Hr : errno_result 0) by (unfold errno_result, MAX_ERRNO; lia).
  assert (Hv : errno_result (v_ret validate_stay))
    by (unfold errno_result, MAX_ERRNO; cbn; lia).
  pose proof (@vmap_failure_keeps_counts linux_x86_64 fresh 0 validate_stay no_kmap
                validate_stay Hp Hu Hi Hr Hv eq_refl eq_refl) as H.
  cbv zeta in H. split; [reflexivity |]. apply H. reflexivity.
Defined.

Lemma io_mem_reserve_result_witness :
  bo_driver_io_mem_reserve (hdr := linux_x86_64) (ttm := linux_ttm)
    (fun _ => man_vram) aperture mem_vram
  = (0, set_bus {| bus_addr := NULL; bus_base := aperture; bus_size := 16384;
                   bus_offset := 65536; bus_is_iomem := true |} mem_vram).
Proof.
  pose proof (@io_mem_reserve_result linux_x86_64 linux_ttm (fun _ => man_vram)
                aperture mem_vram) as H.
  cbv zeta in H.
  assert (Hshift : 0 <= PAGE_SHIFT (ttm_headers := linux_ttm)) by (cbn; lia).
  assert (Hpages : 0 <= mem_num_pages mem_vram) by (cbn; lia).
  assert (Hsize : mem_num_pages mem_vram * PAGE_SIZE (kernel_headers := linux_x86_64)
                  < 2 ^ BITS_PER_LONG (kernel_headers := linux_x86_64))
    by (cbn; lia).
  assert (Hstart : 0 <= mem_start mem_vram) by (cbn; lia).
  assert (Hoff : mem_start mem_vram * PAGE_SIZE (kernel_headers := linux_x86_64)
                 < 2 ^ BITS_PER_LONG (kernel_headers := linux_x86_64))
    by (cbn; lia).
  assert (Hbase : 0 <= aperture < 2 ^ PHYS_ADDR_BITS (ttm_headers := linux_ttm))
    by (unfold aperture; cbn; lia).
  assert (Htypes : TTM_PL_SYSTEM (ttm_headers := linux_ttm)
                   <> TTM_PL_VRAM (ttm_headers := linux_ttm))
    by (cbn; lia).
  destruct (H Hshift eq_refl Hpages Hsize Hstart Hoff Hbase Htypes)
    as (_ & _ & Hvram & _).
  apply Hvram; [vm_compute; discriminate | reflexivity].
Defined.

Lemma init_mem_type_then_reserve_witness :
  fst (bo_driver_init_mem_type (hdr := linux_x86_64) (ttm := linux_ttm) 2 man_unset)
    = 0 /\
  snd (bo_driver_init_mem_type (hdr := linux_x86_64) (ttm := linux_ttm) 2 man_unset)
    = man_vram /\
  fst (bo_driver_io_mem_reserve (hdr := linux_x86_64) (ttm := linux_ttm)
         (fun _ => snd (bo_driver_init_mem_type (hdr := linux_x86_64)
                          (ttm := linux_ttm) 2 man_unset))
         aperture mem_vram) = 0.
Proof.
  assert (Heinval : 0 < EINVAL (kernel_headers := linux_x86_64)) by (cbn; lia).
  assert (Htypes : TTM_PL_SYSTEM (ttm_headers := linux_ttm)
                   <> TTM_PL_VRAM (ttm_headers := linux_ttm))
    by (cbn; lia).
  assert (Hmappable : TTM_MEMTYPE_FLAG_MAPPABLE (ttm_headers := linux_ttm) <> 0)
    by (vm_compute; discriminate).
  pose proof (@init_mem_type_then_reserve linux_x86_64 linux_ttm 2 man_unset aperture
                mem_vram Heinval Htypes Hmappable eq_refl) as H.
  cbv zeta in H. destruct H as (Hiff & Hok & _).
  assert (H0 : fst (bo_driver_init_mem_type (hdr := linux_x86_64) (ttm := linux_ttm)
                      2 man_unset) = 0)
    by (apply Hiff; right; reflexivity).
  split; [exact H0 |]. split; [reflexivity |].
  exact (proj1 (Hok H0)).
Defined.

Lemma alloc_mm_result_witness :
  fst (drm_vram_helper_alloc_mm (hdr := linux_x86_64) (ttm := linux_ttm) mm_ok
         aperture 16777216 no_mm) = 32768 /\
  vram_mm (snd (drm_vram_helper_alloc_mm (hdr := linux_x86_64) (ttm := linux_ttm)
                  mm_fail aperture 16777216 no_mm)) = NULL /\
  dev_dmesg (snd (drm_vram_helper_alloc_mm (hdr := linux_x86_64) (ttm := linux_ttm)
                    mm_fail aperture 16777216 no_mm))
    = [DevCall kzalloc_call; DevCall ttm_bo_device_init_call;
       DevCall (ttm_bo_init_mm_call 2 4096); DevCall (kfree_call 32768)].
Proof.
  assert (Hk : mm_kzalloc mm_ok <> NULL) by (vm_compute; discriminate).
  assert (Hk' : mm_kzalloc mm_fail <> NULL) by (vm_compute; discriminate).
  assert (Hf : init_mm_ret mm_fail <> 0) by (vm_compute; discriminate).
  pose proof (@alloc_mm_result linux_x86_64 linux_ttm mm_ok aperture 16777216 no_mm)
    as Hok.
  pose proof (@alloc_mm_result linux_x86_64 linux_ttm mm_fail aperture 16777216 no_mm)
    as Hfail.
  cbv zeta in Hok, Hfail.
  destruct Hok as (_ & _ & _ & _ & Hok).
  destruct Hfail as (_ & _ & _ & Hfail & _).
  destruct (Hok eq_refl Hk eq_refl eq_refl) as (Hret & _).
  destruct (Hfail eq_refl Hk' eq_refl Hf) as (_ & Hmm & Hlog).
  split; [exact Hret |]. split; [exact Hmm | exact Hlog].
Defined.

Lemma release_mm_result_witness :
  drm_vram_helper_release_mm no_mm = no_mm /\
  vram_mm (drm_vram_helper_release_mm with_mm) = NULL /\
  dev_dmesg (drm_vram_helper_release_mm with_mm)
    = [DevCall ttm_bo_device_release_call; DevCall (kfree_call 32768)].
Proof.
  destruct (release_mm_result no_mm) as (Hnone & _).
  destruct (release_mm_result with_mm) as (_ & Hsome & _).
  assert (Hmm : vram_mm with_mm <> NULL) by (vm_compute; discriminate).
  split; [exact (Hnone eq_refl) |]. exact (Hsome Hmm).
Defined.

Lemma device_calls_need_manager_witness :
  fst (drm_gem_vram_driver_dumb_create (hdr := linux_x86_64) create_ok handle_ok
         dumb_100x50x32 no_mm) = (- 22, dumb_100x50x32) /\
  fst (drm_vram_mm_file_operations_mmap (hdr := linux_x86_64) 0 no_mm) = - 22 /\
  drm_vram_mm_file_operations_mmap (hdr := linux_x86_64) 0 with_mm
    = (0, dev_log (DevCall ttm_bo_mmap_call) with_mm) /\
  fst (drm_vram_mm_file_operations_mmap (hdr := linux_x86_64) 0
         (snd (drm_vram_helper_alloc_mm (hdr := linux_x86_64) (ttm := linux_ttm)
                 mm_fail aperture 16777216 no_mm))) = - 22 /\
  fst (drm_vram_mm_file_operations_mmap (hdr := linux_x86_64) 0
         (snd (drm_vram_helper_alloc_mm (hdr := linux_x86_64) (ttm := linux_ttm)
                 mm_ok aperture 16777216 no_mm))) = 0.
Proof.
  destruct (@device_calls_need_manager linux_x86_64 linux_ttm create_ok handle_ok
              dumb_100x50x32 0 no_mm) as (Hnone & _ & _ & _ & Hfailed & Hset).
  destruct (@device_calls_need_manager linux_x86_64 linux_ttm create_ok handle_ok
              dumb_100x50x32 0 with_mm) as (_ & Hsome & _).
  assert (Hmm : vram_mm with_mm <> NULL) by (vm_compute; discriminate).
  assert (Hk : mm_kzalloc mm_ok <> NULL) by (vm_compute; discriminate).
  assert (Hf : mm_kzalloc mm_fail = NULL \/ device_init_ret mm_fail <> 0 \/
               init_mm_ret mm_fail <> 0)
    by (right; right; vm_compute; discriminate).
  destruct (Hnone eq_refl) as (Hcreate & Hmmap & _).
  split; [exact Hcreate |]. split; [exact Hmmap |].
  split; [exact (proj2 (Hsome Hmm)) |].
  split; [exact (proj1 (Hfailed mm_fail aperture 16777216 eq_refl Hf)) |].
  exact (proj1 (Hset mm_ok aperture 16777216 eq_refl Hk eq_refl eq_refl)).
Defined.

Lemma gt_resume_result_witness :
  exists mid,
    intel_gt_resume (cfg := i915_debug) gt_three []
    = Some (- 5,
            set_engines [set_serial 8 rcs0; set_serial 8 bcs0; vcs0] gt_three,
            [intel_gt_pm_get_call] ++ mid ++ [intel_gt_pm_put_call])
    /\ (forall id, engine_gets id mid = engine_puts id mid).
Proof.
  assert (Hpinned : CONFIG_DRM_I915_DEBUG_GEM (i915_config := i915_debug) = true ->
                    Forall (fun e => kernel_context e <> Some false)
                           (resumed (engines gt_three))).
  { intros _. repeat constructor; discriminate. }
  destruct (@gt_resume_result i915_debug gt_three [] Hpinned)
    as (mid & Hrun & Hbal & _).
  exists mid. split; [exact Hrun | exact Hbal].
Defined.

Lemma gt_resume_bug_iff_witness :
  intel_gt_resume (cfg := i915_debug) (set_engines [rcs0; vcs0; bcs0] gt_three) []
  = None.
Proof.
  apply (@gt_resume_bug_iff i915_debug (set_engines [rcs0; vcs0; bcs0] gt_three) []).
  split; [reflexivity |].
  apply Exists_cons_tl. apply Exists_cons_hd. reflexivity.
Defined.

Lemma gt_pm_enable_result_witness :
  intel_gt_pm_enable (cfg := i915_debug) (set_awake 4294967295 gt_three) []
    = (set_awake 4294967295 gt_three, []) /\
  exists mid,
    intel_gt_pm_enable (cfg := i915_debug) gt_three []
    = (set_engines [set_serial 8 rcs0; set_serial 8 bcs0; set_serial 8 vcs0] gt_three,
       [intel_gt_pm_get_call] ++ mid ++ [intel_gt_pm_put_call])
    /\ (forall id, engine_gets id mid = engine_puts id mid).
Proof.
  destruct (@gt_pm_enable_result i915_debug (set_awake 4294967295 gt_three) [])
    as (Hmock & _).
  destruct (@gt_pm_enable_result i915_debug gt_three []) as (_ & Hreal).
  split; [apply Hmock; right; reflexivity |].
  destruct (Hreal eq_refl eq_refl) as (mid & Hrun & Hbal & _).
  exists mid. split; [exact Hrun | exact Hbal].
Defined.

Lemma gt_unpark_park_round_trip_witness :
  exists gt1 log1 mid,
    __gt_unpark (cfg := i915_debug) 77 gt_three [] = Some (0, gt1, log1)
    /\ awake gt1 = 77
    /\ __gt_park (cfg := i915_debug) gt1 log1
       = Some (0, gt_three,
               [intel_display_power_get_call] ++ mid ++
               [intel_display_power_put_call 77])
    /\ __gt_park (cfg := i915_debug) gt_three [] = None.
Proof.
  assert (Hw : 77 <> 0) by lia.
  destruct (@gt_unpark_park_round_trip i915_debug 77 gt_three [] Hw)
    as (gt1 & log1 & mid & Hun & Hawake & Hpark & _ & _ & _ & _ & Hagain).
  exists gt1, log1, mid.
  split; [exact Hun |]. split; [exact Hawake |]. split; [exact Hpark |].
  exact (Hagain eq_refl []).
Defined.

Lemma fill_create_dumb_size_aligned_witness :
  fst (drm_gem_vram_fill_create_dumb (hdr := linux_x86_64) create_ok handle_ok 0 false
         dumb_100x50x32) = 0 /\
  size (snd (drm_gem_vram_fill_create_dumb (hdr := linux_x86_64) create_ok handle_ok
               0 false dumb_100x50x32)) mod 4096 = 0 /\
  handle (snd (drm_gem_vram_fill_create_dumb (hdr := linux_x86_64) create_ok handle_ok
                 0 false dumb_100x50x32)) = 1.
Proof.
  assert (Hk : 0 <= 12 <= BITS_PER_LONG (kernel_headers := linux_x86_64))
    by (cbn; lia).
  assert (Hbits : BITS_PER_LONG (kernel_headers := linux_x86_64) <= 64) by (cbn; lia).
  assert (Heinval : EINVAL (kernel_headers := linux_x86_64) <> 0) by (cbn; lia).
  pose proof (@fill_create_dumb_size_aligned linux_x86_64 create_ok handle_ok 0 false
                dumb_100x50x32 12 Hk Hbits eq_refl Heinval) as H.
  cbv zeta in H. destruct H as (_ & H).
  destruct (H eq_refl) as (_ & Hmult & _ & Hhandle).
  split; [reflexivity |]. split; [exact Hmult | exact Hhandle].
Defined.

Lemma object_pin_unpin_round_trip_witness :
  pin_count (gbo (snd (drm_gem_vram_object_pin (hdr := linux_x86_64) 0 validate_stay
                         two_tiers))) = 1 /\
  placements
    (gbo (snd (drm_gem_vram_object_unpin (hdr := linux_x86_64) 0 validate_move
                 (snd (drm_gem_vram_object_pin (hdr := linux_x86_64) 0 validate_stay
                         two_tiers)))))
  = placements (gbo two_tiers) /\
  pin_count
    (gbo (snd (drm_gem_vram_object_unpin (hdr := linux_x86_64) (- 512) validate_move
                 (snd (drm_gem_vram_object_pin (hdr := linux_x86_64) 0 validate_stay
                         two_tiers))))) = 1.
Proof.
  assert (Hclean : forall (i : nat) (p : ttm_place),
             (i < num_placement (gbo two_tiers))%nat ->
             nth_error (placements (gbo two_tiers)) i = Some p ->
             Z.land (flags p) (TTM_PL_FLAG_NO_EVICT (kernel_headers := linux_x86_64))
               = 0).
  { intros i p Hi Hp. destruct i as [| [| i]].
    - vm_compute in Hp. inversion Hp. reflexivity.
    - vm_compute in Hp. inversion Hp. reflexivity.
    - vm_compute in Hi. lia. }
  pose proof (@object_pin_unpin_round_trip linux_x86_64 two_tiers 0 0 validate_stay
                validate_move eq_refl Hclean) as H.
  pose proof (@object_pin_unpin_round_trip linux_x86_64 two_tiers 0 (- 512)
                validate_stay validate_move eq_refl Hclean) as Hrefused.
  cbv zeta in H, Hrefused.
  destruct (H eq_refl) as (Hone & Hlocked & _).
  destruct (Hrefused eq_refl) as (_ & _ & Hkept).
  destruct (Hlocked eq_refl) as (_ & _ & Hpls & _).
  split; [exact Hone |]. split; [exact Hpls |].
  assert (Hne : - 512 <> 0) by lia.
  rewrite (proj1 (Hkept Hne)). exact Hone.
Defined.

